(** * gbemu: the PPU mode machine, the APU and the orchestrator tick

    A shallow embedding of [src/video/video.cc], [src/audio/audio.cc] and
    [src/gameboy.cc].  Unsigned machine integers are [Z] with the wrap-around
    written out, [float] is IEEE binary32 through [SpecFloat], vectors and
    arrays are lists with stdpp's lookup and insert. *)

From stdpp Require Import base list gmap.
From Stdlib Require Import ZArith Lia Bool List.
From Stdlib Require Import Floats.SpecFloat.
From Equations Require Import Equations.
Import ListNotations.

Local Open Scope Z_scope.

(** ** Machine integers *)

Definition wrap8 (x : Z) : Z := x mod 256.
Definition wrap16 (x : Z) : Z := x mod 65536.
Definition wrap32 (x : Z) : Z := x mod 4294967296.

(** ** util/bitwise.h and register.h *)

Module bitwise.

(** Modelled from the spec: [util/bitwise.h] is not among the sources; the
    spec's byte register has "bit-set/bit-get", and the call sites use
    [check_bit(v, n)] as a boolean. *)
Definition check_bit (value bit : Z) : bool := Z.testbit value bit.

(** Modelled from the spec: bit [n] of [v] as 0 or 1, which
    [get_pixel_from_line] shifts and ors. *)
Definition bit_value (value bit : Z) : Z := Z.b2z (Z.testbit value bit).

(** Modelled from the spec: "bit-set" to a given boolean.  It is also called
    on the 15-bit LFSR ("place XOR in bit 14"), so it works at the width of
    its argument. *)
Definition set_bit_to (value bit : Z) (bit_on : bool) : Z :=
  if bit_on then Z.setbit value bit else Z.clearbit value bit.

End bitwise.

Module ByteRegister.

(** Modelled from the spec: [register.h] is not among the sources; "an 8-bit
    cell with read/set/bit-set/bit-get/increment operations".  The cell is
    its value, a [Z] below 256. *)
Definition t := Z.

(** Modelled from the spec: "read". *)
Definition value (r : t) : Z := r.

(** Modelled from the spec: "set", of a [u8]. *)
Definition set (new_value : Z) : t := wrap8 new_value.

(** Modelled from the spec: [reset()], which video.cc calls on LY at the end
    of a frame, clears the cell. *)
Definition reset : t := 0.

(** Modelled from the spec: "increment", in 8 bits. *)
Definition increment (r : t) : t := wrap8 (r + 1).

(** Modelled from the spec: "bit-set" to a given boolean. *)
Definition set_bit_to (r : t) (bit : Z) (bit_on : bool) : t :=
  bitwise.set_bit_to r bit bit_on.

End ByteRegister.

(** ** video/color.h, video/framebuffer.h and definitions.h *)

(** Modelled from the spec: [color.h] is not among the sources; "2-bit color
    values {White, LightGray, DarkGray, Black}" on the screen, and the four
    colour indices of a tile pixel before the palette, which video.cc names
    [GBColor::Color0] to [GBColor::Color3]; [Palette] has the four members
    that [load_palette] fills and [get_color_from_palette] reads. *)
Inductive Color := White | LightGray | DarkGray | Black.
Inductive GBColor := Color0 | Color1 | Color2 | Color3.

#[global] Instance Color_eq_dec : EqDecision Color.
Proof. solve_decision. Defined.
#[global] Instance GBColor_eq_dec : EqDecision GBColor.
Proof. solve_decision. Defined.

(** Modelled from the spec: [color.h] is not among the sources; the four
    screen colours a palette register gives the four indices. *)
Record Palette := mkPalette {
  color0 : Color; color1 : Color; color2 : Color; color3 : Color }.

(** Modelled from the spec: [color.h] is not among the sources; [get_color]
    takes the two bits of a pixel to its colour index. *)
Definition get_color (pixel_value : Z) : GBColor :=
  match pixel_value with
  | 0 => Color0 | 1 => Color1 | 2 => Color2 | _ => Color3
  end.

(** Modelled from the spec: [definitions.h] is not among the sources; the
    screen is 160 pixels wide. *)
Definition GAMEBOY_WIDTH : Z := 160.
(** Modelled from the spec: the screen is 144 lines high. *)
Definition GAMEBOY_HEIGHT : Z := 144.
(** Modelled from the spec: the background map is 256 pixels a side
    ("[(SCX+x, SCY+LY)] mod 256"). *)
Definition BG_MAP_SIZE : Z := 256.
(** Modelled from the spec: a tile is 8 pixels wide. *)
Definition TILE_WIDTH_PX : Z := 8.
(** Modelled from the spec: a tile is 8 pixels high. *)
Definition TILE_HEIGHT_PX : Z := 8.
(** Modelled from the spec: a line of the tile map has 32 tiles. *)
Definition TILES_PER_LINE : Z := 32.
(** Modelled from the spec: a tile has two pattern bytes for each of its 8
    rows. *)
Definition TILE_BYTES : Z := 16.
(** Modelled from the spec: 160 bytes of OAM describe 40 sprites. *)
Definition SPRITE_BYTES : Z := 4.
(** Modelled from the spec: the tile data base "0x8000 unsigned". *)
Definition TILE_SET_ZERO_ADDRESS : Z := 0x8000.
(** Modelled from the spec: the tile data base "0x8800 signed". *)
Definition TILE_SET_ONE_ADDRESS : Z := 0x8800.
(** Modelled from the spec: the first tile map of the DMG. *)
Definition TILE_MAP_ZERO_ADDRESS : Z := 0x9800.
(** Modelled from the spec: the second tile map of the DMG. *)
Definition TILE_MAP_ONE_ADDRESS : Z := 0x9C00.
(** Modelled from the spec: "CPU_CLOCK", 4194304 T-states a second. *)
Definition CLOCK_RATE : Z := 4194304.

Module FrameBuffer.

(** Modelled from the spec: [framebuffer.h] is not among the sources; "output
    frame buffer (160x144 pixels, 2-bit GB color)", the pixels stored row
    by row. *)
Record t := mk { width : Z; height : Z; pixels : list Color }.

(** Modelled from the spec: a new buffer is white. *)
Definition make (w h : Z) : t :=
  mk w h (replicate (Z.to_nat (w * h)) White).

(** Modelled from the spec: the place of pixel [(x, y)] in the rows. *)
Definition pixel_index (b : t) (x y : Z) : nat := Z.to_nat (y * width b + x).

(** Modelled from the spec: every call site checks the coordinates first;
    outside the buffer a write changes nothing. *)
Definition set_pixel (x y : Z) (c : Color) (b : t) : t :=
  mk (width b) (height b) (<[pixel_index b x y := c]> (pixels b)).

(** Modelled from the spec: every call site checks the coordinates first;
    outside the buffer a read gives [White]. *)
Definition get_pixel (b : t) (x y : Z) : Color :=
  default White (pixels b !! pixel_index b x y).

(** Modelled from the spec: [reset()], which video.cc calls once the frame
    is handed over, makes the buffer white again. *)
Definition reset (b : t) : t :=
  mk (width b) (height b) (replicate (length (pixels b)) White).

End FrameBuffer.

(** ** video/video.h *)

Inductive VideoMode := ACCESS_OAM | ACCESS_VRAM | HBLANK | VBLANK.

#[global] Instance VideoMode_eq_dec : EqDecision VideoMode.
Proof. solve_decision. Defined.

Definition CLOCKS_PER_HBLANK : Z := 204.
Definition CLOCKS_PER_SCANLINE_OAM : Z := 80.
Definition CLOCKS_PER_SCANLINE_VRAM : Z := 172.
Definition CLOCKS_PER_SCANLINE : Z :=
  CLOCKS_PER_SCANLINE_OAM + CLOCKS_PER_SCANLINE_VRAM + CLOCKS_PER_HBLANK.
Definition CLOCKS_PER_VBLANK : Z := 4560.
Definition SCANLINES_PER_FRAME : Z := 144.
Definition CLOCKS_PER_FRAME : Z :=
  CLOCKS_PER_SCANLINE * SCANLINES_PER_FRAME + CLOCKS_PER_VBLANK.

Record Video := mkVideo {
  control_byte : Z;
  lcd_status : ByteRegister.t;
  scroll_y : ByteRegister.t;
  scroll_x : ByteRegister.t;
  line : ByteRegister.t;
  ly_compare : ByteRegister.t;
  window_y : ByteRegister.t;
  window_x : ByteRegister.t;
  bg_palette : ByteRegister.t;
  sprite_palette_0 : ByteRegister.t;
  sprite_palette_1 : ByteRegister.t;
  debug_disable_background : bool;
  debug_disable_sprites : bool;
  debug_disable_window : bool;
  buffer : FrameBuffer.t;
  current_mode : VideoMode;
  cycle_counter : Z }.

(** The state of a freshly constructed [Video]: the member initialisers of
    video.h and the constructor of video.cc.  [control_byte] has no
    initialiser and is taken as 0; [video_ram] (behind [Video::read] and
    [Video::write]) and [background_map] take no part in [tick] and are left
    out. *)
Definition Video_new : Video :=
  {| control_byte := 0; lcd_status := 0; scroll_y := 0; scroll_x := 0;
     line := 0; ly_compare := 0; window_y := 0; window_x := 0;
     bg_palette := 0; sprite_palette_0 := 0; sprite_palette_1 := 0;
     debug_disable_background := false; debug_disable_sprites := false;
     debug_disable_window := false;
     buffer := FrameBuffer.make GAMEBOY_WIDTH GAMEBOY_HEIGHT;
     current_mode := ACCESS_OAM; cycle_counter := 0 |}.

Definition set_lcd_status (s : ByteRegister.t) (v : Video) : Video :=
  mkVideo (control_byte v) s (scroll_y v) (scroll_x v) (line v) (ly_compare v)
    (window_y v) (window_x v) (bg_palette v) (sprite_palette_0 v)
    (sprite_palette_1 v) (debug_disable_background v) (debug_disable_sprites v)
    (debug_disable_window v) (buffer v) (current_mode v) (cycle_counter v).

Definition set_line (l : ByteRegister.t) (v : Video) : Video :=
  mkVideo (control_byte v) (lcd_status v) (scroll_y v) (scroll_x v) l
    (ly_compare v) (window_y v) (window_x v) (bg_palette v)
    (sprite_palette_0 v) (sprite_palette_1 v) (debug_disable_background v)
    (debug_disable_sprites v) (debug_disable_window v) (buffer v)
    (current_mode v) (cycle_counter v).

Definition set_buffer (b : FrameBuffer.t) (v : Video) : Video :=
  mkVideo (control_byte v) (lcd_status v) (scroll_y v) (scroll_x v) (line v)
    (ly_compare v) (window_y v) (window_x v) (bg_palette v)
    (sprite_palette_0 v) (sprite_palette_1 v) (debug_disable_background v)
    (debug_disable_sprites v) (debug_disable_window v) b
    (current_mode v) (cycle_counter v).

Definition set_current_mode (m : VideoMode) (v : Video) : Video :=
  mkVideo (control_byte v) (lcd_status v) (scroll_y v) (scroll_x v) (line v)
    (ly_compare v) (window_y v) (window_x v) (bg_palette v)
    (sprite_palette_0 v) (sprite_palette_1 v) (debug_disable_background v)
    (debug_disable_sprites v) (debug_disable_window v) (buffer v)
    m (cycle_counter v).

Definition set_cycle_counter (c : Z) (v : Video) : Video :=
  mkVideo (control_byte v) (lcd_status v) (scroll_y v) (scroll_x v) (line v)
    (ly_compare v) (window_y v) (window_x v) (bg_palette v)
    (sprite_palette_0 v) (sprite_palette_1 v) (debug_disable_background v)
    (debug_disable_sprites v) (debug_disable_window v) (buffer v)
    (current_mode v) c.

(** [lcd_status.set_bit_to(bit, on)] *)
Definition lcd_status_set_bit_to (bit : Z) (on : bool) (v : Video) : Video :=
  set_lcd_status (ByteRegister.set_bit_to (lcd_status v) bit on) v.

Definition display_enabled (v : Video) : bool := bitwise.check_bit (control_byte v) 7.
Definition window_tile_map (v : Video) : bool := bitwise.check_bit (control_byte v) 6.
Definition window_enabled (v : Video) : bool := bitwise.check_bit (control_byte v) 5.
Definition bg_window_tile_data (v : Video) : bool := bitwise.check_bit (control_byte v) 4.
Definition bg_tile_map_display (v : Video) : bool := bitwise.check_bit (control_byte v) 3.
Definition sprite_size (v : Video) : bool := bitwise.check_bit (control_byte v) 2.
Definition sprites_enabled (v : Video) : bool := bitwise.check_bit (control_byte v) 1.
Definition bg_enabled (v : Video) : bool := bitwise.check_bit (control_byte v) 0.

(** ** video/video.cc: rendering *)

Definition to_s8 (b : Z) : Z := if 128 <=? b then b - 256 else b.

Definition get_pixel_from_line (byte1 byte2 pixel_index : Z) : GBColor :=
  let color_u8 :=
    wrap8 (Z.lor (Z.shiftl (bitwise.bit_value byte2 (7 - pixel_index)) 1)
                 (bitwise.bit_value byte1 (7 - pixel_index))) in
  get_color color_u8.

Definition is_on_screen_x (x : Z) : bool := x <? GAMEBOY_WIDTH.
Definition is_on_screen_y (y : Z) : bool := y <? GAMEBOY_HEIGHT.
(** The parameters are [u8]: the caller's [int] coordinates are truncated. *)
Definition is_on_screen (x y : Z) : bool :=
  is_on_screen_x (wrap8 x) && is_on_screen_y (wrap8 y).

Definition get_real_color (pixel_value : Z) : Color :=
  match pixel_value with
  | 0 => White | 1 => LightGray | 2 => DarkGray | _ => Black
  end.

Definition load_palette (palette_register : ByteRegister.t) : Palette :=
  let palette_value := ByteRegister.value palette_register in
  let c0 := Z.land palette_value 0x03 in
  let c1 := Z.land (Z.shiftr palette_value 2) 0x03 in
  let c2 := Z.land (Z.shiftr palette_value 4) 0x03 in
  let c3 := Z.land (Z.shiftr palette_value 6) 0x03 in
  mkPalette (get_real_color c0) (get_real_color c1)
            (get_real_color c2) (get_real_color c3).

Definition get_color_from_palette (c : GBColor) (p : Palette) : Color :=
  match c with
  | Color0 => color0 p | Color1 => color1 p
  | Color2 => color2 p | Color3 => color3 p
  end.

(** The colour on the screen read back as a colour index: the buffer holds
    colours after the palette was applied. *)
Definition get_original_color_at (v : Video) (x y : Z) : GBColor :=
  let current_color := FrameBuffer.get_pixel (buffer v) (wrap8 x) (wrap8 y) in
  match current_color with
  | White => Color0 | LightGray => Color1 | DarkGray => Color2 | Black => Color3
  end.

(** [for (uint i = 0; i < n; i++)] *)
Definition upto (n : Z) : list Z := map Z.of_nat (seq 0 (Z.to_nat n)).

Section Rendering.

(** [gb.mmu.read]: mmu.h is not among the sources, and rendering writes
    no memory, so the bus is a function from addresses to bytes. *)
Variable mmu_read : Z -> Z.

(** [Tile(pattern_address, gb.mmu, size_multiplier).get_pixel(x, y)]:
    tile.h is not among the sources. *)
Variable tile_get_pixel : Z -> Z -> Z -> Z -> GBColor.

Definition read (address : Z) : Z := wrap8 (mmu_read (wrap16 address)).

(** The second half of the loop bodies of [draw_bg_line] and
    [draw_window_line], which is the same text in both: from the tile index
    to the pixel written, through the per-line cache of tile rows. *)
Definition draw_tile_pixel (use_tile_set_zero : bool)
    (tile_set_address tile_map_address : Z) (palette : Palette)
    (tile_x tile_y tile_pixel_x tile_pixel_y screen_x screen_y : Z)
    (st : gmap Z (Z * Z) * FrameBuffer.t) : gmap Z (Z * Z) * FrameBuffer.t :=
  let '(tile_line_cache, buf) := st in
  let tile_index := wrap32 (tile_y * TILES_PER_LINE + tile_x) in
  let tile_id_address := wrap16 (tile_map_address + tile_index) in
  let tile_id := read tile_id_address in
  let tile_data_mem_offset :=
    if use_tile_set_zero then wrap32 (tile_id * TILE_BYTES)
    else wrap32 ((to_s8 tile_id + 128) * TILE_BYTES) in
  let tile_data_line_offset := wrap32 (tile_pixel_y * 2) in
  let tile_line_data_start_address :=
    wrap16 (wrap16 (tile_set_address + tile_data_mem_offset)
            + tile_data_line_offset) in
  let cache_key := tile_line_data_start_address in
  let '(line_data, tile_line_cache') :=
    match tile_line_cache !! cache_key with
    | None =>
        let d := (read tile_line_data_start_address,
                  read (wrap16 (tile_line_data_start_address + 1))) in
        (d, <[cache_key := d]> tile_line_cache)
    | Some d => (d, tile_line_cache)
    end in
  let pixel_color :=
    get_pixel_from_line (fst line_data) (snd line_data) (wrap8 tile_pixel_x) in
  let screen_color := get_color_from_palette pixel_color palette in
  (tile_line_cache', FrameBuffer.set_pixel screen_x screen_y screen_color buf).

Definition draw_bg_line (current_line : Z) (v : Video) : Video :=
  let use_tile_set_zero := bg_window_tile_data v in
  let use_tile_map_zero := negb (bg_tile_map_display v) in
  let palette := load_palette (bg_palette v) in
  let tile_set_address :=
    if use_tile_set_zero then TILE_SET_ZERO_ADDRESS else TILE_SET_ONE_ADDRESS in
  let tile_map_address :=
    if use_tile_map_zero then TILE_MAP_ZERO_ADDRESS else TILE_MAP_ONE_ADDRESS in
  let screen_y := current_line in
  let body st screen_x :=
    let scrolled_x := wrap32 (screen_x + ByteRegister.value (scroll_x v)) in
    let scrolled_y := wrap32 (screen_y + ByteRegister.value (scroll_y v)) in
    let bg_map_x := scrolled_x mod BG_MAP_SIZE in
    let by_map_y := scrolled_y mod BG_MAP_SIZE in
    let tile_x := bg_map_x / TILE_WIDTH_PX in
    let tile_y := by_map_y / TILE_HEIGHT_PX in
    let tile_pixel_x := bg_map_x mod TILE_WIDTH_PX in
    let tile_pixel_y := by_map_y mod TILE_HEIGHT_PX in
    draw_tile_pixel use_tile_set_zero tile_set_address tile_map_address
      palette tile_x tile_y tile_pixel_x tile_pixel_y screen_x screen_y st in
  set_buffer (snd (fold_left body (upto GAMEBOY_WIDTH) (∅, buffer v))) v.

Definition draw_window_line (current_line : Z) (v : Video) : Video :=
  let use_tile_set_zero := bg_window_tile_data v in
  let use_tile_map_zero := negb (window_tile_map v) in
  let palette := load_palette (bg_palette v) in
  let tile_set_address :=
    if use_tile_set_zero then TILE_SET_ZERO_ADDRESS else TILE_SET_ONE_ADDRESS in
  let tile_map_address :=
    if use_tile_map_zero then TILE_MAP_ZERO_ADDRESS else TILE_MAP_ONE_ADDRESS in
  let screen_y := current_line in
  let scrolled_y := wrap32 (screen_y - ByteRegister.value (window_y v)) in
  if GAMEBOY_HEIGHT <=? scrolled_y then v
  else
    let body st screen_x :=
      let scrolled_x :=
        wrap32 (screen_x + ByteRegister.value (window_x v) - 7) in
      let tile_x := scrolled_x / TILE_WIDTH_PX in
      let tile_y := scrolled_y / TILE_HEIGHT_PX in
      let tile_pixel_x := scrolled_x mod TILE_WIDTH_PX in
      let tile_pixel_y := scrolled_y mod TILE_HEIGHT_PX in
      draw_tile_pixel use_tile_set_zero tile_set_address tile_map_address
        palette tile_x tile_y tile_pixel_x tile_pixel_y screen_x screen_y st in
    set_buffer (snd (fold_left body (upto GAMEBOY_WIDTH) (∅, buffer v))) v.

Definition write_scanline (current_line : Z) (v : Video) : Video :=
  if negb (display_enabled v) then v
  else
    let v1 :=
      if bg_enabled v && negb (debug_disable_background v)
      then draw_bg_line current_line v else v in
    if window_enabled v1 && negb (debug_disable_window v1)
    then draw_window_line current_line v1 else v1.

(** One iteration of the inner loop of [draw_sprite], at tile pixel
    [(x, y)]; each [continue] leaves the buffer as it is. *)
Definition draw_sprite_pixel (size_multiplier pattern_address : Z)
    (flip_x flip_y obj_behind_bg : bool) (palette : Palette)
    (start_x start_y : Z) (y x : Z) (v : Video) : Video :=
  let maybe_flipped_y :=
    if negb flip_y then y
    else wrap32 (TILE_HEIGHT_PX * size_multiplier - y - 1) in
  let maybe_flipped_x :=
    if negb flip_x then x else wrap32 (TILE_WIDTH_PX - x - 1) in
  let gb_color :=
    tile_get_pixel pattern_address size_multiplier
                   maybe_flipped_x maybe_flipped_y in
  if decide (gb_color = Color0) then v
  else
    let screen_x := start_x + x in
    let screen_y := start_y + y in
    if negb (is_on_screen screen_x screen_y) then v
    else
      let bg_gb_color := get_original_color_at v screen_x screen_y in
      if obj_behind_bg && negb (bool_decide (bg_gb_color = Color0)) then v
      else
        let screen_color := get_color_from_palette gb_color palette in
        set_buffer
          (FrameBuffer.set_pixel screen_x screen_y screen_color (buffer v)) v.

Definition draw_sprite (sprite_n : Z) (v : Video) : Video :=
  let offset_in_oam := wrap16 (sprite_n * SPRITE_BYTES) in
  let oam_start := wrap16 (0xFE00 + offset_in_oam) in
  let sprite_y := read oam_start in
  let sprite_x := read (oam_start + 1) in
  if (sprite_y =? 0) || (160 <=? sprite_y) then v
  else if (sprite_x =? 0) || (168 <=? sprite_x) then v
  else
    let sprite_size_multiplier := if sprite_size v then 2 else 1 in
    let tile_set_location := TILE_SET_ZERO_ADDRESS in
    let pattern_n := read (oam_start + 2) in
    let sprite_attrs := read (oam_start + 3) in
    let use_palette_1 := bitwise.check_bit sprite_attrs 4 in
    let flip_x := bitwise.check_bit sprite_attrs 5 in
    let flip_y := bitwise.check_bit sprite_attrs 6 in
    let obj_behind_bg := bitwise.check_bit sprite_attrs 7 in
    let palette :=
      if use_palette_1 then load_palette (sprite_palette_1 v)
      else load_palette (sprite_palette_0 v) in
    let tile_offset := wrap32 (pattern_n * TILE_BYTES) in
    let pattern_address := wrap16 (tile_set_location + tile_offset) in
    let start_y := sprite_y - 16 in
    let start_x := sprite_x - 8 in
    fold_left
      (fun v' y =>
         fold_left
           (fun v'' x =>
              draw_sprite_pixel sprite_size_multiplier pattern_address
                flip_x flip_y obj_behind_bg palette start_x start_y y x v'')
           (upto TILE_WIDTH_PX) v')
      (upto (TILE_HEIGHT_PX * sprite_size_multiplier)) v.

Definition write_sprites (v : Video) : Video :=
  if negb (sprites_enabled v) || debug_disable_sprites v then v
  else fold_left (fun v' sprite_n => draw_sprite sprite_n v') (upto 40) v.

End Rendering.

(** ** video/video.cc: the mode machine *)

(** What [Video::tick] touches outside the [Video] object: the CPU's
    interrupt-flag register ([gb.cpu.interrupt_flag]) and the host, which
    [draw] hands the finished frame through [vblank_callback]. *)
Record PPU := mkPPU {
  video : Video;
  interrupt_flag : ByteRegister.t;
  vblank_frames : list FrameBuffer.t }.

Definition on_video (f : Video -> Video) (s : PPU) : PPU :=
  mkPPU (f (video s)) (interrupt_flag s) (vblank_frames s).

(** [gb.cpu.interrupt_flag.set_bit_to(bit, true)] *)
Definition raise_interrupt (bit : Z) (s : PPU) : PPU :=
  mkPPU (video s) (ByteRegister.set_bit_to (interrupt_flag s) bit true)
        (vblank_frames s).

(** [draw()]: the callback receives the buffer as it is now. *)
Definition draw (s : PPU) : PPU :=
  mkPPU (video s) (interrupt_flag s) (vblank_frames s ++ [buffer (video s)]).

Section Tick.

Variable mmu_read : Z -> Z.
Variable tile_get_pixel : Z -> Z -> Z -> Z -> GBColor.

Definition Video_tick (cycles : Z) (s0 : PPU) : PPU :=
  let s :=
    on_video (fun v => set_cycle_counter (wrap32 (cycle_counter v + cycles)) v)
             s0 in
  let v := video s in
  match current_mode v with
  | ACCESS_OAM =>
      if CLOCKS_PER_SCANLINE_OAM <=? cycle_counter v then
        let s := on_video (set_cycle_counter
                   (cycle_counter v mod CLOCKS_PER_SCANLINE_OAM)) s in
        let s := on_video (lcd_status_set_bit_to 1 true) s in
        let s := on_video (lcd_status_set_bit_to 0 true) s in
        on_video (set_current_mode ACCESS_VRAM) s
      else s
  | ACCESS_VRAM =>
      if CLOCKS_PER_SCANLINE_VRAM <=? cycle_counter v then
        let s := on_video (set_cycle_counter
                   (cycle_counter v mod CLOCKS_PER_SCANLINE_VRAM)) s in
        let s := on_video (set_current_mode HBLANK) s in
        let hblank_interrupt :=
          bitwise.check_bit (ByteRegister.value (lcd_status v)) 3 in
        let s := if hblank_interrupt then raise_interrupt 1 s else s in
        let ly_coincidence_interrupt :=
          bitwise.check_bit (ByteRegister.value (lcd_status v)) 6 in
        let ly_coincidence :=
          ByteRegister.value (ly_compare v) =? ByteRegister.value (line v) in
        let s := if ly_coincidence_interrupt && ly_coincidence
                 then raise_interrupt 1 s else s in
        let s := on_video (lcd_status_set_bit_to 2 ly_coincidence) s in
        let s := on_video (lcd_status_set_bit_to 1 false) s in
        on_video (lcd_status_set_bit_to 0 false) s
      else s
  | HBLANK =>
      if CLOCKS_PER_HBLANK <=? cycle_counter v then
        let s := on_video
                   (write_scanline mmu_read (ByteRegister.value (line v))) s in
        let s := on_video
                   (fun v' => set_line (ByteRegister.increment (line v')) v')
                   s in
        let s := on_video (set_cycle_counter
                   (cycle_counter v mod CLOCKS_PER_HBLANK)) s in
        if line (video s) =? 144 then
          let s := on_video (set_current_mode VBLANK) s in
          let s := on_video (lcd_status_set_bit_to 1 false) s in
          let s := on_video (lcd_status_set_bit_to 0 true) s in
          raise_interrupt 0 s
        else
          let s := on_video (lcd_status_set_bit_to 1 true) s in
          let s := on_video (lcd_status_set_bit_to 0 false) s in
          on_video (set_current_mode ACCESS_OAM) s
      else s
  | VBLANK =>
      if CLOCKS_PER_SCANLINE <=? cycle_counter v then
        let s := on_video
                   (fun v' => set_line (ByteRegister.increment (line v')) v')
                   s in
        let s := on_video (set_cycle_counter
                   (cycle_counter v mod CLOCKS_PER_SCANLINE)) s in
        if line (video s) =? 154 then
          let s := on_video (write_sprites mmu_read tile_get_pixel) s in
          let s := draw s in
          let s := on_video
                     (fun v' => set_buffer (FrameBuffer.reset (buffer v')) v')
                     s in
          let s := on_video (set_line ByteRegister.reset) s in
          let s := on_video (set_current_mode ACCESS_OAM) s in
          let s := on_video (lcd_status_set_bit_to 1 true) s in
          on_video (lcd_status_set_bit_to 0 false) s
        else s
      else s
  end.

(** A run of ticks, one per CPU step. *)
Definition Video_run (cycles : list Z) (s : PPU) : PPU :=
  fold_left (fun s' c => Video_tick c s') cycles s.

End Tick.

(** The PPU of a machine that was just constructed. *)
Definition PPU_new : PPU := mkPPU Video_new 0 [].

(** *** The frame schedule in the spec's words

    "Per scanline: OAM-scan (80 T-states), VRAM-access (172), HBlank (204); 144
    such lines, then VBlank (10 lines x 456)": where the PPU is when [t]
    T-states of a frame have gone by, as (mode, LY, T-states into the mode;
    in VBlank, into the line). *)
Definition schedule (t : Z) : VideoMode * Z * Z :=
  let ly := t / 456 in
  let r := t mod 456 in
  if ly <? 144 then
    if r <? 80 then (ACCESS_OAM, ly, r)
    else if r <? 80 + 172 then (ACCESS_VRAM, ly, r - 80)
    else (HBLANK, ly, r - (80 + 172))
  else (VBLANK, ly, r).

Definition phase (s : PPU) : VideoMode * Z * Z :=
  (current_mode (video s), ByteRegister.value (line (video s)),
   cycle_counter (video s)).

Definition sum_cycles (cycles : list Z) : Z := fold_right Z.add 0 cycles.

(** ** audio/audio.h and audio/audio.cc *)

(** [float]: IEEE 754 binary32, 24 bits of precision. *)
Module F32.

Definition prec : Z := 24.
Definition emax : Z := 128.

Definition add := SFadd prec emax.
Definition mul := SFmul prec emax.
Definition div := SFdiv prec emax.
Definition sub := SFsub prec emax.
Definition opp := SFopp.
Definition ltb := SFltb.
Definition leb := SFleb.

(** [(float)n], and the literals of audio.cc *)
Definition of_Z (n : Z) : spec_float := binary_normalize prec emax n 0 false.
Definition zero : spec_float := S754_zero false.
Definition one : spec_float := of_Z 1.
Definition minus_one : spec_float := opp one.
Definition seven_and_a_half : spec_float :=
  binary_normalize prec emax 15 (-1) false.
Definition half : spec_float := binary_normalize prec emax 1 (-1) false.
Definition quarter : spec_float := binary_normalize prec emax 1 (-2) false.

(** [std::min(a, b)] is [(b < a) ? b : a] and [std::max(a, b)] is
    [(a < b) ? b : a]. *)
Definition min (a b : spec_float) : spec_float := if ltb b a then b else a.
Definition max (a b : spec_float) : spec_float := if ltb a b then b else a.

(** The closed interval [-1.0, 1.0]. *)
Definition in_unit_range (x : spec_float) : bool :=
  leb minus_one x && leb x one.

End F32.

Abbreviation float := spec_float.

Definition duty_patterns : list (list bool) :=
  [ [false; false; false; false; false; false; false; true];
    [false; false; false; false; false; false; true; true];
    [false; false; false; false; true; true; true; true];
    [true; true; true; true; true; true; false; false] ].

Definition divisors : list Z := [8; 16; 32; 48; 64; 80; 96; 112].

(** Channel 1: tone and sweep.  The fields of the base class [SoundChannel]
    come first in every channel record, and [with_f x c] is [c] with field
    [f] set to [x].  The private [update_frequency] is called nowhere and is
    left out. *)
Module ToneSweepChannel.

Record t := mk {
  enabled : bool;
  volume : Z;
  length_counter : Z;
  length_enabled : bool;
  sweep_time : Z;
  sweep_decrease : bool;
  sweep_shift : Z;
  duty_pattern : Z;
  duty_position : Z;
  envelope_initial_volume : Z;
  envelope_increase : bool;
  envelope_sweep_pace : Z;
  frequency : Z;
  timer : Z }.

Definition with_enabled (x : bool) (c : t) : t :=
  mk x (volume c) (length_counter c) (length_enabled c) (sweep_time c)
    (sweep_decrease c) (sweep_shift c) (duty_pattern c) (duty_position c)
    (envelope_initial_volume c) (envelope_increase c)
    (envelope_sweep_pace c) (frequency c) (timer c).
Definition with_volume (x : Z) (c : t) : t :=
  mk (enabled c) x (length_counter c) (length_enabled c) (sweep_time c)
    (sweep_decrease c) (sweep_shift c) (duty_pattern c) (duty_position c)
    (envelope_initial_volume c) (envelope_increase c)
    (envelope_sweep_pace c) (frequency c) (timer c).
Definition with_length_counter (x : Z) (c : t) : t :=
  mk (enabled c) (volume c) x (length_enabled c) (sweep_time c)
    (sweep_decrease c) (sweep_shift c) (duty_pattern c) (duty_position c)
    (envelope_initial_volume c) (envelope_increase c)
    (envelope_sweep_pace c) (frequency c) (timer c).
Definition with_length_enabled (x : bool) (c : t) : t :=
  mk (enabled c) (volume c) (length_counter c) x (sweep_time c)
    (sweep_decrease c) (sweep_shift c) (duty_pattern c) (duty_position c)
    (envelope_initial_volume c) (envelope_increase c)
    (envelope_sweep_pace c) (frequency c) (timer c).
Definition with_sweep_time (x : Z) (c : t) : t :=
  mk (enabled c) (volume c) (length_counter c) (length_enabled c) x
    (sweep_decrease c) (sweep_shift c) (duty_pattern c) (duty_position c)
    (envelope_initial_volume c) (envelope_increase c)
    (envelope_sweep_pace c) (frequency c) (timer c).
Definition with_sweep_decrease (x : bool) (c : t) : t :=
  mk (enabled c) (volume c) (length_counter c) (length_enabled c)
    (sweep_time c) x (sweep_shift c) (duty_pattern c) (duty_position c)
    (envelope_initial_volume c) (envelope_increase c)
    (envelope_sweep_pace c) (frequency c) (timer c).
Definition with_sweep_shift (x : Z) (c : t) : t :=
  mk (enabled c) (volume c) (length_counter c) (length_enabled c)
    (sweep_time c) (sweep_decrease c) x (duty_pattern c) (duty_position c)
    (envelope_initial_volume c) (envelope_increase c)
    (envelope_sweep_pace c) (frequency c) (timer c).
Definition with_duty_pattern (x : Z) (c : t) : t :=
  mk (enabled c) (volume c) (length_counter c) (length_enabled c)
    (sweep_time c) (sweep_decrease c) (sweep_shift c) x (duty_position c)
    (envelope_initial_volume c) (envelope_increase c)
    (envelope_sweep_pace c) (frequency c) (timer c).
Definition with_duty_position (x : Z) (c : t) : t :=
  mk (enabled c) (volume c) (length_counter c) (length_enabled c)
    (sweep_time c) (sweep_decrease c) (sweep_shift c) (duty_pattern c) x
    (envelope_initial_volume c) (envelope_increase c)
    (envelope_sweep_pace c) (frequency c) (timer c).
Definition with_envelope_initial_volume (x : Z) (c : t) : t :=
  mk (enabled c) (volume c) (length_counter c) (length_enabled c)
    (sweep_time c) (sweep_decrease c) (sweep_shift c) (duty_pattern c)
    (duty_position c) x (envelope_increase c) (envelope_sweep_pace c)
    (frequency c) (timer c).
Definition with_envelope_increase (x : bool) (c : t) : t :=
  mk (enabled c) (volume c) (length_counter c) (length_enabled c)
    (sweep_time c) (sweep_decrease c) (sweep_shift c) (duty_pattern c)
    (duty_position c) (envelope_initial_volume c) x (envelope_sweep_pace c)
    (frequency c) (timer c).
Definition with_envelope_sweep_pace (x : Z) (c : t) : t :=
  mk (enabled c) (volume c) (length_counter c) (length_enabled c)
    (sweep_time c) (sweep_decrease c) (sweep_shift c) (duty_pattern c)
    (duty_position c) (envelope_initial_volume c) (envelope_increase c) x
    (frequency c) (timer c).
Definition with_frequency (x : Z) (c : t) : t :=
  mk (enabled c) (volume c) (length_counter c) (length_enabled c)
    (sweep_time c) (sweep_decrease c) (sweep_shift c) (duty_pattern c)
    (duty_position c) (envelope_initial_volume c) (envelope_increase c)
    (envelope_sweep_pace c) x (timer c).
Definition with_timer (x : Z) (c : t) : t :=
  mk (enabled c) (volume c) (length_counter c) (length_enabled c)
    (sweep_time c) (sweep_decrease c) (sweep_shift c) (duty_pattern c)
    (duty_position c) (envelope_initial_volume c) (envelope_increase c)
    (envelope_sweep_pace c) (frequency c) x.

Definition new : t :=
  mk false 0 0 false 0 false 0 0 0 0 false 0 0 0.

Definition is_enabled (c : t) : bool := enabled c.
Definition set_enabled (value : bool) (c : t) : t := with_enabled value c.
Definition get_volume (c : t) : Z := volume c.

Definition tick (cycles : Z) (c : t) : t :=
  if negb (enabled c) then c
  else if cycles <? timer c then with_timer (timer c - cycles) c
  else
    let c := with_duty_position (wrap8 ((duty_position c + 1) mod 8)) c in
    let freq_val := frequency c in
    let freq_val := if 2047 <? freq_val then 2047 else freq_val in
    let c := with_timer (wrap32 ((2048 - freq_val) * 4)) c in
    if timer c =? 0 then with_timer (8192 * 4) c else c.

Definition get_sample (c : t) : float :=
  if negb (enabled c) then F32.zero
  else
    let high :=
      default false
        (default [] (duty_patterns !! Z.to_nat (duty_pattern c))
           !! Z.to_nat (duty_position c)) in
    if high then F32.div (F32.of_Z (volume c)) (F32.of_Z 15)
    else F32.opp (F32.div (F32.of_Z (volume c)) (F32.of_Z 15)).

Definition set_sweep_register (value : Z) (c : t) : t :=
  let c := with_sweep_time (Z.land (Z.shiftr value 4) 0x07) c in
  let c := with_sweep_decrease (bitwise.check_bit value 3) c in
  with_sweep_shift (Z.land value 0x07) c.

Definition set_length_duty_register (value : Z) (c : t) : t :=
  let c := with_duty_pattern (Z.land (Z.shiftr value 6) 0x03) c in
  with_length_counter (wrap32 (64 - Z.land value 0x3F)) c.

Definition set_volume_envelope_register (value : Z) (c : t) : t :=
  let c := with_envelope_initial_volume (Z.land (Z.shiftr value 4) 0x0F) c in
  let c := with_envelope_increase (bitwise.check_bit value 3) c in
  let c := with_envelope_sweep_pace (Z.land value 0x07) c in
  with_volume (envelope_initial_volume c) c.

Definition set_frequency_lo_register (value : Z) (c : t) : t :=
  with_frequency (Z.lor (Z.land (frequency c) 0x700) value) c.

Definition set_frequency_hi_register (value : Z) (c : t) : t :=
  let c :=
    with_frequency
      (Z.lor (Z.land (frequency c) 0xFF) (Z.shiftl (Z.land value 0x07) 8)) c in
  let c :=
    if bitwise.check_bit value 7 then
      let c := with_enabled true c in
      let freq_val := frequency c in
      let freq_val := if 2047 <? freq_val then 2047 else freq_val in
      let c := with_timer (wrap32 ((2048 - freq_val) * 4)) c in
      let c := if timer c =? 0 then with_timer (8192 * 4) c else c in
      let c := if length_counter c =? 0 then with_length_counter 64 c else c in
      let c := with_duty_position 0 c in
      with_volume (envelope_initial_volume c) c
    else c in
  with_length_enabled (bitwise.check_bit value 6) c.

End ToneSweepChannel.

(** Channel 2: tone. *)
Module ToneChannel.

Record t := mk {
  enabled : bool;
  volume : Z;
  length_counter : Z;
  length_enabled : bool;
  duty_pattern : Z;
  duty_position : Z;
  envelope_initial_volume : Z;
  envelope_increase : bool;
  envelope_sweep_pace : Z;
  frequency : Z;
  timer : Z }.

Definition with_enabled (x : bool) (c : t) : t :=
  mk x (volume c) (length_counter c) (length_enabled c) (duty_pattern c)
    (duty_position c) (envelope_initial_volume c) (envelope_increase c)
    (envelope_sweep_pace c) (frequency c) (timer c).
Definition with_volume (x : Z) (c : t) : t :=
  mk (enabled c) x (length_counter c) (length_enabled c) (duty_pattern c)
    (duty_position c) (envelope_initial_volume c) (envelope_increase c)
    (envelope_sweep_pace c) (frequency c) (timer c).
Definition with_length_counter (x : Z) (c : t) : t :=
  mk (enabled c) (volume c) x (length_enabled c) (duty_pattern c)
    (duty_position c) (envelope_initial_volume c) (envelope_increase c)
    (envelope_sweep_pace c) (frequency c) (timer c).
Definition with_length_enabled (x : bool) (c : t) : t :=
  mk (enabled c) (volume c) (length_counter c) x (duty_pattern c)
    (duty_position c) (envelope_initial_volume c) (envelope_increase c)
    (envelope_sweep_pace c) (frequency c) (timer c).
Definition with_duty_pattern (x : Z) (c : t) : t :=
  mk (enabled c) (volume c) (length_counter c) (length_enabled c) x
    (duty_position c) (envelope_initial_volume c) (envelope_increase c)
    (envelope_sweep_pace c) (frequency c) (timer c).
Definition with_duty_position (x : Z) (c : t) : t :=
  mk (enabled c) (volume c) (length_counter c) (length_enabled c)
    (duty_pattern c) x (envelope_initial_volume c) (envelope_increase c)
    (envelope_sweep_pace c) (frequency c) (timer c).
Definition with_envelope_initial_volume (x : Z) (c : t) : t :=
  mk (enabled c) (volume c) (length_counter c) (length_enabled c)
    (duty_pattern c) (duty_position c) x (envelope_increase c)
    (envelope_sweep_pace c) (frequency c) (timer c).
Definition with_envelope_increase (x : bool) (c : t) : t :=
  mk (enabled c) (volume c) (length_counter c) (length_enabled c)
    (duty_pattern c) (duty_position c) (envelope_initial_volume c) x
    (envelope_sweep_pace c) (frequency c) (timer c).
Definition with_envelope_sweep_pace (x : Z) (c : t) : t :=
  mk (enabled c) (volume c) (length_counter c) (length_enabled c)
    (duty_pattern c) (duty_position c) (envelope_initial_volume c)
    (envelope_increase c) x (frequency c) (timer c).
Definition with_frequency (x : Z) (c : t) : t :=
  mk (enabled c) (volume c) (length_counter c) (length_enabled c)
    (duty_pattern c) (duty_position c) (envelope_initial_volume c)
    (envelope_increase c) (envelope_sweep_pace c) x (timer c).
Definition with_timer (x : Z) (c : t) : t :=
  mk (enabled c) (volume c) (length_counter c) (length_enabled c)
    (duty_pattern c) (duty_position c) (envelope_initial_volume c)
    (envelope_increase c) (envelope_sweep_pace c) (frequency c) x.

Definition new : t := mk false 0 0 false 0 0 0 false 0 0 0.

Definition is_enabled (c : t) : bool := enabled c.
Definition set_enabled (value : bool) (c : t) : t := with_enabled value c.
Definition get_volume (c : t) : Z := volume c.

Definition tick (cycles : Z) (c : t) : t :=
  if negb (enabled c) then c
  else if cycles <? timer c then with_timer (timer c - cycles) c
  else
    let c := with_duty_position (wrap8 ((duty_position c + 1) mod 8)) c in
    let freq_val := frequency c in
    let freq_val := if 2047 <? freq_val then 2047 else freq_val in
    let c := with_timer (wrap32 ((2048 - freq_val) * 4)) c in
    if timer c =? 0 then with_timer (8192 * 4) c else c.

Definition get_sample (c : t) : float :=
  if negb (enabled c) then F32.zero
  else
    let high :=
      default false
        (default [] (duty_patterns !! Z.to_nat (duty_pattern c))
           !! Z.to_nat (duty_position c)) in
    if high then F32.div (F32.of_Z (volume c)) (F32.of_Z 15)
    else F32.opp (F32.div (F32.of_Z (volume c)) (F32.of_Z 15)).

Definition set_length_duty_register (value : Z) (c : t) : t :=
  let c := with_duty_pattern (Z.land (Z.shiftr value 6) 0x03) c in
  with_length_counter (wrap32 (64 - Z.land value 0x3F)) c.

Definition set_volume_envelope_register (value : Z) (c : t) : t :=
  let c := with_envelope_initial_volume (Z.land (Z.shiftr value 4) 0x0F) c in
  let c := with_envelope_increase (bitwise.check_bit value 3) c in
  let c := with_envelope_sweep_pace (Z.land value 0x07) c in
  with_volume (envelope_initial_volume c) c.

Definition set_frequency_lo_register (value : Z) (c : t) : t :=
  with_frequency (Z.lor (Z.land (frequency c) 0x700) value) c.

Definition set_frequency_hi_register (value : Z) (c : t) : t :=
  let c :=
    with_frequency
      (Z.lor (Z.land (frequency c) 0xFF) (Z.shiftl (Z.land value 0x07) 8)) c in
  let c :=
    if bitwise.check_bit value 7 then
      let c := with_enabled true c in
      let freq_val := frequency c in
      let freq_val := if 2047 <? freq_val then 2047 else freq_val in
      let c := with_timer (wrap32 ((2048 - freq_val) * 4)) c in
      let c := if timer c =? 0 then with_timer (8192 * 4) c else c in
      let c := if length_counter c =? 0 then with_length_counter 64 c else c in
      let c := with_duty_position 0 c in
      with_volume (envelope_initial_volume c) c
    else c in
  with_length_enabled (bitwise.check_bit value 6) c.

End ToneChannel.

(** Channel 3: wave output. *)
Module WaveChannel.

Record t := mk {
  enabled : bool;
  volume : Z;
  length_counter : Z;
  length_enabled : bool;
  wave_pattern : list Z;
  position : Z;
  output_level : Z;
  frequency : Z;
  timer : Z }.

Definition with_enabled (x : bool) (c : t) : t :=
  mk x (volume c) (length_counter c) (length_enabled c) (wave_pattern c)
    (position c) (output_level c) (frequency c) (timer c).
Definition with_volume (x : Z) (c : t) : t :=
  mk (enabled c) x (length_counter c) (length_enabled c) (wave_pattern c)
    (position c) (output_level c) (frequency c) (timer c).
Definition with_length_counter (x : Z) (c : t) : t :=
  mk (enabled c) (volume c) x (length_enabled c) (wave_pattern c)
    (position c) (output_level c) (frequency c) (timer c).
Definition with_length_enabled (x : bool) (c : t) : t :=
  mk (enabled c) (volume c) (length_counter c) x (wave_pattern c)
    (position c) (output_level c) (frequency c) (timer c).
Definition with_wave_pattern (x : list Z) (c : t) : t :=
  mk (enabled c) (volume c) (length_counter c) (length_enabled c) x
    (position c) (output_level c) (frequency c) (timer c).
Definition with_position (x : Z) (c : t) : t :=
  mk (enabled c) (volume c) (length_counter c) (length_enabled c)
    (wave_pattern c) x (output_level c) (frequency c) (timer c).
Definition with_output_level (x : Z) (c : t) : t :=
  mk (enabled c) (volume c) (length_counter c) (length_enabled c)
    (wave_pattern c) (position c) x (frequency c) (timer c).
Definition with_frequency (x : Z) (c : t) : t :=
  mk (enabled c) (volume c) (length_counter c) (length_enabled c)
    (wave_pattern c) (position c) (output_level c) x (timer c).
Definition with_timer (x : Z) (c : t) : t :=
  mk (enabled c) (volume c) (length_counter c) (length_enabled c)
    (wave_pattern c) (position c) (output_level c) (frequency c) x.

Definition new : t := mk false 0 0 false (replicate 16 0) 0 0 0 0.

Definition is_enabled (c : t) : bool := enabled c.
Definition set_enabled (value : bool) (c : t) : t := with_enabled value c.
Definition get_volume (c : t) : Z := volume c.

Definition tick (cycles : Z) (c : t) : t :=
  if negb (enabled c) then c
  else if cycles <? timer c then with_timer (timer c - cycles) c
  else
    let c := with_position (wrap8 ((position c + 1) mod 32)) c in
    let freq_val := frequency c in
    let freq_val := if 2047 <? freq_val then 2047 else freq_val in
    let c := with_timer (wrap32 ((2048 - freq_val) * 2)) c in
    if timer c =? 0 then with_timer (8192 * 2) c else c.

Definition get_sample (c : t) : float :=
  if negb (enabled c) then F32.zero
  else
    let wave_byte := default 0 (wave_pattern c !! Z.to_nat (position c / 2)) in
    let wave_nibble :=
      if position c mod 2 =? 0 then wrap8 (Z.shiftr wave_byte 4)
      else Z.land wave_byte 0x0F in
    let full :=
      F32.sub (F32.div (F32.of_Z wave_nibble) F32.seven_and_a_half) F32.one in
    match output_level c with
    | 0 => F32.zero
    | 1 => full
    | 2 => F32.mul full F32.half
    | 3 => F32.mul full F32.quarter
    | _ => F32.zero
    end.

Definition set_enable_register (value : Z) (c : t) : t :=
  with_enabled (bitwise.check_bit value 7) c.

Definition set_length_register (value : Z) (c : t) : t :=
  with_length_counter (wrap32 (256 - value)) c.

Definition set_output_level_register (value : Z) (c : t) : t :=
  with_output_level (Z.land (Z.shiftr value 5) 0x03) c.

Definition set_frequency_lo_register (value : Z) (c : t) : t :=
  with_frequency (Z.lor (Z.land (frequency c) 0x700) value) c.

Definition set_frequency_hi_register (value : Z) (c : t) : t :=
  let c :=
    with_frequency
      (Z.lor (Z.land (frequency c) 0xFF) (Z.shiftl (Z.land value 0x07) 8)) c in
  let c :=
    if bitwise.check_bit value 7 then
      let c := with_enabled true c in
      let freq_val := frequency c in
      let freq_val := if 2047 <? freq_val then 2047 else freq_val in
      let c := with_timer (wrap32 ((2048 - freq_val) * 2)) c in
      let c := if timer c =? 0 then with_timer (8192 * 2) c else c in
      let c := with_position 0 c in
      if length_counter c =? 0 then with_length_counter 256 c else c
    else c in
  with_length_enabled (bitwise.check_bit value 6) c.

(** [wave_pattern[index] = value], the index checked against 16 *)
Definition set_wave_pattern (index value : Z) (c : t) : t :=
  if index <? 16 then
    with_wave_pattern (<[Z.to_nat index := value]> (wave_pattern c)) c
  else c.

Definition get_wave_pattern (index : Z) (c : t) : Z :=
  if index <? 16 then default 0 (wave_pattern c !! Z.to_nat index)
  else 0xFF.

End WaveChannel.

(** Channel 4: noise. *)
Module NoiseChannel.

Record t := mk {
  enabled : bool;
  volume : Z;
  length_counter : Z;
  length_enabled : bool;
  envelope_initial_volume : Z;
  envelope_increase : bool;
  envelope_sweep_pace : Z;
  shift_clock_frequency : Z;
  counter_step_width_mode : bool;
  dividing_ratio : Z;
  timer : Z;
  lfsr : Z }.

Definition with_enabled (x : bool) (c : t) : t :=
  mk x (volume c) (length_counter c) (length_enabled c)
    (envelope_initial_volume c) (envelope_increase c)
    (envelope_sweep_pace c) (shift_clock_frequency c)
    (counter_step_width_mode c) (dividing_ratio c) (timer c) (lfsr c).
Definition with_volume (x : Z) (c : t) : t :=
  mk (enabled c) x (length_counter c) (length_enabled c)
    (envelope_initial_volume c) (envelope_increase c)
    (envelope_sweep_pace c) (shift_clock_frequency c)
    (counter_step_width_mode c) (dividing_ratio c) (timer c) (lfsr c).
Definition with_length_counter (x : Z) (c : t) : t :=
  mk (enabled c) (volume c) x (length_enabled c) (envelope_initial_volume c)
    (envelope_increase c) (envelope_sweep_pace c) (shift_clock_frequency c)
    (counter_step_width_mode c) (dividing_ratio c) (timer c) (lfsr c).
Definition with_length_enabled (x : bool) (c : t) : t :=
  mk (enabled c) (volume c) (length_counter c) x (envelope_initial_volume c)
    (envelope_increase c) (envelope_sweep_pace c) (shift_clock_frequency c)
    (counter_step_width_mode c) (dividing_ratio c) (timer c) (lfsr c).
Definition with_envelope_initial_volume (x : Z) (c : t) : t :=
  mk (enabled c) (volume c) (length_counter c) (length_enabled c) x
    (envelope_increase c) (envelope_sweep_pace c) (shift_clock_frequency c)
    (counter_step_width_mode c) (dividing_ratio c) (timer c) (lfsr c).
Definition with_envelope_increase (x : bool) (c : t) : t :=
  mk (enabled c) (volume c) (length_counter c) (length_enabled c)
    (envelope_initial_volume c) x (envelope_sweep_pace c)
    (shift_clock_frequency c) (counter_step_width_mode c) (dividing_ratio c)
    (timer c) (lfsr c).
Definition with_envelope_sweep_pace (x : Z) (c : t) : t :=
  mk (enabled c) (volume c) (length_counter c) (length_enabled c)
    (envelope_initial_volume c) (envelope_increase c) x
    (shift_clock_frequency c) (counter_step_width_mode c) (dividing_ratio c)
    (timer c) (lfsr c).
Definition with_shift_clock_frequency (x : Z) (c : t) : t :=
  mk (enabled c) (volume c) (length_counter c) (length_enabled c)
    (envelope_initial_volume c) (envelope_increase c)
    (envelope_sweep_pace c) x (counter_step_width_mode c) (dividing_ratio c)
    (timer c) (lfsr c).
Definition with_counter_step_width_mode (x : bool) (c : t) : t :=
  mk (enabled c) (volume c) (length_counter c) (length_enabled c)
    (envelope_initial_volume c) (envelope_increase c)
    (envelope_sweep_pace c) (shift_clock_frequency c) x (dividing_ratio c)
    (timer c) (lfsr c).
Definition with_dividing_ratio (x : Z) (c : t) : t :=
  mk (enabled c) (volume c) (length_counter c) (length_enabled c)
    (envelope_initial_volume c) (envelope_increase c)
    (envelope_sweep_pace c) (shift_clock_frequency c)
    (counter_step_width_mode c) x (timer c) (lfsr c).
Definition with_timer (x : Z) (c : t) : t :=
  mk (enabled c) (volume c) (length_counter c) (length_enabled c)
    (envelope_initial_volume c) (envelope_increase c)
    (envelope_sweep_pace c) (shift_clock_frequency c)
    (counter_step_width_mode c) (dividing_ratio c) x (lfsr c).
Definition with_lfsr (x : Z) (c : t) : t :=
  mk (enabled c) (volume c) (length_counter c) (length_enabled c)
    (envelope_initial_volume c) (envelope_increase c)
    (envelope_sweep_pace c) (shift_clock_frequency c)
    (counter_step_width_mode c) (dividing_ratio c) (timer c) x.

Definition new : t := mk false 0 0 false 0 false 0 0 false 0 0 0x7FFF.

Definition is_enabled (c : t) : bool := enabled c.
Definition set_enabled (value : bool) (c : t) : t := with_enabled value c.
Definition get_volume (c : t) : Z := volume c.

(** [divisors[dividing_ratio & 0x07] << (shift_clock_frequency & 0x0F)],
    8 when that is 0 *)
Definition new_timer_period (c : t) : Z :=
  let divisor :=
    default 0 (divisors !! Z.to_nat (Z.land (dividing_ratio c) 0x07)) in
  let clock_shift := Z.land (shift_clock_frequency c) 0x0F in
  let p := wrap32 (Z.shiftl divisor clock_shift) in
  if p =? 0 then 8 else p.

Definition tick (cycles : Z) (c : t) : t :=
  if negb (enabled c) then c
  else if cycles <? timer c then with_timer (timer c - cycles) c
  else
    let c := with_timer (new_timer_period c) c in
    let xor_result :=
      negb (Z.lxor (Z.land (lfsr c) 0x1)
                   (Z.land (Z.shiftr (lfsr c) 1) 0x1) =? 0) in
    let c := with_lfsr (Z.shiftr (lfsr c) 1) c in
    let c := with_lfsr (bitwise.set_bit_to (lfsr c) 14 xor_result) c in
    if counter_step_width_mode c then
      with_lfsr (bitwise.set_bit_to (lfsr c) 6 xor_result) c
    else c.

Definition get_sample (c : t) : float :=
  if negb (enabled c) then F32.zero
  else
    let high := Z.land (lfsr c) 0x1 =? 0 in
    if high then F32.div (F32.of_Z (volume c)) (F32.of_Z 15)
    else F32.opp (F32.div (F32.of_Z (volume c)) (F32.of_Z 15)).

Definition set_length_register (value : Z) (c : t) : t :=
  with_length_counter (wrap32 (64 - Z.land value 0x3F)) c.

Definition set_volume_envelope_register (value : Z) (c : t) : t :=
  let c := with_envelope_initial_volume (Z.land (Z.shiftr value 4) 0x0F) c in
  let c := with_envelope_increase (bitwise.check_bit value 3) c in
  let c := with_envelope_sweep_pace (Z.land value 0x07) c in
  with_volume (envelope_initial_volume c) c.

Definition set_polynomial_register (value : Z) (c : t) : t :=
  let c := with_shift_clock_frequency (Z.land (Z.shiftr value 4) 0x0F) c in
  let c := with_counter_step_width_mode (bitwise.check_bit value 3) c in
  with_dividing_ratio (Z.land value 0x07) c.

Definition set_counter_register (value : Z) (c : t) : t :=
  let c :=
    if bitwise.check_bit value 7 then
      let c := with_enabled true c in
      let c := with_lfsr 0x7FFF c in
      let c := with_timer (new_timer_period c) c in
      let c := if length_counter c =? 0 then with_length_counter 64 c else c in
      with_volume (envelope_initial_volume c) c
    else c in
  with_length_enabled (bitwise.check_bit value 6) c.

End NoiseChannel.

(** The APU.  [audio_callback] tells whether the host registered a callback,
    and [delivered] is what the host was handed so far: each call of the
    callback receives a copy of the left and of the right buffer. *)
Module Audio.

Record t := mk {
  nr50 : ByteRegister.t;
  nr51 : ByteRegister.t;
  nr52 : ByteRegister.t;
  channel1 : ToneSweepChannel.t;
  channel2 : ToneChannel.t;
  channel3 : WaveChannel.t;
  channel4 : NoiseChannel.t;
  sample_counter : Z;
  left_buffer : list float;
  right_buffer : list float;
  audio_callback : bool;
  delivered : list (list float * list float) }.

Definition with_nr50 (x : ByteRegister.t) (a : t) : t :=
  mk x (nr51 a) (nr52 a) (channel1 a) (channel2 a) (channel3 a) (channel4 a)
    (sample_counter a) (left_buffer a) (right_buffer a) (audio_callback a)
    (delivered a).
Definition with_nr51 (x : ByteRegister.t) (a : t) : t :=
  mk (nr50 a) x (nr52 a) (channel1 a) (channel2 a) (channel3 a) (channel4 a)
    (sample_counter a) (left_buffer a) (right_buffer a) (audio_callback a)
    (delivered a).
Definition with_nr52 (x : ByteRegister.t) (a : t) : t :=
  mk (nr50 a) (nr51 a) x (channel1 a) (channel2 a) (channel3 a) (channel4 a)
    (sample_counter a) (left_buffer a) (right_buffer a) (audio_callback a)
    (delivered a).
Definition with_channel1 (x : ToneSweepChannel.t) (a : t) : t :=
  mk (nr50 a) (nr51 a) (nr52 a) x (channel2 a) (channel3 a) (channel4 a)
    (sample_counter a) (left_buffer a) (right_buffer a) (audio_callback a)
    (delivered a).
Definition with_channel2 (x : ToneChannel.t) (a : t) : t :=
  mk (nr50 a) (nr51 a) (nr52 a) (channel1 a) x (channel3 a) (channel4 a)
    (sample_counter a) (left_buffer a) (right_buffer a) (audio_callback a)
    (delivered a).
Definition with_channel3 (x : WaveChannel.t) (a : t) : t :=
  mk (nr50 a) (nr51 a) (nr52 a) (channel1 a) (channel2 a) x (channel4 a)
    (sample_counter a) (left_buffer a) (right_buffer a) (audio_callback a)
    (delivered a).
Definition with_channel4 (x : NoiseChannel.t) (a : t) : t :=
  mk (nr50 a) (nr51 a) (nr52 a) (channel1 a) (channel2 a) (channel3 a) x
    (sample_counter a) (left_buffer a) (right_buffer a) (audio_callback a)
    (delivered a).
Definition with_sample_counter (x : Z) (a : t) : t :=
  mk (nr50 a) (nr51 a) (nr52 a) (channel1 a) (channel2 a) (channel3 a)
    (channel4 a) x (left_buffer a) (right_buffer a) (audio_callback a)
    (delivered a).
Definition with_left_buffer (x : list float) (a : t) : t :=
  mk (nr50 a) (nr51 a) (nr52 a) (channel1 a) (channel2 a) (channel3 a)
    (channel4 a) (sample_counter a) x (right_buffer a) (audio_callback a)
    (delivered a).
Definition with_right_buffer (x : list float) (a : t) : t :=
  mk (nr50 a) (nr51 a) (nr52 a) (channel1 a) (channel2 a) (channel3 a)
    (channel4 a) (sample_counter a) (left_buffer a) x (audio_callback a)
    (delivered a).
Definition with_audio_callback (x : bool) (a : t) : t :=
  mk (nr50 a) (nr51 a) (nr52 a) (channel1 a) (channel2 a) (channel3 a)
    (channel4 a) (sample_counter a) (left_buffer a) (right_buffer a) x
    (delivered a).
Definition with_delivered (x : list (list float * list float)) (a : t) : t :=
  mk (nr50 a) (nr51 a) (nr52 a) (channel1 a) (channel2 a) (channel3 a)
    (channel4 a) (sample_counter a) (left_buffer a) (right_buffer a)
    (audio_callback a) x.

Definition new : t :=
  mk 0 0 0 ToneSweepChannel.new ToneChannel.new WaveChannel.new
     NoiseChannel.new 0 [] [] false [].

Definition register_audio_callback (a : t) : t := with_audio_callback true a.

(** The local constant of [Audio::tick], which shadows the class member. *)
Definition CYCLES_PER_SAMPLE : Z := CLOCK_RATE / 44100.

(** [std::max(-1.0f, std::min(1.0f, x))] *)
Definition clamp (x : float) : float :=
  F32.max F32.minus_one (F32.min F32.one x).

(** The two loops at the end of the function compute the minimum, maximum
    and sum of each buffer for a print that is commented out. *)
Definition mix_samples (a : t) : t :=
  let audio_enabled := bitwise.check_bit (ByteRegister.value (nr52 a)) 7 in
  if negb audio_enabled then
    let a := with_left_buffer (left_buffer a ++ [F32.zero]) a in
    with_right_buffer (right_buffer a ++ [F32.zero]) a
  else
    let sample1 := ToneSweepChannel.get_sample (channel1 a) in
    let sample2 := ToneChannel.get_sample (channel2 a) in
    let sample3 := WaveChannel.get_sample (channel3 a) in
    let sample4 := NoiseChannel.get_sample (channel4 a) in
    let left_vol := Z.land (Z.shiftr (ByteRegister.value (nr50 a)) 4) 0x7 in
    let right_vol := Z.land (ByteRegister.value (nr50 a)) 0x7 in
    let pan bit := bitwise.check_bit (ByteRegister.value (nr51 a)) bit in
    let left_final := F32.zero in
    let left_final :=
      if pan 7 then F32.add left_final sample4 else left_final in
    let left_final :=
      if pan 6 then F32.add left_final sample3 else left_final in
    let left_final :=
      if pan 5 then F32.add left_final sample2 else left_final in
    let left_final :=
      if pan 4 then F32.add left_final sample1 else left_final in
    let left_final :=
      F32.mul left_final (F32.div (F32.of_Z left_vol) (F32.of_Z 7)) in
    let right_final := F32.zero in
    let right_final :=
      if pan 3 then F32.add right_final sample4 else right_final in
    let right_final :=
      if pan 2 then F32.add right_final sample3 else right_final in
    let right_final :=
      if pan 1 then F32.add right_final sample2 else right_final in
    let right_final :=
      if pan 0 then F32.add right_final sample1 else right_final in
    let right_final :=
      F32.mul right_final (F32.div (F32.of_Z right_vol) (F32.of_Z 7)) in
    let left_final := F32.div left_final (F32.of_Z 4) in
    let right_final := F32.div right_final (F32.of_Z 4) in
    let left_final := clamp left_final in
    let right_final := clamp right_final in
    let a := with_left_buffer (left_buffer a ++ [left_final]) a in
    with_right_buffer (right_buffer a ++ [right_final]) a.

(** The [if (left_buffer.size() >= 1024)] block of [Audio::tick]. *)
Definition flush (a : t) : t :=
  if 1024 <=? Z.of_nat (length (left_buffer a)) then
    let a :=
      if audio_callback a then
        let left_copy := left_buffer a in
        let right_copy := right_buffer a in
        with_delivered (delivered a ++ [(left_copy, right_copy)]) a
      else a in
    let a := with_left_buffer [] a in
    with_right_buffer [] a
  else a.

(** One iteration of the [while] loop of [Audio::tick]. *)
Definition sample_step (a : t) : t :=
  let a := with_sample_counter (sample_counter a - CYCLES_PER_SAMPLE) a in
  let a := mix_samples a in
  flush a.

(** [while (sample_counter >= CYCLES_PER_SAMPLE) { ... }]: every iteration
    lowers the counter by 95, which is the measure. *)
Equations sample_loop (a : t) : t by wf (Z.to_nat (sample_counter a)) lt :=
  sample_loop a with Z_le_dec CYCLES_PER_SAMPLE (sample_counter a) := {
    | left _ => sample_loop (sample_step a)
    | right _ => a }.
Next Obligation.
  assert (E : sample_counter (sample_step a)
              = sample_counter a - CYCLES_PER_SAMPLE).
  { unfold sample_step, flush, mix_samples.
    destruct (negb _); simpl; destruct (_ <=? _); simpl;
      try destruct (audio_callback _); reflexivity. }
  rewrite E. change CYCLES_PER_SAMPLE with 95 in *. lia.
Qed.

Definition tick (cycles : Z) (a : t) : t :=
  let a := with_channel1 (ToneSweepChannel.tick cycles (channel1 a)) a in
  let a := with_channel2 (ToneChannel.tick cycles (channel2 a)) a in
  let a := with_channel3 (WaveChannel.tick cycles (channel3 a)) a in
  let a := with_channel4 (NoiseChannel.tick cycles (channel4 a)) a in
  let a := with_sample_counter (wrap32 (sample_counter a + cycles)) a in
  sample_loop a.

(** Each [switch] on the address is a chain of tests. *)
Definition read_register (address : Z) (a : t) : Z :=
  if (0xFF10 <=? address) && (address <=? 0xFF14) then
    if address =? 0xFF10 then
      0x80
    else if address =? 0xFF11 then
      0x3F
    else if address =? 0xFF12 then
      wrap8 (Z.shiftl (ToneSweepChannel.get_volume (channel1 a)) 4)
    else if address =? 0xFF13 then
      0xFF
    else if address =? 0xFF14 then
      0xBF
    else 0xFF
  else if (0xFF16 <=? address) && (address <=? 0xFF19) then
    if address =? 0xFF16 then
      0x3F
    else if address =? 0xFF17 then
      wrap8 (Z.shiftl (ToneChannel.get_volume (channel2 a)) 4)
    else if address =? 0xFF18 then
      0xFF
    else if address =? 0xFF19 then
      0xBF
    else 0xFF
  else if (0xFF1A <=? address) && (address <=? 0xFF1E) then
    if address =? 0xFF1A then
      if WaveChannel.is_enabled (channel3 a) then 0xFF else 0x7F
    else if address =? 0xFF1B then
      0xFF
    else if address =? 0xFF1C then
      0x9F
    else if address =? 0xFF1D then
      0xFF
    else if address =? 0xFF1E then
      0xBF
    else 0xFF
  else if (0xFF20 <=? address) && (address <=? 0xFF23) then
    if address =? 0xFF20 then
      0xFF
    else if address =? 0xFF21 then
      wrap8 (Z.shiftl (NoiseChannel.get_volume (channel4 a)) 4)
    else if address =? 0xFF22 then
      0x00
    else if address =? 0xFF23 then
      0xBF
    else 0xFF
  else if (0xFF24 <=? address) && (address <=? 0xFF26) then
    if address =? 0xFF24 then
      ByteRegister.value (nr50 a)
    else if address =? 0xFF25 then
      ByteRegister.value (nr51 a)
    else if address =? 0xFF26 then
      let value :=
        Z.lor (Z.land (ByteRegister.value (nr52 a)) 0x80) 0x70 in
      let value :=
        if ToneSweepChannel.is_enabled (channel1 a)
        then Z.lor value 0x01 else value in
      let value :=
        if ToneChannel.is_enabled (channel2 a)
        then Z.lor value 0x02 else value in
      let value :=
        if WaveChannel.is_enabled (channel3 a)
        then Z.lor value 0x04 else value in
      let value :=
        if NoiseChannel.is_enabled (channel4 a)
        then Z.lor value 0x08 else value in
      value
    else 0xFF
  else if (0xFF30 <=? address) && (address <=? 0xFF3F) then
    WaveChannel.get_wave_pattern (wrap8 (address - 0xFF30)) (channel3 a)
  else 0xFF.

Definition on_channel1 (f : ToneSweepChannel.t -> ToneSweepChannel.t) a :=
  with_channel1 (f (channel1 a)) a.
Definition on_channel2 (f : ToneChannel.t -> ToneChannel.t) a :=
  with_channel2 (f (channel2 a)) a.
Definition on_channel3 (f : WaveChannel.t -> WaveChannel.t) a :=
  with_channel3 (f (channel3 a)) a.
Definition on_channel4 (f : NoiseChannel.t -> NoiseChannel.t) a :=
  with_channel4 (f (channel4 a)) a.

(** The logging at the head of the function has no effect on the state.
    Where NR52 goes from on to off, the loop over 0xFF10..0xFF25 has a
    body of comments only (its call of [write_register(reg_addr, 0x00)] is
    commented out), so what is left of it is the four [set_enabled(false)]. *)
Definition write_register (address value : Z) (a : t) : t :=
  let audio_enabled := bitwise.check_bit (ByteRegister.value (nr52 a)) 7 in
  if negb audio_enabled && negb (address =? 0xFF26) then
    if (0xFF30 <=? address) && (address <=? 0xFF3F) then
      on_channel3
        (WaveChannel.set_wave_pattern (wrap8 (address - 0xFF30)) value) a
    else a
  else if (0xFF10 <=? address) && (address <=? 0xFF14) then
    if address =? 0xFF10 then
      on_channel1 (ToneSweepChannel.set_sweep_register value) a
    else if address =? 0xFF11 then
      on_channel1 (ToneSweepChannel.set_length_duty_register value) a
    else if address =? 0xFF12 then
      on_channel1 (ToneSweepChannel.set_volume_envelope_register value) a
    else if address =? 0xFF13 then
      on_channel1 (ToneSweepChannel.set_frequency_lo_register value) a
    else if address =? 0xFF14 then
      on_channel1 (ToneSweepChannel.set_frequency_hi_register value) a
    else a
  else if (0xFF16 <=? address) && (address <=? 0xFF19) then
    if address =? 0xFF16 then
      on_channel2 (ToneChannel.set_length_duty_register value) a
    else if address =? 0xFF17 then
      on_channel2 (ToneChannel.set_volume_envelope_register value) a
    else if address =? 0xFF18 then
      on_channel2 (ToneChannel.set_frequency_lo_register value) a
    else if address =? 0xFF19 then
      on_channel2 (ToneChannel.set_frequency_hi_register value) a
    else a
  else if (0xFF1A <=? address) && (address <=? 0xFF1E) then
    if address =? 0xFF1A then
      on_channel3 (WaveChannel.set_enable_register value) a
    else if address =? 0xFF1B then
      on_channel3 (WaveChannel.set_length_register value) a
    else if address =? 0xFF1C then
      on_channel3 (WaveChannel.set_output_level_register value) a
    else if address =? 0xFF1D then
      on_channel3 (WaveChannel.set_frequency_lo_register value) a
    else if address =? 0xFF1E then
      on_channel3 (WaveChannel.set_frequency_hi_register value) a
    else a
  else if (0xFF20 <=? address) && (address <=? 0xFF23) then
    if address =? 0xFF20 then
      on_channel4 (NoiseChannel.set_length_register value) a
    else if address =? 0xFF21 then
      on_channel4 (NoiseChannel.set_volume_envelope_register value) a
    else if address =? 0xFF22 then
      on_channel4 (NoiseChannel.set_polynomial_register value) a
    else if address =? 0xFF23 then
      on_channel4 (NoiseChannel.set_counter_register value) a
    else a
  else if (0xFF24 <=? address) && (address <=? 0xFF26) then
    if address =? 0xFF24 then
      with_nr50 (ByteRegister.set value) a
    else if address =? 0xFF25 then
      with_nr51 (ByteRegister.set value) a
    else if address =? 0xFF26 then
      let was_enabled := bitwise.check_bit (ByteRegister.value (nr52 a)) 7 in
      let current_status := Z.land (ByteRegister.value (nr52 a)) 0x0F in
      let a :=
        with_nr52
          (ByteRegister.set
             (Z.lor (Z.lor (Z.land value 0x80) current_status) 0x70)) a in
      let now_enabled := bitwise.check_bit (ByteRegister.value (nr52 a)) 7 in
      if was_enabled && negb now_enabled then
        let a := on_channel1 (ToneSweepChannel.set_enabled false) a in
        let a := on_channel2 (ToneChannel.set_enabled false) a in
        let a := on_channel3 (WaveChannel.set_enabled false) a in
        on_channel4 (NoiseChannel.set_enabled false) a
      else a
    else a
  else if (0xFF30 <=? address) && (address <=? 0xFF3F) then
    on_channel3
      (WaveChannel.set_wave_pattern (wrap8 (address - 0xFF30)) value) a
  else a.

End Audio.

(** ** gameboy.h and gameboy.cc: the orchestrator *)

Section Orchestrator.

(** The state of the components whose sources are not given: the CPU core,
    the MMU with work RAM and OAM, the cartridge, the timer, the joypad,
    the serial port and the debugger. *)
Variable Rest : Type.

Record Gameboy := mkGameboy {
  gb_video : Video;
  gb_audio : Audio.t;
  cpu_interrupt_flag : ByteRegister.t;
  host_frames : list FrameBuffer.t;
  elapsed_cycles : Z;
  gb_rest : Rest }.

(** [debugger.cycle()], [cpu.tick()] and [timer.tick(cycles)]: each holds a
    reference to the whole machine. *)
Variable debugger_cycle : Gameboy -> Gameboy.
Variable cpu_tick : Gameboy -> Z * Gameboy.
Variable timer_tick : Z -> Gameboy -> Gameboy.

(** [gb.mmu.read] and the pixels of a [Tile] built over it. *)
Variable mmu_read : Gameboy -> Z -> Z.
Variable Tile_get_pixel : (Z -> Z) -> Z -> Z -> Z -> Z -> GBColor.

Definition with_elapsed_cycles (x : Z) (gb : Gameboy) : Gameboy :=
  mkGameboy (gb_video gb) (gb_audio gb) (cpu_interrupt_flag gb)
    (host_frames gb) x (gb_rest gb).

(** [video.tick(cycles)] *)
Definition video_tick (cycles : Z) (gb : Gameboy) : Gameboy :=
  let s :=
    Video_tick (mmu_read gb) (Tile_get_pixel (mmu_read gb)) cycles
      (mkPPU (gb_video gb) (cpu_interrupt_flag gb) (host_frames gb)) in
  mkGameboy (video s) (gb_audio gb) (interrupt_flag s) (vblank_frames s)
    (elapsed_cycles gb) (gb_rest gb).

(** [audio.tick(cycles.cycles)] *)
Definition audio_tick (cycles : Z) (gb : Gameboy) : Gameboy :=
  mkGameboy (gb_video gb) (Audio.tick cycles (gb_audio gb))
    (cpu_interrupt_flag gb) (host_frames gb) (elapsed_cycles gb) (gb_rest gb).

(** [Gameboy::tick].  The count the CPU returns is a [uint]. *)
Definition Gameboy_tick (gb : Gameboy) : Gameboy :=
  let gb := debugger_cycle gb in
  let '(n, gb) := cpu_tick gb in
  let cycles := wrap32 n in
  let gb := with_elapsed_cycles (wrap32 (elapsed_cycles gb + cycles)) gb in
  let gb := video_tick cycles gb in
  let gb := audio_tick cycles gb in
  timer_tick cycles gb.

End Orchestrator.

Arguments mkGameboy {Rest}.
Arguments gb_video {Rest}.
Arguments gb_audio {Rest}.
Arguments cpu_interrupt_flag {Rest}.
Arguments host_frames {Rest}.
Arguments elapsed_cycles {Rest}.
Arguments gb_rest {Rest}.
Arguments with_elapsed_cycles {Rest}.
Arguments video_tick {Rest}.
Arguments audio_tick {Rest}.
Arguments Gameboy_tick {Rest}.

(** ** Vocabulary of the statements *)

(** What the mode machine reads and writes, apart from the pictures: mode, LY,
    cycle counter, STAT, LYC and the CPU's interrupt flag. *)
Record ModeView := mkModeView {
  mv_mode : VideoMode;
  mv_line : Z;
  mv_counter : Z;
  mv_status : Z;
  mv_lyc : Z;
  mv_iflag : Z }.

Definition mode_view (s : PPU) : ModeView :=
  mkModeView (current_mode (video s)) (line (video s))
    (cycle_counter (video s)) (lcd_status (video s)) (ly_compare (video s))
    (interrupt_flag s).

(** [Video::tick] with the calls of [write_scanline], [write_sprites], [draw]
    and [buffer.reset] left out. *)
Definition mode_step (cycles : Z) (p : ModeView) : ModeView :=
  let '(mkModeView m l c0 st lyc fl) := p in
  let c := wrap32 (c0 + cycles) in
  let bit := bitwise.set_bit_to in
  match m with
  | ACCESS_OAM =>
      if CLOCKS_PER_SCANLINE_OAM <=? c then
        mkModeView ACCESS_VRAM l (c mod CLOCKS_PER_SCANLINE_OAM)
          (bit (bit st 1 true) 0 true) lyc fl
      else mkModeView m l c st lyc fl
  | ACCESS_VRAM =>
      if CLOCKS_PER_SCANLINE_VRAM <=? c then
        let fl := if bitwise.check_bit st 3 then bit fl 1 true else fl in
        let fl := if bitwise.check_bit st 6 && (lyc =? l)
                  then bit fl 1 true else fl in
        mkModeView HBLANK l (c mod CLOCKS_PER_SCANLINE_VRAM)
          (bit (bit (bit st 2 (lyc =? l)) 1 false) 0 false) lyc fl
      else mkModeView m l c st lyc fl
  | HBLANK =>
      if CLOCKS_PER_HBLANK <=? c then
        let l' := wrap8 (l + 1) in
        if l' =? 144 then
          mkModeView VBLANK l' (c mod CLOCKS_PER_HBLANK)
            (bit (bit st 1 false) 0 true) lyc (bit fl 0 true)
        else
          mkModeView ACCESS_OAM l' (c mod CLOCKS_PER_HBLANK)
            (bit (bit st 1 true) 0 false) lyc fl
      else mkModeView m l c st lyc fl
  | VBLANK =>
      if CLOCKS_PER_SCANLINE <=? c then
        let l' := wrap8 (l + 1) in
        if l' =? 154 then
          mkModeView ACCESS_OAM 0 (c mod CLOCKS_PER_SCANLINE)
            (bit (bit st 1 true) 0 false) lyc fl
        else mkModeView VBLANK l' (c mod CLOCKS_PER_SCANLINE) st lyc fl
      else mkModeView m l c st lyc fl
  end.

(** The mode machine is in step: the counter is below the length of the mode
    and LY is a visible line outside VBlank, one of the ten others inside. *)
Definition in_step (p : ModeView) : Prop :=
  match mv_mode p with
  | ACCESS_OAM => 0 <= mv_line p < 144 /\ 0 <= mv_counter p < 80
  | ACCESS_VRAM => 0 <= mv_line p < 144 /\ 0 <= mv_counter p < 172
  | HBLANK => 0 <= mv_line p < 144 /\ 0 <= mv_counter p < 204
  | VBLANK => 144 <= mv_line p < 154 /\ 0 <= mv_counter p < 456
  end.

(** T-states since the frame began. *)
Definition frame_time (p : ModeView) : Z :=
  mv_line p * 456 + mv_counter p +
  match mv_mode p with
  | ACCESS_OAM => 0 | ACCESS_VRAM => 80 | HBLANK => 80 + 172 | VBLANK => 0
  end.

(** A tick is short when it is no longer than the shortest mode. *)
Definition short_tick (c : Z) : Prop := 0 <= c <= 80.

Definition set_control_byte (cb : Z) (v : Video) : Video :=
  mkVideo cb (lcd_status v) (scroll_y v) (scroll_x v) (line v)
    (ly_compare v) (window_y v) (window_x v) (bg_palette v)
    (sprite_palette_0 v) (sprite_palette_1 v) (debug_disable_background v)
    (debug_disable_sprites v) (debug_disable_window v) (buffer v)
    (current_mode v) (cycle_counter v).

(** Equal but for the frame buffer. *)
Definition same_but_buffer (v v' : Video) : Prop :=
  exists b, v' = set_buffer b v.

(** The states of the APU that a program can bring about: construction, the
    host registering its callback, and any ticks and register writes whose
    arguments fit their C++ types ([uint] cycles, [u16] address, [u8] value). *)
Inductive reachable : Audio.t -> Prop :=
| reachable_new : reachable Audio.new
| reachable_callback a :
    reachable a -> reachable (Audio.register_audio_callback a)
| reachable_tick a cycles :
    reachable a -> 0 <= cycles < 4294967296 ->
    reachable (Audio.tick cycles a)
| reachable_write a address value :
    reachable a -> 0 <= address < 65536 -> 0 <= value < 256 ->
    reachable (Audio.write_register address value a).

(** A sample within [-1.0, 1.0]. *)
Definition in_unit (x : float) : Prop := F32.in_unit_range x = true.

(** Both vectors of a call of the host callback. *)
Definition pair_in_unit (p : list float * list float) : Prop :=
  Forall in_unit (fst p) /\ Forall in_unit (snd p).

Definition pair_same_length (p : list float * list float) : Prop :=
  length (fst p) = length (snd p).

(** Left and right buffer go together, in the APU and at the host. *)
Definition paired (a : Audio.t) : Prop :=
  length (Audio.left_buffer a) = length (Audio.right_buffer a) /\
  Forall pair_same_length (Audio.delivered a).

(** Everything buffered and everything handed over is within [-1.0, 1.0]. *)
Definition in_bounds (a : Audio.t) : Prop :=
  Forall in_unit (Audio.left_buffer a) /\
  Forall in_unit (Audio.right_buffer a) /\
  Forall pair_in_unit (Audio.delivered a).

(** *** The mixer in the spec's words

    "mix per NR51 panning into L/R, scale by NR50 volumes (0..7 -> /7), scale
    by 1/4 to avoid clipping, clamp to [-1,1]": the sum of the outputs whose
    panning bit is set, taken in the order given, times volume over 7, over
    4, clamped. *)
Definition panned_sum (nr51 : Z) (outputs : list (Z * float)) : float :=
  fold_left
    (fun acc bo => if Z.testbit nr51 (fst bo) then F32.add acc (snd bo) else acc)
    outputs F32.zero.

(** "clamp to [-1,1]", by comparisons: a value above -1.0 and below 1.0 is
    kept; of the others, one below 1.0 becomes -1.0 and the rest become
    1.0. *)
Definition clamp_to_unit (x : float) : float :=
  if F32.ltb F32.minus_one x && F32.ltb x F32.one then x
  else if F32.ltb x F32.one then F32.minus_one
  else F32.one.

Definition mixed_side (nr51 vol : Z) (outputs : list (Z * float)) : float :=
  clamp_to_unit
    (F32.div
       (F32.mul (panned_sum nr51 outputs) (F32.div (F32.of_Z vol) (F32.of_Z 7)))
       (F32.of_Z 4)).

(** The outputs of channels 4 to 1 with the NR51 bit that routes each to the
    left, and to the right. *)
Definition left_outputs (a : Audio.t) : list (Z * float) :=
  [ (7, NoiseChannel.get_sample (Audio.channel4 a));
    (6, WaveChannel.get_sample (Audio.channel3 a));
    (5, ToneChannel.get_sample (Audio.channel2 a));
    (4, ToneSweepChannel.get_sample (Audio.channel1 a)) ].

Definition right_outputs (a : Audio.t) : list (Z * float) :=
  [ (3, NoiseChannel.get_sample (Audio.channel4 a));
    (2, WaveChannel.get_sample (Audio.channel3 a));
    (1, ToneChannel.get_sample (Audio.channel2 a));
    (0, ToneSweepChannel.get_sample (Audio.channel1 a)) ].

(** The part of [Audio::tick] before the [while] loop. *)
Definition tick_channels (cycles : Z) (a : Audio.t) : Audio.t :=
  let a := Audio.with_channel1
             (ToneSweepChannel.tick cycles (Audio.channel1 a)) a in
  let a := Audio.with_channel2 (ToneChannel.tick cycles (Audio.channel2 a)) a in
  let a := Audio.with_channel3 (WaveChannel.tick cycles (Audio.channel3 a)) a in
  let a := Audio.with_channel4 (NoiseChannel.tick cycles (Audio.channel4 a)) a in
  Audio.with_sample_counter (wrap32 (Audio.sample_counter a + cycles)) a.

(** While the master enable is off no channel is enabled. *)
Definition quiet_when_off (a : Audio.t) : Prop :=
  bitwise.check_bit (ByteRegister.value (Audio.nr52 a)) 7 = false ->
  ToneSweepChannel.enabled (Audio.channel1 a) = false /\
  ToneChannel.enabled (Audio.channel2 a) = false /\
  WaveChannel.enabled (Audio.channel3 a) = false /\
  NoiseChannel.enabled (Audio.channel4 a) = false.

(** The first statement of the loop body of [Audio::tick]. *)
Definition count_sample (a : Audio.t) : Audio.t :=
  Audio.with_sample_counter
    (Audio.sample_counter a - Audio.CYCLES_PER_SAMPLE) a.

(** The base class [SoundChannel] with its virtual [tick] and [get_sample]:
    a channel is one of the four derived classes. *)
Inductive SoundChannel :=
| Channel1 (c : ToneSweepChannel.t)
| Channel2 (c : ToneChannel.t)
| Channel3 (c : WaveChannel.t)
| Channel4 (c : NoiseChannel.t).

Definition SoundChannel_is_enabled (ch : SoundChannel) : bool :=
  match ch with
  | Channel1 c => ToneSweepChannel.is_enabled c
  | Channel2 c => ToneChannel.is_enabled c
  | Channel3 c => WaveChannel.is_enabled c
  | Channel4 c => NoiseChannel.is_enabled c
  end.

Definition SoundChannel_tick (cycles : Z) (ch : SoundChannel) : SoundChannel :=
  match ch with
  | Channel1 c => Channel1 (ToneSweepChannel.tick cycles c)
  | Channel2 c => Channel2 (ToneChannel.tick cycles c)
  | Channel3 c => Channel3 (WaveChannel.tick cycles c)
  | Channel4 c => Channel4 (NoiseChannel.tick cycles c)
  end.

Definition SoundChannel_get_sample (ch : SoundChannel) : float :=
  match ch with
  | Channel1 c => ToneSweepChannel.get_sample c
  | Channel2 c => ToneChannel.get_sample c
  | Channel3 c => WaveChannel.get_sample c
  | Channel4 c => NoiseChannel.get_sample c
  end.

(** ** Concrete machines for the examples *)

(** A bus that reads 0 everywhere and a tile of colour 0, for runs that draw
    nothing. *)
Definition blank_bus : Z -> Z := fun _ => 0.
Definition blank_tile : Z -> Z -> Z -> Z -> GBColor := fun _ _ _ _ => Color0.

(** The PPU at reset after the program wrote 0x13 to LCDC: display off (bit 7
    clear), background and sprites on. *)
Definition lcd_off_ppu : PPU := on_video (set_control_byte 0x13) PPU_new.

(** The APU after a program switched it on, set the master volume and the
    panning, and started channel 1 at full envelope volume. *)
Definition playing : Audio.t :=
  Audio.write_register 0xFF14 0x87
    (Audio.write_register 0xFF12 0xF0
       (Audio.write_register 0xFF25 0xFF
          (Audio.write_register 0xFF24 0x77
             (Audio.write_register 0xFF26 0x80 Audio.new)))).

(** The same APU with a host callback registered. *)
Definition listening : Audio.t := Audio.register_audio_callback playing.

(** A picture with one sprite behind the background.  Tile 0, which the
    whole tile map shows, has [tile_byte] in all its rows; OAM entry 0 puts a
    sprite at the top left corner of the screen (y = 16, x = 8) with
    attribute 0x80, behind the background; the sprite's tile is of colour 1
    throughout.  LCDC = 0x93 turns on the display, the background and the
    sprites with the tile set at 0x8000; BGP = 0x1B shows index 3 as white and
    index 0 as black; OBP0 = 0xE4 shows index 1 as light gray. *)
Definition sprite_bus (tile_byte : Z) : Z -> Z :=
  fun a =>
    if (0x8000 <=? a) && (a <? 0x8010) then tile_byte
    else if a =? 0xFE00 then 16
    else if a =? 0xFE01 then 8
    else if a =? 0xFE02 then 1
    else if a =? 0xFE03 then 0x80
    else 0.

Definition sprite_tile : Z -> Z -> Z -> Z -> GBColor := fun _ _ _ _ => Color1.

Definition sprite_video : Video :=
  {| control_byte := 0x93; lcd_status := 0; scroll_y := 0; scroll_x := 0;
     line := 0; ly_compare := 0; window_y := 0; window_x := 0;
     bg_palette := 0x1B; sprite_palette_0 := 0xE4; sprite_palette_1 := 0;
     debug_disable_background := false; debug_disable_sprites := false;
     debug_disable_window := false;
     buffer := FrameBuffer.make GAMEBOY_WIDTH GAMEBOY_HEIGHT;
     current_mode := HBLANK; cycle_counter := 0 |}.

(** A machine whose missing components do nothing: every CPU step takes 4
    T-states. *)
Definition idle_gameboy : Gameboy unit :=
  mkGameboy Video_new Audio.new 0 [] 0 tt.
Definition idle_cpu_tick (gb : Gameboy unit) : Z * Gameboy unit := (4, gb).
Definition idle_timer_tick (cycles : Z) (gb : Gameboy unit) : Gameboy unit := gb.
Definition idle_debugger_cycle (gb : Gameboy unit) : Gameboy unit := gb.
Definition idle_mmu_read (gb : Gameboy unit) : Z -> Z := blank_bus.
Definition idle_tile (read : Z -> Z) : Z -> Z -> Z -> Z -> GBColor := blank_tile.

(** The same machine 6 T-states before its cycle counter is full, which it is
    after some 1024 seconds of emulated time, and a CPU step of 24
    T-states. *)
Definition late_gameboy : Gameboy unit :=
  mkGameboy Video_new Audio.new 0 [] 4294967290 tt.
Definition long_cpu_tick (gb : Gameboy unit) : Z * Gameboy unit := (24, gb).

(** ** Further vocabulary: the PPU *)

(** The number the hardware gives a mode, which STAT shows in bits 1 and 0. *)
Definition mode_number (m : VideoMode) : Z :=
  match m with
  | HBLANK => 0 | VBLANK => 1 | ACCESS_OAM => 2 | ACCESS_VRAM => 3
  end.

(** STAT bits 1 and 0 show the current mode. *)
Definition stat_in_sync (s : PPU) : Prop :=
  Z.land (lcd_status (video s)) 3 = mode_number (current_mode (video s)).

(** The registers of the PPU that the program writes and [Video::tick] only
    reads: LCDC, the scroll and window positions, LYC, the palettes, and the
    three debug switches. *)
Definition program_registers (v : Video) :
    Z * Z * Z * Z * Z * Z * Z * Z * Z * bool * bool * bool :=
  (control_byte v, scroll_y v, scroll_x v, ly_compare v, window_y v,
   window_x v, bg_palette v, sprite_palette_0 v, sprite_palette_1 v,
   debug_disable_background v, debug_disable_sprites v,
   debug_disable_window v).

(** A PPU in VRAM-access on line 0 with STAT bit 3 (HBlank interrupt) set
    and nothing pending, and one at reset with the timer interrupt (bit 2)
    pending. *)
Definition vram_ppu : PPU :=
  mkPPU (set_current_mode ACCESS_VRAM (set_lcd_status 0x0B Video_new)) 0 [].
Definition pending_ppu : PPU := mkPPU Video_new 4 [].


(** ** Further vocabulary: rendering without the tile-row cache *)

Section Uncached.

Variable mmu_read : Z -> Z.

(** Where the two bytes of a tile's pixel row are, by the arithmetic of
    [draw_bg_line] and [draw_window_line]. *)
Definition tile_row_address (use_tile_set_zero : bool)
    (tile_set_address tile_map_address tile_x tile_y tile_pixel_y : Z) : Z :=
  let tile_index := wrap32 (tile_y * TILES_PER_LINE + tile_x) in
  let tile_id_address := wrap16 (tile_map_address + tile_index) in
  let tile_id := read mmu_read tile_id_address in
  let tile_data_mem_offset :=
    if use_tile_set_zero then wrap32 (tile_id * TILE_BYTES)
    else wrap32 ((to_s8 tile_id + 128) * TILE_BYTES) in
  let tile_data_line_offset := wrap32 (tile_pixel_y * 2) in
  wrap16 (wrap16 (tile_set_address + tile_data_mem_offset)
          + tile_data_line_offset).

(** The colour of a tile pixel, with both bytes of its row read from
    memory. *)
Definition tile_pixel_colour (use_tile_set_zero : bool)
    (tile_set_address tile_map_address : Z) (palette : Palette)
    (tile_x tile_y tile_pixel_x tile_pixel_y : Z) : Color :=
  let a := tile_row_address use_tile_set_zero tile_set_address
             tile_map_address tile_x tile_y tile_pixel_y in
  get_color_from_palette
    (get_pixel_from_line (read mmu_read a) (read mmu_read (wrap16 (a + 1)))
                         (wrap8 tile_pixel_x))
    palette.

(** The background colour of screen pixel [(screen_x, screen_y)]. *)
Definition bg_pixel_colour (v : Video) (screen_y screen_x : Z) : Color :=
  let scrolled_x := wrap32 (screen_x + ByteRegister.value (scroll_x v)) in
  let scrolled_y := wrap32 (screen_y + ByteRegister.value (scroll_y v)) in
  let bg_map_x := scrolled_x mod BG_MAP_SIZE in
  let by_map_y := scrolled_y mod BG_MAP_SIZE in
  tile_pixel_colour (bg_window_tile_data v)
    (if bg_window_tile_data v
     then TILE_SET_ZERO_ADDRESS else TILE_SET_ONE_ADDRESS)
    (if negb (bg_tile_map_display v)
     then TILE_MAP_ZERO_ADDRESS else TILE_MAP_ONE_ADDRESS)
    (load_palette (bg_palette v))
    (bg_map_x / TILE_WIDTH_PX) (by_map_y / TILE_HEIGHT_PX)
    (bg_map_x mod TILE_WIDTH_PX) (by_map_y mod TILE_HEIGHT_PX).

(** The window colour of screen pixel [(screen_x, screen_y)]. *)
Definition window_pixel_colour (v : Video) (screen_y screen_x : Z) : Color :=
  let scrolled_x :=
    wrap32 (screen_x + ByteRegister.value (window_x v) - 7) in
  let scrolled_y := wrap32 (screen_y - ByteRegister.value (window_y v)) in
  tile_pixel_colour (bg_window_tile_data v)
    (if bg_window_tile_data v
     then TILE_SET_ZERO_ADDRESS else TILE_SET_ONE_ADDRESS)
    (if negb (window_tile_map v)
     then TILE_MAP_ZERO_ADDRESS else TILE_MAP_ONE_ADDRESS)
    (load_palette (bg_palette v))
    (scrolled_x / TILE_WIDTH_PX) (scrolled_y / TILE_HEIGHT_PX)
    (scrolled_x mod TILE_WIDTH_PX) (scrolled_y mod TILE_HEIGHT_PX).

(** A line of pixels set from left to right. *)
Definition paint_line (colour : Z -> Color) (screen_y : Z) (v : Video)
    : Video :=
  set_buffer
    (fold_left (fun b screen_x =>
                  FrameBuffer.set_pixel screen_x screen_y (colour screen_x) b)
               (upto GAMEBOY_WIDTH) (buffer v)) v.

(** Every cached row holds the two bytes memory has at its key. *)
Definition cache_agrees (cache : gmap Z (Z * Z)) : Prop :=
  forall k d, cache !! k = Some d ->
              d = (read mmu_read k, read mmu_read (wrap16 (k + 1))).

End Uncached.

(** ** Further vocabulary: sprites *)

Section SpriteEntry.

Variable mmu_read : Z -> Z.

(** The four bytes of sprite [sprite_n] in OAM, as [draw_sprite] reads
    them. *)
Definition oam_start (sprite_n : Z) : Z :=
  wrap16 (0xFE00 + wrap16 (sprite_n * SPRITE_BYTES)).
Definition oam_y (sprite_n : Z) : Z := read mmu_read (oam_start sprite_n).
Definition oam_x (sprite_n : Z) : Z :=
  read mmu_read (oam_start sprite_n + 1).
Definition oam_pattern (sprite_n : Z) : Z :=
  read mmu_read (oam_start sprite_n + 2).

End SpriteEntry.

(** ** Further vocabulary: the APU's state within its ranges *)

(** What holds of channel 1 in every state a program can reach: every field
    within the range its register bits give it. *)
Definition ToneSweepChannel_in_range (c : ToneSweepChannel.t) : Prop :=
  0 <= ToneSweepChannel.volume c < 16 /\
  0 <= ToneSweepChannel.envelope_initial_volume c < 16 /\
  0 <= ToneSweepChannel.frequency c < 2048 /\
  0 <= ToneSweepChannel.duty_pattern c < 4 /\
  0 <= ToneSweepChannel.duty_position c < 8 /\
  0 <= ToneSweepChannel.timer c <= 8192 /\
  0 <= ToneSweepChannel.length_counter c <= 64 /\
  0 <= ToneSweepChannel.sweep_time c < 8 /\
  0 <= ToneSweepChannel.sweep_shift c < 8 /\
  0 <= ToneSweepChannel.envelope_sweep_pace c < 8.

Definition ToneChannel_in_range (c : ToneChannel.t) : Prop :=
  0 <= ToneChannel.volume c < 16 /\
  0 <= ToneChannel.envelope_initial_volume c < 16 /\
  0 <= ToneChannel.frequency c < 2048 /\
  0 <= ToneChannel.duty_pattern c < 4 /\
  0 <= ToneChannel.duty_position c < 8 /\
  0 <= ToneChannel.timer c <= 8192 /\
  0 <= ToneChannel.length_counter c <= 64 /\
  0 <= ToneChannel.envelope_sweep_pace c < 8.

Definition WaveChannel_in_range (c : WaveChannel.t) : Prop :=
  WaveChannel.volume c = 0 /\
  0 <= WaveChannel.frequency c < 2048 /\
  0 <= WaveChannel.position c < 32 /\
  0 <= WaveChannel.output_level c < 4 /\
  0 <= WaveChannel.timer c <= 4096 /\
  0 <= WaveChannel.length_counter c <= 256 /\
  length (WaveChannel.wave_pattern c) = 16%nat /\
  Forall (fun b => 0 <= b < 256) (WaveChannel.wave_pattern c).

Definition NoiseChannel_in_range (c : NoiseChannel.t) : Prop :=
  0 <= NoiseChannel.volume c < 16 /\
  0 <= NoiseChannel.envelope_initial_volume c < 16 /\
  0 <= NoiseChannel.shift_clock_frequency c < 16 /\
  0 <= NoiseChannel.dividing_ratio c < 8 /\
  0 <= NoiseChannel.lfsr c < 32768 /\
  0 <= NoiseChannel.timer c <= 112 * 32768 /\
  0 <= NoiseChannel.length_counter c <= 64 /\
  0 <= NoiseChannel.envelope_sweep_pace c < 8.

Definition Audio_in_range (a : Audio.t) : Prop :=
  0 <= ByteRegister.value (Audio.nr50 a) < 256 /\
  0 <= ByteRegister.value (Audio.nr51 a) < 256 /\
  0 <= ByteRegister.value (Audio.nr52 a) < 256 /\
  ToneSweepChannel_in_range (Audio.channel1 a) /\
  ToneChannel_in_range (Audio.channel2 a) /\
  WaveChannel_in_range (Audio.channel3 a) /\
  NoiseChannel_in_range (Audio.channel4 a).

(** The table reads of the four [get_sample] and [tick] functions land inside
    their tables: [duty_patterns[duty_pattern][duty_position]] of channels 1
    and 2, [wave_pattern[position / 2]] of channel 3 and
    [divisors[dividing_ratio & 0x07]] of channel 4. *)
Definition table_reads_inside (a : Audio.t) : Prop :=
  (exists row level,
      duty_patterns
        !! Z.to_nat (ToneSweepChannel.duty_pattern (Audio.channel1 a))
        = Some row /\
      row !! Z.to_nat (ToneSweepChannel.duty_position (Audio.channel1 a))
        = Some level) /\
  (exists row level,
      duty_patterns !! Z.to_nat (ToneChannel.duty_pattern (Audio.channel2 a))
        = Some row /\
      row !! Z.to_nat (ToneChannel.duty_position (Audio.channel2 a))
        = Some level) /\
  (exists wave_byte,
      WaveChannel.wave_pattern (Audio.channel3 a)
        !! Z.to_nat (WaveChannel.position (Audio.channel3 a) / 2)
        = Some wave_byte /\
      0 <= wave_byte < 256) /\
  (exists divisor,
      divisors
        !! Z.to_nat (Z.land (NoiseChannel.dividing_ratio (Audio.channel4 a))
                            0x07)
        = Some divisor /\
      8 <= divisor <= 112).

(** An APU whose channel 1 was triggered at frequency 0x6D6. *)
Definition ringing : Audio.t :=
  Audio.write_register 0xFF14 0x86
    (Audio.write_register 0xFF13 0xD6
       (Audio.write_register 0xFF12 0xF0
          (Audio.write_register 0xFF26 0x80 Audio.new))).

(** A run of [Audio::tick], one call per CPU step. *)
Definition Audio_run (cycles : list Z) (a : Audio.t) : Audio.t :=
  fold_left (fun a' c => Audio.tick c a') cycles a.

(** ** Further vocabulary: the sample buffers *)

(** Between two calls the buffers hold fewer than 1024 samples each, and
    every call of the host callback was handed 1024 samples a side. *)
Definition blocks_of_1024 (a : Audio.t) : Prop :=
  Z.of_nat (length (Audio.left_buffer a)) < 1024 /\
  length (Audio.right_buffer a) = length (Audio.left_buffer a) /\
  Forall (fun p => length (fst p) = Z.to_nat 1024 /\
                   length (snd p) = Z.to_nat 1024)
         (Audio.delivered a).

(** The samples of one side that were handed to the host or wait in the
    buffer. *)
Definition samples_out (a : Audio.t) : Z :=
  1024 * Z.of_nat (length (Audio.delivered a))
  + Z.of_nat (length (Audio.left_buffer a)).

(** ** audio/audio.cc: the sweep of channel 1 *)


(** ** platforms/sdl/main.cc: the audio queue between the emulator and SDL *)

(** The two global vectors [g_left_buffer] and [g_right_buffer]; every
    access is under [audio_mutex], so each function below is one step. *)
Record HostAudio := mkHostAudio {
  g_left_buffer : list float;
  g_right_buffer : list float }.





(** [audio_callback(userdata, stream, len)], the callback SDL calls for [len]
    bytes of output.  The stream is seen as [len / 4] floats, all 0.0 after
    the [SDL_memset]; the loop indices are counted as naturals; an index
    past the end of [g_right_buffer], which the code does not guard, reads
    0.0 here.  The result is the stream as SDL gets it back and the queue
    that is left. *)
Definition sdl_audio_callback (len : Z) (h : HostAudio)
    : list float * HostAudio :=
  let float_stream := replicate (Z.to_nat (len / 4)) F32.zero in
  let samples := Z.to_nat (len / (4 * 2)) in
  let copy_samples := Nat.min (length (g_left_buffer h)) samples in
  let float_stream :=
    fold_left
      (fun s i =>
         let s := <[(i * 2)%nat :=
                      default F32.zero (g_left_buffer h !! i)]> s in
         <[(i * 2 + 1)%nat := default F32.zero (g_right_buffer h !! i)]> s)
      (seq 0 copy_samples) float_stream in
  let h :=
    if (0 <? copy_samples)%nat then
      mkHostAudio (drop copy_samples (g_left_buffer h))
                  (drop copy_samples (g_right_buffer h))
    else h in
  let float_stream :=
    if (copy_samples <? samples)%nat then
      fold_left
        (fun s i =>
           let s := <[(i * 2)%nat := F32.zero]> s in
           <[(i * 2 + 1)%nat := F32.zero]> s)
        (seq copy_samples (samples - copy_samples)) float_stream
    else float_stream in
  (float_stream, h).


(** Both vectors of the queue are as long as each other. *)
Definition queue_paired (h : HostAudio) : Prop :=
  length (g_left_buffer h) = length (g_right_buffer h).


(** ** video/video.cc: video RAM *)



Definition Video_write (address value : Z) (video_ram : list Z)
    : option (list Z) :=
  if (Z.to_nat (wrap16 address) <? length video_ram)%nat
  then Some (<[Z.to_nat (wrap16 address) := wrap8 value]> video_ram)
  else None.

(** ** platforms/sdl/main.cc: the frame handed to SDL *)

(** The [switch] of the vblank callback: the grey level of a colour, the
    same for red, green and blue. *)
Definition rgb_level (pixel : Color) : Z :=
  match pixel with
  | White => 255
  | LightGray => 192
  | DarkGray => 96
  | Black => 0
  end.

(** The vblank callback that [main] hands to [Gameboy::run]: the RGB24
    bytes it stores in [current_frame_buffer] for the frame it is given. *)
Definition vblank_rgb (buffer : FrameBuffer.t) : list Z :=
  let rgb_buffer := replicate (Z.to_nat (160 * 144 * 3)) 0 in
  fold_left
    (fun rgb_buffer y =>
       fold_left
         (fun rgb_buffer x =>
            let pixel := FrameBuffer.get_pixel buffer x y in
            let idx := (y * 160 + x) * 3 in
            let rgb_buffer := <[Z.to_nat idx := rgb_level pixel]> rgb_buffer in
            let rgb_buffer :=
              <[Z.to_nat (idx + 1) := rgb_level pixel]> rgb_buffer in
            <[Z.to_nat (idx + 2) := rgb_level pixel]> rgb_buffer)
         (upto 160) rgb_buffer)
    (upto 144) rgb_buffer.

(** * Properties *)

(** ** Proof tools *)

(** The clocks and the wrap-arounds as numbers. *)
Ltac unfold_clocks :=
  unfold CLOCKS_PER_FRAME, CLOCKS_PER_VBLANK, SCANLINES_PER_FRAME,
    CLOCKS_PER_SCANLINE, CLOCKS_PER_SCANLINE_OAM, CLOCKS_PER_SCANLINE_VRAM,
    CLOCKS_PER_HBLANK, wrap32, wrap8 in *.

(** Linear arithmetic with division and remainder by constants. *)
Ltac euclid := Z.to_euclidean_division_equations; lia.

(** Facts about an address from the tests the code made on it. *)
Ltac address_facts :=
  repeat match goal with
         | H : negb _ = false |- _ => apply negb_false_iff in H
         | H : negb _ = true |- _ => apply negb_true_iff in H
         | H : (_ && _) = true |- _ => apply andb_true_iff in H; destruct H
         | H : (_ =? _) = true |- _ => apply Z.eqb_eq in H
         | H : (_ =? _) = false |- _ => apply Z.eqb_neq in H
         | H : (_ <=? _) = true |- _ => apply Z.leb_le in H
         | H : (_ <=? _) = false |- _ => apply Z.leb_gt in H
         end.

(** Projections of an updated APU record. *)
Ltac audio_fields :=
  cbn [Audio.nr50 Audio.nr51 Audio.nr52 Audio.channel1 Audio.channel2
       Audio.channel3 Audio.channel4 Audio.sample_counter Audio.left_buffer
       Audio.right_buffer Audio.audio_callback Audio.delivered
       Audio.on_channel1 Audio.on_channel2 Audio.on_channel3 Audio.on_channel4
       Audio.with_channel1 Audio.with_channel2 Audio.with_channel3
       Audio.with_channel4 Audio.with_nr50 Audio.with_nr51 Audio.with_nr52
       Audio.with_sample_counter Audio.with_left_buffer
       Audio.with_right_buffer Audio.with_audio_callback Audio.with_delivered
       ToneSweepChannel.set_enabled ToneChannel.set_enabled
       WaveChannel.set_enabled NoiseChannel.set_enabled
       ToneSweepChannel.with_enabled ToneChannel.with_enabled
       WaveChannel.with_enabled NoiseChannel.with_enabled
       ToneSweepChannel.enabled ToneChannel.enabled
       WaveChannel.enabled NoiseChannel.enabled] in *.

Create HintDb paint.

(** ** Rendering only paints *)

Lemma same_but_buffer_refl v : same_but_buffer v v.
Proof. exists (buffer v). by destruct v. Qed.

Lemma same_but_buffer_trans v1 v2 v3 :
  same_but_buffer v1 v2 -> same_but_buffer v2 v3 -> same_but_buffer v1 v3.
Proof. intros [b ->] [b' ->]. by exists b'. Qed.

Lemma same_but_buffer_set b v : same_but_buffer v (set_buffer b v).
Proof. by exists b. Qed.

Lemma same_but_buffer_fold {A} (f : Video -> A -> Video) (l : list A) v :
  (forall v' x, same_but_buffer v' (f v' x)) ->
  same_but_buffer v (fold_left f l v).
Proof.
  intros Hf. revert v.
  induction l as [|x l IH]; intros v; simpl.
  - apply same_but_buffer_refl.
  - eapply same_but_buffer_trans; [apply Hf | apply IH].
Qed.

#[local] Hint Resolve same_but_buffer_refl same_but_buffer_set : paint.

Section Paint.

Variable mmu_read : Z -> Z.
Variable tile_get_pixel : Z -> Z -> Z -> Z -> GBColor.

Lemma write_scanline_paints l v :
  same_but_buffer v (write_scanline mmu_read l v).
Proof.
  unfold write_scanline.
  destruct (negb (display_enabled v)); auto with paint.
  set (v1 := if bg_enabled v && negb (debug_disable_background v)
             then draw_bg_line mmu_read l v else v).
  assert (H1 : same_but_buffer v v1).
  { subst v1. destruct (_ && _); unfold draw_bg_line; auto with paint. }
  eapply same_but_buffer_trans; [exact H1|]. clearbody v1.
  destruct (_ && _); unfold draw_window_line; auto with paint.
  destruct (_ <=? _); auto with paint.
Qed.

Lemma draw_sprite_paints n v :
  same_but_buffer v (draw_sprite mmu_read tile_get_pixel n v).
Proof.
  unfold draw_sprite.
  repeat (destruct (_ || _); auto with paint).
  apply same_but_buffer_fold; intros v' y.
  apply same_but_buffer_fold; intros v'' x.
  unfold draw_sprite_pixel.
  repeat (case_match; auto with paint).
Qed.

Lemma write_sprites_paints v :
  same_but_buffer v (write_sprites mmu_read tile_get_pixel v).
Proof.
  unfold write_sprites. destruct (_ || _); auto with paint.
  apply same_but_buffer_fold; intros. apply draw_sprite_paints.
Qed.

(** The mode machine of [Video::tick] is [mode_step]. *)
Lemma mode_view_tick c s :
  mode_view (Video_tick mmu_read tile_get_pixel c s) =
  mode_step c (mode_view s).
Proof.
  unfold Video_tick.
  pose proof write_scanline_paints as Hws.
  pose proof write_sprites_paints as Hsp.
  revert Hws Hsp.
  generalize (write_scanline mmu_read) as ws.
  generalize (write_sprites mmu_read tile_get_pixel) as sp.
  intros sp ws Hws Hsp.
  destruct s as [v fl fr].
  destruct v as [cb st sy sx l lyc wy wx bgp p0 p1 d1 d2 d3 buf m cc].
  unfold mode_view, mode_step, ByteRegister.value, ByteRegister.increment.
  cbn [video on_video interrupt_flag vblank_frames current_mode
       set_cycle_counter cycle_counter line lcd_status ly_compare].
  destruct m; cbn [current_mode cycle_counter]; case_match; try reflexivity.
  - destruct (bitwise.check_bit st 3), (bitwise.check_bit st 6), (lyc =? l);
      reflexivity.
  - cbn.
    match goal with |- context [ws ?a ?v] =>
      destruct (Hws a v) as [b Hb] end.
    rewrite Hb. cbn. case_match; cbn; rewrite ?Hb; reflexivity.
  - cbn. case_match; [|reflexivity]. cbn.
    match goal with |- context [sp ?v] => destruct (Hsp v) as [b ->] end.
    reflexivity.
Qed.

End Paint.
Lemma mode_step_in_step c p :
  in_step p -> short_tick c ->
  in_step (mode_step c p) /\
  frame_time (mode_step c p) = (frame_time p + c) mod CLOCKS_PER_FRAME.
Proof.
  destruct p as [m l cc st lyc fl]. unfold in_step, short_tick, frame_time.
  cbn [mv_mode mv_line mv_counter]. intros Hp Hc.
  unfold mode_step. unfold_clocks.
  destruct m;
    repeat (match goal with
            | |- context [if ?b then _ else _] => destruct b eqn:?
            end; cbn [mv_mode mv_line mv_counter]);
    rewrite ?Z.leb_le, ?Z.leb_gt, ?Z.eqb_eq, ?Z.eqb_neq in *;
    split; euclid.
Qed.

Lemma in_step_schedule p :
  in_step p ->
  0 <= frame_time p < CLOCKS_PER_FRAME /\
  (mv_mode p, mv_line p, mv_counter p) = schedule (frame_time p).
Proof.
  destruct p as [m l cc st lyc fl]. unfold in_step, frame_time, schedule.
  cbn [mv_mode mv_line mv_counter]. unfold_clocks. intros Hp.
  assert (Hl : (l * 456 + cc +
                match m with ACCESS_OAM => 0 | ACCESS_VRAM => 80
                           | HBLANK => 80 + 172 | VBLANK => 0 end) / 456 = l)
    by (destruct m; euclid).
  assert (Hr : (l * 456 + cc +
                match m with ACCESS_OAM => 0 | ACCESS_VRAM => 80
                           | HBLANK => 80 + 172 | VBLANK => 0 end) mod 456 =
               cc + match m with ACCESS_OAM => 0 | ACCESS_VRAM => 80
                           | HBLANK => 80 + 172 | VBLANK => 0 end)
    by (destruct m; euclid).
  rewrite Hl, Hr. split; [destruct m; lia|].
  destruct m; repeat case_match;
    rewrite ?Z.ltb_lt, ?Z.ltb_ge in *; try lia; repeat f_equal; lia.
Qed.

(** The schedule at the mode boundaries of a frame. *)
Example schedule_boundaries :
  schedule 0 = (ACCESS_OAM, 0, 0) /\ schedule 79 = (ACCESS_OAM, 0, 79) /\
  schedule 80 = (ACCESS_VRAM, 0, 0) /\ schedule 251 = (ACCESS_VRAM, 0, 171) /\
  schedule 252 = (HBLANK, 0, 0) /\ schedule 455 = (HBLANK, 0, 203) /\
  schedule 456 = (ACCESS_OAM, 1, 0) /\
  schedule (144 * 456 - 1) = (HBLANK, 143, 203) /\
  schedule (144 * 456) = (VBLANK, 144, 0) /\
  schedule (70224 - 1) = (VBLANK, 153, 455).
Proof. repeat split. Qed.

Section ModeMachine.

Variable mmu_read : Z -> Z.
Variable tile_get_pixel : Z -> Z -> Z -> Z -> GBColor.

Local Abbreviation tick := (Video_tick mmu_read tile_get_pixel).
Local Abbreviation run := (Video_run mmu_read tile_get_pixel).

Lemma run_in_step cycles : forall s,
  in_step (mode_view s) -> Forall short_tick cycles ->
  in_step (mode_view (run cycles s)) /\
  frame_time (mode_view (run cycles s)) =
    (frame_time (mode_view s) + sum_cycles cycles) mod CLOCKS_PER_FRAME.
Proof.
  induction cycles as [|c cycles IH]; intros s Hs Hc; simpl.
  - split; [exact Hs|].
    apply in_step_schedule in Hs as [Hs _].
    rewrite Z.add_0_r, Z.mod_small; [reflexivity | exact Hs].
  - inversion Hc as [|? ? Hc1 Hc2]; subst.
    destruct (mode_step_in_step c (mode_view s) Hs Hc1) as [H1 H2].
    rewrite <- mode_view_tick with (mmu_read := mmu_read)
      (tile_get_pixel := tile_get_pixel) in H1, H2.
    destruct (IH (tick c s) H1 Hc2) as [H3 H4].
    split; [exact H3|].
    unfold Video_run in *. rewrite H4, H2.
    rewrite Zplus_mod_idemp_l. f_equal. lia.
Qed.

Lemma vblank_entry c s :
  current_mode (video s) = HBLANK ->
  current_mode (video (tick c s)) = VBLANK ->
  ByteRegister.value (line (video (tick c s))) = 144 /\
  Z.testbit (interrupt_flag (tick c s)) 0 = true.
Proof.
  intros Hb Ha.
  pose proof (mode_view_tick mmu_read tile_get_pixel c s) as E.
  assert (Em : mv_mode (mode_view (tick c s)) = VBLANK) by exact Ha.
  change (ByteRegister.value (line (video (tick c s))))
    with (mv_line (mode_view (tick c s))).
  change (interrupt_flag (tick c s)) with (mv_iflag (mode_view (tick c s))).
  rewrite E in *. clear E Ha.
  unfold mode_view, mode_step in *. rewrite Hb in *.
  repeat (match goal with
          | H : context [if ?b then _ else _] |- _ => destruct b eqn:?
          end; cbn [mv_mode mv_line mv_iflag] in * );
    try discriminate.
  split; [by apply Z.eqb_eq|].
  unfold bitwise.set_bit_to. apply Z.setbit_eq. lia.
Qed.

(** C1, amended: from reset, under ticks of at most 80 T-states each (a CPU
    instruction takes at most 24), the PPU is where the schedule of the spec
    puts it after the T-states ticked so far, modulo the 70224 T-states of
    a frame: 80 in OAM-scan, 172 in VRAM-access and 204 in HBlank on each
    of 144 lines, then 10 lines of 456 in VBlank.  The tick that goes from
    HBlank to VBlank leaves LY at 144 and sets bit 0 of the interrupt flag. *)
Theorem video_frame_schedule (cycles : list Z) (s : PPU) :
  phase s = (ACCESS_OAM, 0, 0) ->
  Forall short_tick cycles ->
  phase (run cycles s) = schedule (sum_cycles cycles mod CLOCKS_PER_FRAME) /\
  CLOCKS_PER_FRAME = 70224 /\
  (forall c s',
      current_mode (video s') = HBLANK ->
      current_mode (video (tick c s')) = VBLANK ->
      ByteRegister.value (line (video (tick c s'))) = 144 /\
      Z.testbit (interrupt_flag (tick c s')) 0 = true).
Proof.
  intros Hs Hc. split; [|split; [reflexivity | apply vblank_entry]].
  assert (H0 : in_step (mode_view s) /\ frame_time (mode_view s) = 0).
  { unfold phase, ByteRegister.value in Hs. injection Hs as Hm Hl Hcc.
    unfold in_step, frame_time, mode_view. cbn [mv_mode mv_line mv_counter].
    rewrite Hm, Hl, Hcc. lia. }
  destruct H0 as [H0 Ht].
  destruct (run_in_step cycles s H0 Hc) as [H1 H2].
  rewrite Ht, Z.add_0_l in H2.
  apply in_step_schedule in H1 as [_ H1].
  rewrite H2 in H1. exact H1.
Qed.

(** With the display off [write_scanline] returns at once. *)
Lemma write_scanline_display_off l v :
  display_enabled v = false -> write_scanline mmu_read l v = v.
Proof. intros H. unfold write_scanline. by rewrite H. Qed.

Lemma tick_display_off_buffer c s :
  display_enabled (video s) = false ->
  current_mode (video s) <> VBLANK ->
  buffer (video (tick c s)) = buffer (video s) /\
  vblank_frames (tick c s) = vblank_frames s.
Proof.
  unfold Video_tick.
  pose proof write_scanline_display_off as Hws. revert Hws.
  generalize (write_scanline mmu_read) as ws.
  generalize (write_sprites mmu_read tile_get_pixel) as sp.
  intros sp ws Hws Hd Hm. destruct s as [v fl fr].
  destruct v as [cb st sy sx l lyc wy wx bgp p0 p1 d1 d2 d3 buf m cc].
  unfold ByteRegister.value.
  cbn [video on_video interrupt_flag vblank_frames current_mode
       set_cycle_counter cycle_counter line lcd_status ly_compare] in *.
  destruct m; try congruence; cbn [current_mode cycle_counter];
    case_match; try done.
  - destruct (bitwise.check_bit st 3), (bitwise.check_bit st 6), (lyc =? l);
      done.
  - cbn. rewrite Hws by exact Hd. cbn.
    case_match; cbn; rewrite ?Hws by exact Hd; done.
Qed.

Lemma mode_view_set_control_byte cb s :
  mode_view (on_video (set_control_byte cb) s) = mode_view s.
Proof. by destruct s as [[] ? ?]. Qed.

(** C2, amended: while LCDC bit 7 is 0, [write_scanline] draws nothing,
    so a tick outside VBlank leaves the frame buffer as it was and hands
    the host no frame; the mode machine does not read LCDC, so mode, LY,
    cycle counter, STAT and the interrupt flag advance as they would with
    any other value of LCDC. *)
Theorem lcd_off_draws_no_scanline (c : Z) (s : PPU) :
  display_enabled (video s) = false ->
  (forall l, write_scanline mmu_read l (video s) = video s) /\
  (current_mode (video s) <> VBLANK ->
   buffer (video (tick c s)) = buffer (video s) /\
   vblank_frames (tick c s) = vblank_frames s) /\
  (forall cb,
      mode_view (tick c (on_video (set_control_byte cb) s)) =
      mode_view (tick c s)).
Proof.
  intros Hd. split; [|split].
  - intros l. by apply write_scanline_display_off.
  - by apply tick_display_off_buffer.
  - intros cb. by rewrite !mode_view_tick, mode_view_set_control_byte.
Qed.

End ModeMachine.

(** A frame of 17556 ticks of 4 T-states brings the PPU back to the start of
    OAM-scan on line 0, and the host has been handed one frame. *)
Example one_frame :
  let s := Video_run blank_bus blank_tile (repeat 4 (Z.to_nat 17556)) PPU_new in
  phase s = (ACCESS_OAM, 0, 0) /\ length (vblank_frames s) = 1%nat.
Proof. vm_compute. repeat split. Qed.

Lemma video_frame_schedule_witness :
  phase PPU_new = (ACCESS_OAM, 0, 0) /\
  Forall short_tick [4; 12; 80; 24] /\
  phase (Video_run blank_bus blank_tile [4; 12; 80; 24] PPU_new) =
    schedule (sum_cycles [4; 12; 80; 24] mod CLOCKS_PER_FRAME).
Proof.
  assert (H : Forall short_tick [4; 12; 80; 24])
    by (repeat constructor; unfold short_tick; lia).
  split; [reflexivity | split; [exact H|]].
  exact (proj1 (video_frame_schedule blank_bus blank_tile [4; 12; 80; 24]
                  PPU_new eq_refl H)).
Defined.

(** C1 as stated fails for a long tick: one tick of 160 T-states from reset
    leaves the PPU at the start of VRAM-access, where the schedule has it 80
    T-states into that mode. *)
Lemma video_long_tick_off_schedule :
  phase (Video_run blank_bus blank_tile [160] PPU_new) = (ACCESS_VRAM, 0, 0) /\
  schedule (sum_cycles [160] mod CLOCKS_PER_FRAME) = (ACCESS_VRAM, 0, 80) /\
  phase (Video_run blank_bus blank_tile [160] PPU_new) <>
    schedule (sum_cycles [160] mod CLOCKS_PER_FRAME).
Proof. vm_compute. repeat split; congruence. Qed.

(** C2 as stated fails: with the display off the first 80 T-states take the
    PPU out of OAM-scan, and 144 lines of ticks later it is in VBlank at
    LY = 144 with bit 0 of the interrupt flag set. *)
Lemma lcd_off_mode_machine_runs :
  let s := Video_run blank_bus blank_tile (repeat 4 (Z.to_nat 16416))
             lcd_off_ppu in
  display_enabled (video lcd_off_ppu) = false /\
  phase lcd_off_ppu = (ACCESS_OAM, 0, 0) /\
  current_mode (video (Video_tick blank_bus blank_tile 80 lcd_off_ppu)) <>
    ACCESS_OAM /\
  display_enabled (video s) = false /\
  phase s = (VBLANK, 144, 0) /\
  Z.testbit (interrupt_flag lcd_off_ppu) 0 = false /\
  Z.testbit (interrupt_flag s) 0 = true.
Proof. vm_compute. repeat split; congruence. Qed.

Lemma lcd_off_draws_no_scanline_witness :
  display_enabled (video lcd_off_ppu) = false /\
  (forall l, write_scanline blank_bus l (video lcd_off_ppu) = video lcd_off_ppu) /\
  (current_mode (video lcd_off_ppu) <> VBLANK ->
   buffer (video (Video_tick blank_bus blank_tile 80 lcd_off_ppu)) =
     buffer (video lcd_off_ppu) /\
   vblank_frames (Video_tick blank_bus blank_tile 80 lcd_off_ppu) =
     vblank_frames lcd_off_ppu) /\
  (forall cb,
      mode_view (Video_tick blank_bus blank_tile 80
                   (on_video (set_control_byte cb) lcd_off_ppu)) =
      mode_view (Video_tick blank_bus blank_tile 80 lcd_off_ppu)).
Proof.
  split; [reflexivity|].
  exact (lcd_off_draws_no_scanline blank_bus blank_tile 80 lcd_off_ppu eq_refl).
Defined.

(** ** The APU: samples *)

Lemma SFltb_SFleb x y : SFltb x y = true -> SFleb x y = true.
Proof.
  unfold SFltb, SFleb. destruct (SFcompare x y) as [[]|]; congruence.
Qed.

Lemma clamp_in_unit x : in_unit (Audio.clamp x).
Proof.
  unfold in_unit, F32.in_unit_range, Audio.clamp, F32.max, F32.min,
    F32.ltb, F32.leb.
  destruct (SFltb x F32.one) eqn:E1.
  - destruct (SFltb F32.minus_one x) eqn:E2.
    + by rewrite !SFltb_SFleb.
    + reflexivity.
  - reflexivity.
Qed.

(** The code's clamp, by [std::min] and [std::max], is the clamp of the
    spec. *)
Lemma clamp_spec x : Audio.clamp x = clamp_to_unit x.
Proof.
  unfold Audio.clamp, clamp_to_unit, F32.max, F32.min.
  destruct (F32.ltb x F32.one); destruct (F32.ltb F32.minus_one x);
    reflexivity.
Qed.

Lemma zero_in_unit : in_unit F32.zero.
Proof. reflexivity. Qed.

Lemma mix_samples_pushes a :
  exists l r,
    in_unit l /\ in_unit r /\
    Audio.mix_samples a =
      Audio.with_right_buffer (Audio.right_buffer a ++ [r])
        (Audio.with_left_buffer (Audio.left_buffer a ++ [l]) a).
Proof.
  unfold Audio.mix_samples. destruct (negb _).
  - exists F32.zero, F32.zero. auto using zero_in_unit.
  - eexists _, _. split; [|split; [|reflexivity]]; apply clamp_in_unit.
Qed.

Lemma mix_samples_formula a :
  bitwise.check_bit (ByteRegister.value (Audio.nr52 a)) 7 = true ->
  Audio.left_buffer (Audio.mix_samples a) =
    Audio.left_buffer a ++
    [mixed_side (Audio.nr51 a) (Z.land (Z.shiftr (Audio.nr50 a) 4) 0x7)
       (left_outputs a)] /\
  Audio.right_buffer (Audio.mix_samples a) =
    Audio.right_buffer a ++
    [mixed_side (Audio.nr51 a) (Z.land (Audio.nr50 a) 0x7) (right_outputs a)].
Proof.
  intros H. unfold Audio.mix_samples, mixed_side. rewrite H. cbn [negb].
  rewrite <- !clamp_spec. split; reflexivity.
Qed.

Lemma mix_samples_silence a :
  bitwise.check_bit (ByteRegister.value (Audio.nr52 a)) 7 = false ->
  Audio.left_buffer (Audio.mix_samples a) = Audio.left_buffer a ++ [F32.zero] /\
  Audio.right_buffer (Audio.mix_samples a) = Audio.right_buffer a ++ [F32.zero].
Proof.
  intros H. unfold Audio.mix_samples. rewrite H. split; reflexivity.
Qed.

Lemma sample_loop_unfold a :
  Audio.sample_loop a =
  if Audio.CYCLES_PER_SAMPLE <=? Audio.sample_counter a
  then Audio.sample_loop (Audio.sample_step a) else a.
Proof.
  funelim (Audio.sample_loop a).
  - destruct (Z.leb_spec Audio.CYCLES_PER_SAMPLE (Audio.sample_counter a));
      [reflexivity | lia].
  - destruct (Z.leb_spec Audio.CYCLES_PER_SAMPLE (Audio.sample_counter a));
      [lia | reflexivity].
Qed.

Lemma sample_step_counter a :
  Audio.sample_counter (Audio.sample_step a) =
  Audio.sample_counter a - Audio.CYCLES_PER_SAMPLE.
Proof.
  unfold Audio.sample_step, Audio.flush.
  destruct (mix_samples_pushes
              (Audio.with_sample_counter
                 (Audio.sample_counter a - Audio.CYCLES_PER_SAMPLE) a))
    as (l & r & _ & _ & ->).
  cbn. repeat case_match; reflexivity.
Qed.

(** An invariant of [sample_step] holds when the loop is left. *)
Lemma sample_loop_ind (P : Audio.t -> Prop) :
  (forall a, P a -> P (Audio.sample_step a)) ->
  forall a, P a -> P (Audio.sample_loop a).
Proof.
  intros Hstep a. funelim (Audio.sample_loop a); intros HP.
  - apply H; [exact Hstep | by apply Hstep].
  - exact HP.
Qed.

(** The loop runs once for every 95 T-states on the counter, and leaves the
    rest. *)
Lemma sample_loop_iter a :
  Audio.sample_loop a =
    Nat.iter (Z.to_nat (Audio.sample_counter a / Audio.CYCLES_PER_SAMPLE))
      Audio.sample_step a.
Proof.
  funelim (Audio.sample_loop a); clear Heqcall.
  - rewrite H. rewrite sample_step_counter.
    change Audio.CYCLES_PER_SAMPLE with 95 in *.
    replace (Audio.sample_counter a / 95)
      with ((Audio.sample_counter a - 95) / 95 + 1)
      by (Z.to_euclidean_division_equations; lia).
    rewrite Z2Nat.inj_add by (Z.to_euclidean_division_equations; lia).
    rewrite Nat.add_comm.
    change (Z.to_nat 1) with 1%nat. cbn [Nat.add].
    by rewrite Nat.iter_succ_r.
  - change Audio.CYCLES_PER_SAMPLE with 95 in *.
    replace (Z.to_nat (Audio.sample_counter a / 95)) with 0%nat
      by (Z.to_euclidean_division_equations; lia).
    reflexivity.
Qed.

Lemma sample_loop_counter a :
  0 <= Audio.sample_counter a ->
  Audio.sample_counter (Audio.sample_loop a) =
    Audio.sample_counter a mod Audio.CYCLES_PER_SAMPLE.
Proof.
  funelim (Audio.sample_loop a); clear Heqcall; intros H0.
  - rewrite H; rewrite sample_step_counter;
      change Audio.CYCLES_PER_SAMPLE with 95 in *;
      Z.to_euclidean_division_equations; lia.
  - change Audio.CYCLES_PER_SAMPLE with 95 in *.
    Z.to_euclidean_division_equations; lia.
Qed.

(** ** The APU: what the buffers hold *)

Lemma flush_flushes a :
  1024 <= Z.of_nat (length (Audio.left_buffer a)) ->
  Audio.left_buffer (Audio.flush a) = [] /\
  Audio.right_buffer (Audio.flush a) = [] /\
  Audio.delivered (Audio.flush a) =
    if Audio.audio_callback a
    then Audio.delivered a ++ [(Audio.left_buffer a, Audio.right_buffer a)]
    else Audio.delivered a.
Proof.
  intros H. unfold Audio.flush.
  destruct (Z.leb_spec 1024 (Z.of_nat (length (Audio.left_buffer a)))); [|lia].
  destruct (Audio.audio_callback a); done.
Qed.

Lemma flush_keeps a :
  Z.of_nat (length (Audio.left_buffer a)) < 1024 -> Audio.flush a = a.
Proof.
  intros H. unfold Audio.flush.
  destruct (Z.leb_spec 1024 (Z.of_nat (length (Audio.left_buffer a)))); [lia|].
  reflexivity.
Qed.

Lemma flush_paired a : paired a -> paired (Audio.flush a).
Proof.
  intros [Hl Hd].
  destruct (Z_lt_le_dec (Z.of_nat (length (Audio.left_buffer a))) 1024) as [H|H].
  - by rewrite flush_keeps.
  - destruct (flush_flushes a H) as (E1 & E2 & E3).
    split; [by rewrite E1, E2|]. rewrite E3.
    destruct (Audio.audio_callback a); [|exact Hd].
    apply Forall_app; split; [exact Hd|]. by constructor.
Qed.

Lemma flush_in_bounds a : in_bounds a -> in_bounds (Audio.flush a).
Proof.
  intros (Hl & Hr & Hd).
  destruct (Z_lt_le_dec (Z.of_nat (length (Audio.left_buffer a))) 1024) as [H|H].
  - by rewrite flush_keeps.
  - destruct (flush_flushes a H) as (E1 & E2 & E3).
    split; [|split]; rewrite ?E1, ?E2, ?E3; try by constructor.
    destruct (Audio.audio_callback a); [|exact Hd].
    apply Forall_app; split; [exact Hd|]. by constructor.
Qed.

Lemma mix_samples_paired a : paired a -> paired (Audio.mix_samples a).
Proof.
  intros [Hl Hd]. destruct (mix_samples_pushes a) as (l & r & _ & _ & ->).
  split; cbn; [|exact Hd]. rewrite !length_app. cbn. lia.
Qed.

Lemma mix_samples_in_bounds a : in_bounds a -> in_bounds (Audio.mix_samples a).
Proof.
  intros (Hl & Hr & Hd).
  destruct (mix_samples_pushes a) as (l & r & Il & Ir & ->).
  split; [|split]; cbn; [| |exact Hd];
    apply Forall_app; split; auto.
Qed.

Lemma sample_step_paired a : paired a -> paired (Audio.sample_step a).
Proof.
  intros H. apply flush_paired, mix_samples_paired.
  destruct H. by split.
Qed.

Lemma sample_step_in_bounds a : in_bounds a -> in_bounds (Audio.sample_step a).
Proof.
  intros H. apply flush_in_bounds, mix_samples_in_bounds.
  destruct H as (? & ? & ?). by repeat split.
Qed.

(** [sample_step] leaves registers, channels and callback alone. *)
Lemma sample_step_registers a :
  let a' := Audio.sample_step a in
  Audio.nr50 a' = Audio.nr50 a /\ Audio.nr51 a' = Audio.nr51 a /\
  Audio.nr52 a' = Audio.nr52 a /\
  Audio.channel1 a' = Audio.channel1 a /\
  Audio.channel2 a' = Audio.channel2 a /\
  Audio.channel3 a' = Audio.channel3 a /\
  Audio.channel4 a' = Audio.channel4 a /\
  Audio.audio_callback a' = Audio.audio_callback a.
Proof.
  unfold Audio.sample_step, Audio.flush.
  destruct (mix_samples_pushes
              (Audio.with_sample_counter
                 (Audio.sample_counter a - Audio.CYCLES_PER_SAMPLE) a))
    as (l & r & _ & _ & ->).
  cbn. repeat case_match; done.
Qed.

Lemma tick_unfold cycles a :
  Audio.tick cycles a = Audio.sample_loop (tick_channels cycles a).
Proof. reflexivity. Qed.

Lemma tick_paired cycles a : paired a -> paired (Audio.tick cycles a).
Proof.
  intros H. rewrite tick_unfold.
  apply (sample_loop_ind paired); [apply sample_step_paired|].
  destruct H. by split.
Qed.

Lemma tick_in_bounds cycles a : in_bounds a -> in_bounds (Audio.tick cycles a).
Proof.
  intros H. rewrite tick_unfold.
  apply (sample_loop_ind in_bounds); [apply sample_step_in_bounds|].
  destruct H as (? & ? & ?). by repeat split.
Qed.

Lemma tick_counter cycles a :
  0 <= Audio.sample_counter a -> 0 <= cycles ->
  Audio.sample_counter (Audio.tick cycles a) =
    wrap32 (Audio.sample_counter a + cycles) mod Audio.CYCLES_PER_SAMPLE.
Proof.
  intros H1 H2. rewrite tick_unfold, sample_loop_counter; [reflexivity|].
  cbn. unfold wrap32. Z.to_euclidean_division_equations; lia.
Qed.

(** A register write touches neither the buffers nor the sample counter nor
    the host. *)
Lemma write_register_buffers address value a :
  let a' := Audio.write_register address value a in
  Audio.left_buffer a' = Audio.left_buffer a /\
  Audio.right_buffer a' = Audio.right_buffer a /\
  Audio.delivered a' = Audio.delivered a /\
  Audio.sample_counter a' = Audio.sample_counter a /\
  Audio.audio_callback a' = Audio.audio_callback a.
Proof.
  unfold Audio.write_register. repeat case_match; done.
Qed.

(** ** The APU: channels and the master enable *)

Lemma ToneSweepChannel_tick_enabled cycles c :
  ToneSweepChannel.enabled (ToneSweepChannel.tick cycles c) =
  ToneSweepChannel.enabled c.
Proof. unfold ToneSweepChannel.tick. repeat case_match; done. Qed.

Lemma ToneChannel_tick_enabled cycles c :
  ToneChannel.enabled (ToneChannel.tick cycles c) = ToneChannel.enabled c.
Proof. unfold ToneChannel.tick. repeat case_match; done. Qed.

Lemma WaveChannel_tick_enabled cycles c :
  WaveChannel.enabled (WaveChannel.tick cycles c) = WaveChannel.enabled c.
Proof. unfold WaveChannel.tick. repeat case_match; done. Qed.

Lemma NoiseChannel_tick_enabled cycles c :
  NoiseChannel.enabled (NoiseChannel.tick cycles c) = NoiseChannel.enabled c.
Proof. unfold NoiseChannel.tick. repeat case_match; done. Qed.

Lemma set_wave_pattern_enabled index value c :
  WaveChannel.enabled (WaveChannel.set_wave_pattern index value c) =
  WaveChannel.enabled c.
Proof. unfold WaveChannel.set_wave_pattern. case_match; done. Qed.

Lemma testbit_wrap8_7 x : Z.testbit (wrap8 x) 7 = Z.testbit x 7.
Proof.
  unfold wrap8. change 256 with (2 ^ 8).
  apply Z.mod_pow2_bits_low. lia.
Qed.

(** Bit 7 of NR52 after a write of [value] is bit 7 of [value]. *)
Lemma nr52_written_bit7 value old :
  bitwise.check_bit
    (ByteRegister.value
       (ByteRegister.set
          (Z.lor (Z.lor (Z.land value 0x80) (Z.land old 0x0F)) 0x70))) 7 =
  bitwise.check_bit value 7.
Proof.
  unfold bitwise.check_bit, ByteRegister.value, ByteRegister.set.
  rewrite testbit_wrap8_7, !Z.lor_spec, !Z.land_spec.
  change (Z.testbit 128 7) with true. change (Z.testbit 15 7) with false.
  change (Z.testbit 112 7) with false.
  by rewrite andb_true_r, andb_false_r, !orb_false_r.
Qed.

Lemma tick_channels_quiet cycles a :
  quiet_when_off a -> quiet_when_off (tick_channels cycles a).
Proof.
  unfold quiet_when_off, tick_channels. cbn.
  by rewrite ToneSweepChannel_tick_enabled, ToneChannel_tick_enabled,
    WaveChannel_tick_enabled, NoiseChannel_tick_enabled.
Qed.

Lemma sample_step_quiet a :
  quiet_when_off a -> quiet_when_off (Audio.sample_step a).
Proof.
  unfold quiet_when_off.
  destruct (sample_step_registers a) as (_ & _ & -> & -> & -> & -> & -> & _).
  done.
Qed.

Lemma write_register_quiet address value a :
  quiet_when_off a -> quiet_when_off (Audio.write_register address value a).
Proof.
  unfold quiet_when_off, Audio.write_register. intros Hq.
  pose proof (nr52_written_bit7 value (ByteRegister.value (Audio.nr52 a)))
    as Hbit.
  destruct (bitwise.check_bit (ByteRegister.value (Audio.nr52 a)) 7) eqn:E.
  - cbn [negb andb].
    repeat (case_match; try (audio_fields; intros; congruence)).
    all: audio_fields; try done.
    intros Hoff. rewrite Hoff in *. discriminate.
  - specialize (Hq eq_refl).
    cbn [negb andb].
    repeat (case_match; try (audio_fields; intros; try done;
                             by rewrite ?set_wave_pattern_enabled)).
    all: exfalso; address_facts; lia.
Qed.

Lemma ToneSweepChannel_disabled cycles c :
  ToneSweepChannel.enabled c = false ->
  ToneSweepChannel.tick cycles c = c /\
  ToneSweepChannel.get_sample c = F32.zero.
Proof.
  intros H. unfold ToneSweepChannel.tick, ToneSweepChannel.get_sample.
  by rewrite H.
Qed.

Lemma ToneChannel_disabled cycles c :
  ToneChannel.enabled c = false ->
  ToneChannel.tick cycles c = c /\ ToneChannel.get_sample c = F32.zero.
Proof.
  intros H. unfold ToneChannel.tick, ToneChannel.get_sample. by rewrite H.
Qed.

Lemma WaveChannel_disabled cycles c :
  WaveChannel.enabled c = false ->
  WaveChannel.tick cycles c = c /\ WaveChannel.get_sample c = F32.zero.
Proof.
  intros H. unfold WaveChannel.tick, WaveChannel.get_sample. by rewrite H.
Qed.

Lemma NoiseChannel_disabled cycles c :
  NoiseChannel.enabled c = false ->
  NoiseChannel.tick cycles c = c /\ NoiseChannel.get_sample c = F32.zero.
Proof.
  intros H. unfold NoiseChannel.tick, NoiseChannel.get_sample. by rewrite H.
Qed.

(** C9: a channel whose enabled flag is false is left as it is by [tick],
    whatever the cycle count, and its [get_sample] is exactly 0.0. *)
Theorem disabled_channel_inert (cycles : Z) (ch : SoundChannel) :
  SoundChannel_is_enabled ch = false ->
  SoundChannel_tick cycles ch = ch /\ SoundChannel_get_sample ch = F32.zero.
Proof.
  destruct ch as [c|c|c|c]; cbn; intros H.
  - destruct (ToneSweepChannel_disabled cycles c H) as [-> ->]. done.
  - destruct (ToneChannel_disabled cycles c H) as [-> ->]. done.
  - destruct (WaveChannel_disabled cycles c H) as [-> ->]. done.
  - destruct (NoiseChannel_disabled cycles c H) as [-> ->]. done.
Qed.

Lemma disabled_channel_inert_witness :
  SoundChannel_is_enabled (Channel4 NoiseChannel.new) = false /\
  SoundChannel_tick 24 (Channel4 NoiseChannel.new) = Channel4 NoiseChannel.new /\
  SoundChannel_get_sample (Channel4 NoiseChannel.new) = F32.zero.
Proof.
  split; [reflexivity|].
  exact (disabled_channel_inert 24 (Channel4 NoiseChannel.new) eq_refl).
Defined.

(** ** The APU: the mixer *)

Lemma land_7_range x : 0 <= Z.land x 7 < 8.
Proof.
  change 7 with (Z.ones 3). rewrite Z.land_ones by lia.
  apply Z.mod_pos_bound. lia.
Qed.

Lemma panned_sum_silent nr51 outputs :
  Forall (fun bo => snd bo = F32.zero) outputs ->
  panned_sum nr51 outputs = F32.zero.
Proof.
  unfold panned_sum. intros H.
  induction H as [|[bit s] l Hs _ IH]; [reflexivity|].
  cbn [fold_left fst snd] in *. rewrite Hs.
  by destruct (Z.testbit nr51 bit).
Qed.

Lemma mixed_side_silent nr51 x outputs :
  Forall (fun bo => snd bo = F32.zero) outputs ->
  mixed_side nr51 (Z.land x 7) outputs = F32.zero.
Proof.
  intros H. unfold mixed_side. rewrite (panned_sum_silent _ _ H).
  pose proof (land_7_range x) as Hv.
  assert (Hc : Z.land x 7 = 0 \/ Z.land x 7 = 1 \/ Z.land x 7 = 2 \/
               Z.land x 7 = 3 \/ Z.land x 7 = 4 \/ Z.land x 7 = 5 \/
               Z.land x 7 = 6 \/ Z.land x 7 = 7) by lia.
  destruct Hc as [->|[->|[->|[->|[->|[->|[->| ->]]]]]]]; reflexivity.
Qed.

(** The sample pushed is the mix of the spec, also while the master enable
    is off: no channel is enabled then, and the mix of silence is 0.0. *)
Lemma mix_samples_mixed a :
  quiet_when_off a ->
  Audio.left_buffer (Audio.mix_samples a) =
    Audio.left_buffer a ++
    [mixed_side (Audio.nr51 a) (Z.land (Z.shiftr (Audio.nr50 a) 4) 0x7)
       (left_outputs a)] /\
  Audio.right_buffer (Audio.mix_samples a) =
    Audio.right_buffer a ++
    [mixed_side (Audio.nr51 a) (Z.land (Audio.nr50 a) 0x7) (right_outputs a)].
Proof.
  intros Hq.
  destruct (bitwise.check_bit (ByteRegister.value (Audio.nr52 a)) 7) eqn:E.
  - by apply mix_samples_formula.
  - destruct (Hq E) as (H1 & H2 & H3 & H4).
    destruct (mix_samples_silence a E) as [-> ->].
    assert (S1 : ToneSweepChannel.get_sample (Audio.channel1 a) = F32.zero)
      by apply (ToneSweepChannel_disabled 0 _ H1).
    assert (S2 : ToneChannel.get_sample (Audio.channel2 a) = F32.zero)
      by apply (ToneChannel_disabled 0 _ H2).
    assert (S3 : WaveChannel.get_sample (Audio.channel3 a) = F32.zero)
      by apply (WaveChannel_disabled 0 _ H3).
    assert (S4 : NoiseChannel.get_sample (Audio.channel4 a) = F32.zero)
      by apply (NoiseChannel_disabled 0 _ H4).
    rewrite !mixed_side_silent; [done| |];
      unfold left_outputs, right_outputs; rewrite S1, S2, S3, S4;
      repeat constructor.
Qed.

(** ** The APU: every state a program can reach *)

Lemma reachable_invariant a :
  reachable a ->
  paired a /\ in_bounds a /\ quiet_when_off a /\
  0 <= Audio.sample_counter a < Audio.CYCLES_PER_SAMPLE.
Proof.
  induction 1 as [|a _ IH|a cycles _ IH Hc|a address value _ IH Ha Hv].
  - repeat split; try by constructor. all: try done.
  - destruct IH as (Hp & Hb & Hq & Hs).
    unfold paired, in_bounds, quiet_when_off, Audio.register_audio_callback
      in *.
    audio_fields. done.
  - destruct IH as (Hp & Hb & Hq & Hs).
    split; [by apply tick_paired|]. split; [by apply tick_in_bounds|].
    split.
    + rewrite tick_unfold.
      apply (sample_loop_ind quiet_when_off); [apply sample_step_quiet|].
      by apply tick_channels_quiet.
    + rewrite tick_counter by lia.
      change Audio.CYCLES_PER_SAMPLE with 95. apply Z.mod_pos_bound. lia.
  - destruct IH as ([? ?] & (? & ? & ?) & Hq & ?).
    destruct (write_register_buffers address value a)
      as (E1 & E2 & E3 & E4 & E5). cbv zeta in *.
    split; [|split; [|split]].
    + unfold paired. by rewrite E1, E2, E3.
    + unfold in_bounds. by rewrite E1, E2, E3.
    + by apply write_register_quiet.
    + by rewrite E4.
Qed.

Lemma iter_invariant (P : Audio.t -> Prop) (k : nat) a :
  (forall b, P b -> P (Audio.sample_step b)) ->
  P a -> P (Nat.iter k Audio.sample_step a).
Proof.
  intros Hs Ha. induction k as [|k IH]; [exact Ha|].
  rewrite Nat.iter_succ. by apply Hs.
Qed.

Lemma count_sample_paired a : paired a -> paired (count_sample a).
Proof. by intros []. Qed.

Lemma count_sample_quiet a : quiet_when_off a -> quiet_when_off (count_sample a).
Proof. done. Qed.

Lemma tick_channels_paired cycles a : paired a -> paired (tick_channels cycles a).
Proof. by intros []. Qed.

Lemma mix_samples_lengths a :
  length (Audio.left_buffer (Audio.mix_samples a)) =
    S (length (Audio.left_buffer a)) /\
  length (Audio.right_buffer (Audio.mix_samples a)) =
    S (length (Audio.right_buffer a)).
Proof.
  destruct (mix_samples_pushes a) as (l & r & _ & _ & ->).
  audio_fields. rewrite !length_app. cbn. lia.
Qed.

(** C10: after a call of [Audio::tick] the left and the right buffer have the
    same length, and so have the two vectors of every call of the host
    callback: a sample pushes one value on each buffer, in the silent case
    too, and a flush empties both or leaves both. *)
Theorem buffers_stay_paired (a : Audio.t) (cycles : Z) :
  reachable a ->
  length (Audio.left_buffer (Audio.tick cycles a)) =
    length (Audio.right_buffer (Audio.tick cycles a)) /\
  Forall pair_same_length (Audio.delivered (Audio.tick cycles a)) /\
  (forall b,
      length (Audio.left_buffer (Audio.mix_samples b)) =
        S (length (Audio.left_buffer b)) /\
      length (Audio.right_buffer (Audio.mix_samples b)) =
        S (length (Audio.right_buffer b))) /\
  (forall b,
      Audio.left_buffer (Audio.flush b) = [] /\
      Audio.right_buffer (Audio.flush b) = [] \/
      Audio.flush b = b).
Proof.
  intros Hr. apply reachable_invariant in Hr as (Hp & _).
  destruct (tick_paired cycles a Hp) as [H1 H2].
  split; [exact H1|]. split; [exact H2|]. split.
  - apply mix_samples_lengths.
  - intros b.
    destruct (Z_lt_le_dec (Z.of_nat (length (Audio.left_buffer b))) 1024)
      as [H|H].
    + right. by apply flush_keeps.
    + left. destruct (flush_flushes b H) as (? & ? & _). done.
Qed.

Lemma buffers_stay_paired_witness :
  reachable Audio.new /\
  length (Audio.left_buffer (Audio.tick 200 Audio.new)) =
    length (Audio.right_buffer (Audio.tick 200 Audio.new)).
Proof.
  split; [constructor|].
  exact (proj1 (buffers_stay_paired Audio.new 200 reachable_new)).
Defined.

(** C4: the tick of a reachable APU runs the sample loop once for every 95
    T-states (the quotient of 4194304 by 44100) on its 32-bit counter and
    keeps the rest.  Each run pushes on either buffer the mix of the spec: the
    sum of the outputs routed to that side by NR51, times the NR50 volume over
    7, over 4, clamped to [-1.0, 1.0]: kept when it is above -1.0 and below
    1.0, and made the bound otherwise, which is what the code's clamp does
    to every float.  When that brings a buffer to 1024 samples, both buffers
    are emptied and the registered host callback has received the two of
    them.  Every sample the host has received lies in [-1.0, 1.0]. *)
Theorem sample_generation (a : Audio.t) (cycles : Z) :
  reachable a ->
  0 <= cycles < 4294967296 ->
  let start := tick_channels cycles a in
  let counter := wrap32 (Audio.sample_counter a + cycles) in
  Audio.CYCLES_PER_SAMPLE = 95 /\
  Audio.CYCLES_PER_SAMPLE = 4194304 / 44100 /\
  (cycles < 4294967296 - 95 -> counter = Audio.sample_counter a + cycles) /\
  Audio.tick cycles a =
    Nat.iter (Z.to_nat (counter / 95)) Audio.sample_step start /\
  Audio.sample_counter (Audio.tick cycles a) = counter mod 95 /\
  (forall k : nat,
      let b := count_sample (Nat.iter k Audio.sample_step start) in
      let m := Audio.mix_samples b in
      Nat.iter (S k) Audio.sample_step start = Audio.flush m /\
      Audio.left_buffer m =
        Audio.left_buffer b ++
        [mixed_side (Audio.nr51 b) (Z.land (Z.shiftr (Audio.nr50 b) 4) 0x7)
           (left_outputs b)] /\
      Audio.right_buffer m =
        Audio.right_buffer b ++
        [mixed_side (Audio.nr51 b) (Z.land (Audio.nr50 b) 0x7)
           (right_outputs b)] /\
      (1024 <= Z.of_nat (length (Audio.left_buffer m)) \/
       1024 <= Z.of_nat (length (Audio.right_buffer m)) ->
       Audio.left_buffer (Audio.flush m) = [] /\
       Audio.right_buffer (Audio.flush m) = [] /\
       (Audio.audio_callback m = true ->
        Audio.delivered (Audio.flush m) =
          Audio.delivered m ++ [(Audio.left_buffer m, Audio.right_buffer m)]))) /\
  (forall x, Audio.clamp x = clamp_to_unit x) /\
  (forall x, in_unit (clamp_to_unit x)) /\
  Forall pair_in_unit (Audio.delivered (Audio.tick cycles a)).
Proof.
  intros Hr Hc start counter.
  apply reachable_invariant in Hr as (Hp & Hb & Hq & Hs).
  change Audio.CYCLES_PER_SAMPLE with 95 in *.
  assert (Hstart : Audio.sample_counter start = counter) by reflexivity.
  assert (Hpos : 0 <= counter).
  { subst counter. unfold wrap32. apply Z.mod_pos_bound. lia. }
  split; [reflexivity|]. split; [reflexivity|].
  split; [|split; [|split; [|split]]].
  - intros Hsmall. subst counter. unfold wrap32. apply Z.mod_small. lia.
  - rewrite tick_unfold, sample_loop_iter. fold start. rewrite Hstart.
    reflexivity.
  - rewrite tick_unfold, sample_loop_counter; fold start; rewrite Hstart;
      [reflexivity | exact Hpos].
  - intros k b m.
    assert (Pk : paired (Nat.iter k Audio.sample_step start)).
    { apply iter_invariant; [apply sample_step_paired|].
      by apply tick_channels_paired. }
    assert (Qk : quiet_when_off (Nat.iter k Audio.sample_step start)).
    { apply iter_invariant; [apply sample_step_quiet|].
      by apply tick_channels_quiet. }
    split; [reflexivity|].
    destruct (mix_samples_mixed b (count_sample_quiet _ Qk)) as [El Er].
    split; [exact El|]. split; [exact Er|].
    intros Hfull.
    destruct (mix_samples_paired b (count_sample_paired _ Pk)) as [Hlen _].
    fold m in Hlen.
    assert (H : 1024 <= Z.of_nat (length (Audio.left_buffer m))) by lia.
    destruct (flush_flushes m H) as (E1 & E2 & E3).
    split; [exact E1|]. split; [exact E2|].
    intros Hcb. by rewrite E3, Hcb.
  - split; [apply clamp_spec|].
    split; [intros x; rewrite <- clamp_spec; apply clamp_in_unit|].
    by destruct (tick_in_bounds cycles a Hb) as (_ & _ & ?).
Qed.

(** The APU trigger scenario of the spec: with NR50 = 0x77 and NR51 = 0xFF,
    channel 1 started at volume 15 puts -1.0 out, and the first sample, 95
    T-states on, is -1.0 * 7/7 / 4 = -0.25 on both sides. *)
Example trigger_sample :
  ToneSweepChannel.get_sample (Audio.channel1 listening) = F32.minus_one /\
  Audio.left_buffer (Audio.tick 95 listening) =
    [F32.opp F32.quarter] /\
  Audio.right_buffer (Audio.tick 95 listening) =
    [F32.opp F32.quarter].
Proof. vm_compute. repeat split. Qed.

(** After 1024 samples the host has received one pair of 1024-sample vectors
    and the buffers are empty again. *)
Example first_delivery :
  let a := Audio.tick (95 * 1024) listening in
  map (fun p => (length (fst p), length (snd p))) (Audio.delivered a) =
    [(1024%nat, 1024%nat)] /\
  Audio.left_buffer a = [] /\ Audio.right_buffer a = [] /\
  Audio.sample_counter a = 0.
Proof. vm_compute. repeat split. Qed.

Lemma sample_generation_witness :
  reachable listening /\ 0 <= 200 < 4294967296 /\
  Audio.tick 200 listening =
    Nat.iter (Z.to_nat (wrap32 (Audio.sample_counter listening + 200) / 95))
      Audio.sample_step (tick_channels 200 listening).
Proof.
  assert (Hr : reachable listening).
  { unfold listening, playing. repeat (constructor; try lia). }
  assert (H : 0 <= 200 < 4294967296) by lia.
  split; [exact Hr | split; [exact H|]].
  exact (proj1 (proj2 (proj2 (proj2
           (sample_generation listening 200 Hr H))))).
Defined.

(** ** The APU: NR52 *)

(** What a write that takes NR52 from on to off does: the four channels are
    disabled, NR52 keeps bit 7 clear, and every other field is as before. *)
Lemma power_off_effect value a :
  bitwise.check_bit (ByteRegister.value (Audio.nr52 a)) 7 = true ->
  bitwise.check_bit value 7 = false ->
  Audio.write_register 0xFF26 value a =
    Audio.on_channel4 (NoiseChannel.set_enabled false)
      (Audio.on_channel3 (WaveChannel.set_enabled false)
         (Audio.on_channel2 (ToneChannel.set_enabled false)
            (Audio.on_channel1 (ToneSweepChannel.set_enabled false)
               (Audio.with_nr52
                  (ByteRegister.set
                     (Z.lor (Z.lor (Z.land value 0x80)
                               (Z.land (ByteRegister.value (Audio.nr52 a)) 0x0F))
                            0x70)) a)))).
Proof.
  intros Hon Hoff. unfold Audio.write_register.
  rewrite Hon. cbn [negb andb Z.eqb Z.leb Z.compare Pos.compare
                    Pos.compare_cont Pos.eqb].
  audio_fields. rewrite nr52_written_bit7, Hoff. reflexivity.
Qed.

(** The part of C5 that the code does: the channels are disabled and the
    wave pattern RAM is kept. *)
Lemma power_off_disables_channels value a :
  bitwise.check_bit (ByteRegister.value (Audio.nr52 a)) 7 = true ->
  bitwise.check_bit value 7 = false ->
  let a' := Audio.write_register 0xFF26 value a in
  ToneSweepChannel.enabled (Audio.channel1 a') = false /\
  ToneChannel.enabled (Audio.channel2 a') = false /\
  WaveChannel.enabled (Audio.channel3 a') = false /\
  NoiseChannel.enabled (Audio.channel4 a') = false /\
  WaveChannel.wave_pattern (Audio.channel3 a') =
    WaveChannel.wave_pattern (Audio.channel3 a) /\
  Audio.nr50 a' = Audio.nr50 a /\ Audio.nr51 a' = Audio.nr51 a.
Proof.
  intros Hon Hoff. cbv zeta. rewrite power_off_effect by assumption.
  repeat split.
Qed.

(** C5 on the code: writing 0x00 to NR52 while the APU is on disables the
    channels (NR52 reads 0x70) and keeps the wave RAM, but NR50, NR51 and
    NR12 read what they read before, not 0. *)
Theorem power_off_keeps_registers :
  let off := Audio.write_register 0xFF26 0x00 playing in
  bitwise.check_bit (ByteRegister.value (Audio.nr52 playing)) 7 = true /\
  bitwise.check_bit 0x00 7 = false /\
  Audio.read_register 0xFF26 playing = 0xF1 /\
  Audio.read_register 0xFF26 off = 0x70 /\
  Audio.read_register 0xFF24 off = 0x77 /\
  Audio.read_register 0xFF25 off = 0xFF /\
  Audio.read_register 0xFF12 off = 0xF0 /\
  ToneSweepChannel.frequency (Audio.channel1 off) = 0x700 /\
  Audio.read_register 0xFF24 off <> 0.
Proof. vm_compute. repeat split; congruence. Qed.

(** ** The APU: writes while the master enable is off *)

Lemma write_ignored_when_off address value a :
  bitwise.check_bit (ByteRegister.value (Audio.nr52 a)) 7 = false ->
  address <> 0xFF26 -> ~ (0xFF30 <= address <= 0xFF3F) ->
  Audio.write_register address value a = a.
Proof.
  intros Hoff Ha Hw. unfold Audio.write_register. rewrite Hoff.
  destruct (Z.eqb_spec address 0xFF26); [done|]. cbn [negb andb].
  destruct (Z.leb_spec 0xFF30 address), (Z.leb_spec address 0xFF3F);
    cbn [andb]; try reflexivity. lia.
Qed.

Lemma wave_write_when_off address value a :
  bitwise.check_bit (ByteRegister.value (Audio.nr52 a)) 7 = false ->
  0xFF30 <= address <= 0xFF3F ->
  Audio.write_register address value a =
    Audio.on_channel3
      (WaveChannel.with_wave_pattern
         (<[Z.to_nat (address - 0xFF30) := value]>
            (WaveChannel.wave_pattern (Audio.channel3 a)))) a.
Proof.
  intros Hoff Hw. unfold Audio.write_register. rewrite Hoff.
  destruct (Z.eqb_spec address 0xFF26); [lia|]. cbn [negb andb].
  destruct (Z.leb_spec 0xFF30 address), (Z.leb_spec address 0xFF3F);
    cbn [andb]; try lia.
  unfold Audio.on_channel3, WaveChannel.set_wave_pattern.
  assert (E : wrap8 (address - 0xFF30) = address - 0xFF30)
    by (unfold wrap8; apply Z.mod_small; lia).
  rewrite E. destruct (Z.ltb_spec (address - 0xFF30) 16); [reflexivity | lia].
Qed.

Lemma wave_read address a :
  0xFF30 <= address <= 0xFF3F ->
  Audio.read_register address a =
    default 0 (WaveChannel.wave_pattern (Audio.channel3 a)
                 !! Z.to_nat (address - 0xFF30)).
Proof.
  intros Hw. unfold Audio.read_register.
  repeat match goal with
         | |- context [(?x <=? address) && (address <=? ?y)] =>
             destruct (Z.leb_spec x address), (Z.leb_spec address y);
             cbn [andb]; try lia
         end.
  unfold WaveChannel.get_wave_pattern.
  assert (E : wrap8 (address - 0xFF30) = address - 0xFF30)
    by (unfold wrap8; apply Z.mod_small; lia).
  rewrite E. destruct (Z.ltb_spec (address - 0xFF30) 16); [reflexivity | lia].
Qed.

Lemma nr52_read a :
  let r := Audio.read_register 0xFF26 a in
  Z.testbit r 7 = Z.testbit (ByteRegister.value (Audio.nr52 a)) 7 /\
  Z.testbit r 0 = ToneSweepChannel.is_enabled (Audio.channel1 a) /\
  Z.testbit r 1 = ToneChannel.is_enabled (Audio.channel2 a) /\
  Z.testbit r 2 = WaveChannel.is_enabled (Audio.channel3 a) /\
  Z.testbit r 3 = NoiseChannel.is_enabled (Audio.channel4 a).
Proof.
  cbv zeta. unfold Audio.read_register.
  cbn [Z.eqb Z.leb Z.compare Pos.compare Pos.compare_cont Pos.eqb andb].
  destruct (ToneSweepChannel.is_enabled _), (ToneChannel.is_enabled _),
    (WaveChannel.is_enabled _), (NoiseChannel.is_enabled _);
    rewrite !Z.lor_spec, !Z.land_spec; cbn; by rewrite ?andb_true_r,
      ?andb_false_r, ?orb_false_r, ?orb_true_r.
Qed.

(** C6: while NR52 bit 7 is 0, a write to any address but NR52 and the wave
    RAM leaves the whole APU as it is; a write to NR52 still sets the master
    enable, and a byte written to the wave RAM is read back.  Reading NR52
    gives the master enable in bit 7 and the enabled flags of channels 1 to 4
    in bits 0 to 3. *)
Theorem master_off_gates_writes (a : Audio.t) (address value : Z) :
  bitwise.check_bit (ByteRegister.value (Audio.nr52 a)) 7 = false ->
  length (WaveChannel.wave_pattern (Audio.channel3 a)) = 16%nat ->
  (address <> 0xFF26 -> ~ (0xFF30 <= address <= 0xFF3F) ->
   Audio.write_register address value a = a) /\
  bitwise.check_bit
    (ByteRegister.value (Audio.nr52 (Audio.write_register 0xFF26 value a))) 7 =
    bitwise.check_bit value 7 /\
  (0xFF30 <= address <= 0xFF3F ->
   Audio.read_register address (Audio.write_register address value a) = value) /\
  (forall b,
      let r := Audio.read_register 0xFF26 b in
      Z.testbit r 7 = Z.testbit (ByteRegister.value (Audio.nr52 b)) 7 /\
      Z.testbit r 0 = ToneSweepChannel.enabled (Audio.channel1 b) /\
      Z.testbit r 1 = ToneChannel.enabled (Audio.channel2 b) /\
      Z.testbit r 2 = WaveChannel.enabled (Audio.channel3 b) /\
      Z.testbit r 3 = NoiseChannel.enabled (Audio.channel4 b)).
Proof.
  intros Hoff Hlen. split; [|split; [|split]].
  - by apply write_ignored_when_off.
  - unfold Audio.write_register. rewrite Hoff.
    cbn [negb andb Z.eqb Z.leb Z.compare Pos.compare Pos.compare_cont Pos.eqb].
    audio_fields. rewrite nr52_written_bit7.
    destruct (bitwise.check_bit value 7); reflexivity.
  - intros Hw. rewrite wave_write_when_off, wave_read by assumption.
    unfold Audio.on_channel3. audio_fields. cbn [WaveChannel.wave_pattern
      WaveChannel.with_wave_pattern].
    rewrite list_lookup_insert_eq by lia. reflexivity.
  - intros b. exact (nr52_read b).
Qed.

Lemma master_off_gates_writes_witness :
  bitwise.check_bit (ByteRegister.value (Audio.nr52 Audio.new)) 7 = false /\
  length (WaveChannel.wave_pattern (Audio.channel3 Audio.new)) = 16%nat /\
  (0xFF14 <> 0xFF26 -> ~ (0xFF30 <= 0xFF14 <= 0xFF3F) ->
   Audio.write_register 0xFF14 0x87 Audio.new = Audio.new).
Proof.
  split; [reflexivity | split; [reflexivity|]].
  exact (proj1 (master_off_gates_writes Audio.new 0xFF14 0x87 eq_refl eq_refl)).
Defined.

(** ** The APU: trigger *)











(** ** Sprites behind the background *)

(** What [draw_sprite] does at an opaque sprite pixel that is on the screen
    when the sprite is behind the background: the pixel is drawn exactly
    where the frame buffer shows white. *)
Lemma draw_sprite_pixel_behind_bg tile mult addr flip_x flip_y palette
    start_x start_y y x v :
  let fx := if negb flip_x then x else wrap32 (TILE_WIDTH_PX - x - 1) in
  let fy := if negb flip_y then y
            else wrap32 (TILE_HEIGHT_PX * mult - y - 1) in
  tile addr mult fx fy <> Color0 ->
  is_on_screen (start_x + x) (start_y + y) = true ->
  draw_sprite_pixel tile mult addr flip_x flip_y true palette
    start_x start_y y x v =
  if decide (FrameBuffer.get_pixel (buffer v) (wrap8 (start_x + x))
               (wrap8 (start_y + y)) = White)
  then set_buffer
         (FrameBuffer.set_pixel (start_x + x) (start_y + y)
            (get_color_from_palette (tile addr mult fx fy) palette) (buffer v))
         v
  else v.
Proof.
  cbv zeta. intros Hc Hs. unfold draw_sprite_pixel.
  destruct (decide (tile _ _ _ _ = Color0)) as [E|_]; [done|].
  rewrite Hs. cbn [negb andb]. unfold get_original_color_at.
  destruct (FrameBuffer.get_pixel _ _ _); reflexivity.
Qed.

(** C8 on the code: [get_original_color_at] reads the colour after the
    palette.  Under BGP = 0x1B a background pixel of index 3 is shown white,
    and the sprite behind the background is drawn over it; a background pixel
    of index 0 is shown black, and the sprite is held back there. *)
Theorem sprite_behind_bg_reads_shown_colour :
  let over3 := write_scanline (sprite_bus 0xFF) 0 sprite_video in
  let over0 := write_scanline (sprite_bus 0x00) 0 sprite_video in
  bitwise.check_bit (read (sprite_bus 0xFF) 0xFE03) 7 = true /\
  get_pixel_from_line (read (sprite_bus 0xFF) 0x8000)
    (read (sprite_bus 0xFF) 0x8001) 0 = Color3 /\
  FrameBuffer.get_pixel (buffer over3) 0 0 = White /\
  FrameBuffer.get_pixel
    (buffer (draw_sprite (sprite_bus 0xFF) sprite_tile 0 over3)) 0 0 =
    LightGray /\
  get_pixel_from_line (read (sprite_bus 0x00) 0x8000)
    (read (sprite_bus 0x00) 0x8001) 0 = Color0 /\
  FrameBuffer.get_pixel (buffer over0) 0 0 = Black /\
  FrameBuffer.get_pixel
    (buffer (draw_sprite (sprite_bus 0x00) sprite_tile 0 over0)) 0 0 = Black.
Proof. vm_compute. repeat split. Qed.

(** ** The orchestrator *)

(** C3: when the CPU step returns [n] cycles, [Gameboy::tick] advances the
    PPU by [n], then the APU by [n], then the timer by [n]: the machine after
    the tick is the timer's tick of the APU's tick of the PPU's tick of the
    machine the CPU left, and [elapsed_cycles] has grown by [n] in the 32
    bits of the counter: by [n] modulo 2^32, which is [n] itself while the
    counter does not wrap. *)
Theorem tick_feeds_components {Rest : Type}
    (debugger_cycle : Gameboy Rest -> Gameboy Rest)
    (cpu_tick : Gameboy Rest -> Z * Gameboy Rest)
    (timer_tick : Z -> Gameboy Rest -> Gameboy Rest)
    (mmu_read : Gameboy Rest -> Z -> Z)
    (Tile_get_pixel : (Z -> Z) -> Z -> Z -> Z -> Z -> GBColor)
    (gb gb1 : Gameboy Rest) (n : Z) :
  (forall g, elapsed_cycles (debugger_cycle g) = elapsed_cycles g) ->
  (forall g, elapsed_cycles (snd (cpu_tick g)) = elapsed_cycles g) ->
  (forall c g, elapsed_cycles (timer_tick c g) = elapsed_cycles g) ->
  0 <= elapsed_cycles gb < 4294967296 ->
  cpu_tick (debugger_cycle gb) = (n, gb1) ->
  0 <= n < 4294967296 ->
  let tick :=
    Gameboy_tick debugger_cycle cpu_tick timer_tick mmu_read Tile_get_pixel in
  let counted :=
    with_elapsed_cycles (wrap32 (elapsed_cycles gb1 + n)) gb1 in
  let after_video := video_tick mmu_read Tile_get_pixel n counted in
  let after_audio := audio_tick n after_video in
  tick gb = timer_tick n after_audio /\
  mkPPU (gb_video after_video) (cpu_interrupt_flag after_video)
        (host_frames after_video) =
    Video_tick (mmu_read counted) (Tile_get_pixel (mmu_read counted)) n
      (mkPPU (gb_video gb1) (cpu_interrupt_flag gb1) (host_frames gb1)) /\
  gb_audio after_audio = Audio.tick n (gb_audio gb1) /\
  gb_video after_audio = gb_video after_video /\
  wrap32 (elapsed_cycles (tick gb) - elapsed_cycles gb) = n /\
  (elapsed_cycles gb + n < 4294967296 ->
   elapsed_cycles (tick gb) = elapsed_cycles gb + n).
Proof.
  intros Hd Hcpu Ht He Hstep Hn. cbv zeta.
  assert (Hw : wrap32 n = n) by (unfold wrap32; apply Z.mod_small; lia).
  assert (Htick :
    Gameboy_tick debugger_cycle cpu_tick timer_tick mmu_read Tile_get_pixel gb =
    timer_tick n
      (audio_tick n
         (video_tick mmu_read Tile_get_pixel n
            (with_elapsed_cycles (wrap32 (elapsed_cycles gb1 + n)) gb1)))).
  { unfold Gameboy_tick. rewrite Hstep, Hw. reflexivity. }
  assert (He1 : elapsed_cycles gb1 = elapsed_cycles gb).
  { specialize (Hcpu (debugger_cycle gb)). rewrite Hstep in Hcpu.
    cbn in Hcpu. by rewrite Hcpu, Hd. }
  split; [exact Htick|]. split.
  { unfold video_tick. cbn [gb_video cpu_interrupt_flag host_frames].
    by destruct (Video_tick _ _ _ _). }
  split; [reflexivity|]. split; [reflexivity|].
  rewrite Htick, Ht. cbn [elapsed_cycles audio_tick video_tick
    with_elapsed_cycles]. rewrite He1. unfold wrap32.
  split; [|intros Hsmall; apply Z.mod_small; lia].
  Z.to_euclidean_division_equations; lia.
Qed.

Lemma tick_feeds_components_witness :
  let tick :=
    Gameboy_tick idle_debugger_cycle idle_cpu_tick idle_timer_tick
      idle_mmu_read idle_tile in
  idle_cpu_tick (idle_debugger_cycle idle_gameboy) = (4, idle_gameboy) /\
  wrap32 (elapsed_cycles (tick idle_gameboy) - elapsed_cycles idle_gameboy) = 4.
Proof.
  assert (He : 0 <= elapsed_cycles idle_gameboy < 4294967296)
    by (cbn; lia).
  assert (Hn : 0 <= 4 < 4294967296) by lia.
  split; [reflexivity|].
  exact (proj1 (proj2 (proj2 (proj2 (proj2
    (tick_feeds_components idle_debugger_cycle idle_cpu_tick idle_timer_tick
       idle_mmu_read idle_tile idle_gameboy idle_gameboy 4
       (fun g => eq_refl) (fun g => eq_refl) (fun c g => eq_refl)
       He eq_refl Hn)))))).
Defined.

(** C3 as stated fails where the counter wraps: [elapsed_cycles] is a 32-bit
    [uint], and a CPU step of 24 T-states taken at 4294967290 leaves it at
    18, not 24 higher. *)
Lemma elapsed_cycles_wraps :
  let tick :=
    Gameboy_tick idle_debugger_cycle long_cpu_tick idle_timer_tick
      idle_mmu_read idle_tile in
  long_cpu_tick (idle_debugger_cycle late_gameboy) = (24, late_gameboy) /\
  elapsed_cycles late_gameboy = 4294967290 /\
  elapsed_cycles (tick late_gameboy) = 18 /\
  elapsed_cycles (tick late_gameboy) <> elapsed_cycles late_gameboy + 24.
Proof.
  cbv zeta.
  assert (E : elapsed_cycles
                (Gameboy_tick idle_debugger_cycle long_cpu_tick
                   idle_timer_tick idle_mmu_read idle_tile late_gameboy) = 18)
    by (vm_compute; reflexivity).
  split; [reflexivity|]. split; [reflexivity|]. split; [exact E|].
  rewrite E. cbn [elapsed_cycles late_gameboy]. lia.
Qed.

(** * Further properties *)

(** ** The PPU: STAT and the interrupt flag *)

Lemma testbit_small a n i :
  0 <= a < 2 ^ n -> 0 <= n <= i -> Z.testbit a i = false.
Proof.
  intros Ha Hi. destruct (Z.eq_dec a 0) as [->|Hne]; [apply Z.bits_0|].
  apply Z.bits_above_log2; [lia|].
  assert (Z.log2 a < n) by (apply Z.log2_lt_pow2; lia). lia.
Qed.

Lemma land3_mode_bits st b1 b0 :
  Z.land (bitwise.set_bit_to (bitwise.set_bit_to st 1 b1) 0 b0) 3 =
  2 * Z.b2z b1 + Z.b2z b0.
Proof.
  apply Z.bits_inj'. intros i Hi.
  rewrite Z.land_spec.
  assert (Hc : i = 0 \/ i = 1 \/ 2 <= i) by lia.
  destruct Hc as [->|[->|Hge]].
  - destruct b1, b0; unfold bitwise.set_bit_to;
      rewrite ?Z.setbit_eq, ?Z.clearbit_eq by lia; reflexivity.
  - destruct b1, b0; unfold bitwise.set_bit_to;
      rewrite ?Z.setbit_neq, ?Z.clearbit_neq, ?Z.setbit_eq, ?Z.clearbit_eq
        by lia; reflexivity.
  - replace (Z.testbit 3 i) with false.
    + rewrite andb_false_r. symmetry.
      apply (testbit_small _ 2); [destruct b1, b0; cbn; lia | lia].
    + symmetry. change 3 with (Z.ones 2). apply Z.ones_spec_high. lia.
Qed.

Ltac mode_fields :=
  cbn [mv_mode mv_line mv_counter mv_status mv_lyc mv_iflag] in *.

Lemma mode_step_stat c p :
  let p' := mode_step c p in
  (mv_mode p' <> mv_mode p ->
   Z.land (mv_status p') 3 = mode_number (mv_mode p')) /\
  (mv_mode p' = mv_mode p ->
   mv_status p' = mv_status p /\ mv_iflag p' = mv_iflag p).
Proof.
  destruct p as [m l cc st lyc fl]. cbv zeta. unfold mode_step.
  destruct m;
    repeat (match goal with
            | |- context [if ?b then _ else _] => destruct b eqn:?
            end; mode_fields);
    (split; [intros Hm; try congruence; apply land3_mode_bits
            | intros Hm; try discriminate; split; reflexivity]).
Qed.

Section StatFacts.

Variable mmu_read : Z -> Z.
Variable tile_get_pixel : Z -> Z -> Z -> Z -> GBColor.

Local Abbreviation tick := (Video_tick mmu_read tile_get_pixel).

(** X1: a tick that changes the mode leaves the number of the new mode in
  STAT bits 1 and 0 (HBlank 0, VBlank 1, OAM-scan 2, VRAM-access 3); a
  tick that keeps the mode keeps STAT and the interrupt flag.  So once
  STAT shows the mode it keeps showing it. *)
Theorem stat_shows_mode (c : Z) (s : PPU) :
(current_mode (video (tick c s)) <> current_mode (video s) ->
 stat_in_sync (tick c s)) /\
(current_mode (video (tick c s)) = current_mode (video s) ->
 lcd_status (video (tick c s)) = lcd_status (video s) /\
 interrupt_flag (tick c s) = interrupt_flag s) /\
(stat_in_sync s -> stat_in_sync (tick c s)).
Proof.
pose proof (mode_view_tick mmu_read tile_get_pixel c s) as E.
destruct (mode_step_stat c (mode_view s)) as [H1 H2].
rewrite <- E in H1, H2. unfold mode_view in H1, H2. mode_fields.
unfold stat_in_sync.
split; [exact H1|]. split; [exact H2|].
intros Hs.
destruct (decide (current_mode (video (tick c s)) = current_mode (video s)))
  as [Heq|Hne].
- destruct (H2 Heq) as [-> _]. by rewrite Heq.
- by apply H1.
Qed.

End StatFacts.

Lemma stat_shows_mode_witness :
  current_mode (video (Video_tick blank_bus blank_tile 80 PPU_new)) <>
    current_mode (video PPU_new) /\
  stat_in_sync (Video_tick blank_bus blank_tile 80 PPU_new).
Proof.
  assert (H : current_mode (video (Video_tick blank_bus blank_tile 80 PPU_new))
              <> current_mode (video PPU_new)) by (vm_compute; congruence).
  split; [exact H|].
  exact (proj1 (stat_shows_mode blank_bus blank_tile 80 PPU_new) H).
Defined.

Lemma testbit_set_bit_to a n b i :
  0 <= n ->
  Z.testbit (bitwise.set_bit_to a n b) i =
  if Z.eqb i n then b else Z.testbit a i.
Proof.
  intros Hn. unfold bitwise.set_bit_to.
  destruct (Z.eqb_spec i n) as [->|Hne].
  - destruct b; [apply Z.setbit_eq | apply Z.clearbit_eq]; lia.
  - destruct b; [apply Z.setbit_neq | apply Z.clearbit_neq]; lia.
Qed.

Lemma mode_step_iflag c p :
  let p' := mode_step c p in
  (forall i, Z.testbit (mv_iflag p) i = true ->
             Z.testbit (mv_iflag p') i = true) /\
  (forall i, i <> 0 -> i <> 1 ->
             Z.testbit (mv_iflag p') i = Z.testbit (mv_iflag p) i) /\
  (~ (mv_mode p = ACCESS_VRAM /\ mv_mode p' = HBLANK) ->
   Z.testbit (mv_iflag p') 1 = Z.testbit (mv_iflag p) 1) /\
  (mv_mode p = ACCESS_VRAM -> mv_mode p' = HBLANK ->
   Z.testbit (mv_iflag p') 1 =
     Z.testbit (mv_iflag p) 1 || bitwise.check_bit (mv_status p) 3
     || bitwise.check_bit (mv_status p) 6 && (mv_lyc p =? mv_line p) /\
   Z.testbit (mv_status p') 2 = (mv_lyc p =? mv_line p)).
Proof.
  destruct p as [m l cc st lyc fl]. cbv zeta. unfold mode_step.
  destruct m;
    repeat (match goal with
            | |- context [if ?b then _ else _] => destruct b eqn:?
            end; mode_fields);
    repeat split; intros; try congruence; try tauto;
    rewrite ?testbit_set_bit_to by lia;
    repeat match goal with
           | |- context [Z.eqb ?a ?b] =>
               destruct (Z.eqb_spec a b); try lia
           end;
    try reflexivity; try congruence;
    try (by destruct (Z.testbit fl 1)).
Qed.

Section InterruptFacts.

Variable mmu_read : Z -> Z.
Variable tile_get_pixel : Z -> Z -> Z -> Z -> GBColor.

Local Abbreviation tick := (Video_tick mmu_read tile_get_pixel).

(** X2: [Video::tick] never clears a bit of the CPU's interrupt flag, and it
  touches no bit but 0 (VBlank) and 1 (LCD STAT). *)
Theorem tick_only_raises_interrupts (c : Z) (s : PPU) (i : Z) :
(Z.testbit (interrupt_flag s) i = true ->
 Z.testbit (interrupt_flag (tick c s)) i = true) /\
(i <> 0 -> i <> 1 ->
 Z.testbit (interrupt_flag (tick c s)) i = Z.testbit (interrupt_flag s) i).
Proof.
pose proof (mode_view_tick mmu_read tile_get_pixel c s) as E.
destruct (mode_step_iflag c (mode_view s)) as (H1 & H2 & _).
rewrite <- E in H1, H2. unfold mode_view in H1, H2. mode_fields.
split; [apply H1 | apply H2].
Qed.

(** X3: the STAT interrupt (bit 1 of the interrupt flag) is requested in
  one place only, the tick that goes from VRAM-access to HBlank: there it
  is raised when STAT bit 3 is set, or STAT bit 6 is set and LYC equals LY,
  and STAT bit 2 becomes the comparison of LYC with LY.  No other tick
  changes bit 1, whatever STAT bits 4 and 5 hold. *)
Theorem stat_interrupt_at_hblank_entry (c : Z) (s : PPU) :
(current_mode (video s) = ACCESS_VRAM ->
 current_mode (video (tick c s)) = HBLANK ->
 Z.testbit (interrupt_flag (tick c s)) 1 =
   Z.testbit (interrupt_flag s) 1
   || bitwise.check_bit (lcd_status (video s)) 3
   || bitwise.check_bit (lcd_status (video s)) 6
      && (ly_compare (video s) =? line (video s)) /\
 Z.testbit (lcd_status (video (tick c s))) 2 =
   (ly_compare (video s) =? line (video s))) /\
(~ (current_mode (video s) = ACCESS_VRAM /\
    current_mode (video (tick c s)) = HBLANK) ->
 Z.testbit (interrupt_flag (tick c s)) 1 = Z.testbit (interrupt_flag s) 1).
Proof.
pose proof (mode_view_tick mmu_read tile_get_pixel c s) as E.
destruct (mode_step_iflag c (mode_view s)) as (_ & _ & H3 & H4).
rewrite <- E in H3, H4. unfold mode_view in H3, H4. mode_fields.
split; [exact H4 | exact H3].
Qed.

End InterruptFacts.

Lemma tick_only_raises_interrupts_witness :
  Z.testbit (interrupt_flag pending_ppu) 2 = true /\
  Z.testbit (interrupt_flag (Video_tick blank_bus blank_tile 80 pending_ppu)) 2 =
    true.
Proof.
  split; [reflexivity|].
  exact (proj1 (tick_only_raises_interrupts blank_bus blank_tile 80
                  pending_ppu 2) eq_refl).
Defined.

Lemma stat_interrupt_at_hblank_entry_witness :
  current_mode (video vram_ppu) = ACCESS_VRAM /\
  current_mode (video (Video_tick blank_bus blank_tile 172 vram_ppu)) = HBLANK /\
  Z.testbit (interrupt_flag (Video_tick blank_bus blank_tile 172 vram_ppu)) 1 =
    Z.testbit (interrupt_flag vram_ppu) 1
    || bitwise.check_bit (lcd_status (video vram_ppu)) 3
    || bitwise.check_bit (lcd_status (video vram_ppu)) 6
       && (ly_compare (video vram_ppu) =? line (video vram_ppu)).
Proof.
  split; [reflexivity | split; [reflexivity|]].
  exact (proj1 (proj1 (stat_interrupt_at_hblank_entry blank_bus blank_tile 172
                         vram_ppu) eq_refl eq_refl)).
Defined.

(** ** The PPU: frames and registers *)


Section FrameFacts.

Variable mmu_read : Z -> Z.
Variable tile_get_pixel : Z -> Z -> Z -> Z -> GBColor.

Local Abbreviation tick := (Video_tick mmu_read tile_get_pixel).
Local Abbreviation run := (Video_run mmu_read tile_get_pixel).




End FrameFacts.


Section RegisterFacts.

Variable mmu_read : Z -> Z.
Variable tile_get_pixel : Z -> Z -> Z -> Z -> GBColor.

Local Abbreviation tick := (Video_tick mmu_read tile_get_pixel).
Local Abbreviation run := (Video_run mmu_read tile_get_pixel).

Lemma tick_program_registers c s :
program_registers (video (tick c s)) = program_registers (video s).
Proof.
unfold Video_tick.
pose proof (write_scanline_paints mmu_read) as Hws.
pose proof (write_sprites_paints mmu_read tile_get_pixel) as Hsp.
revert Hws Hsp.
generalize (write_scanline mmu_read) as ws.
generalize (write_sprites mmu_read tile_get_pixel) as sp.
intros sp ws Hws Hsp. destruct s as [v fl fr].
destruct v as [cb st sy sx l lyc wy wx bgp p0 p1 d1 d2 d3 buf m cc].
unfold ByteRegister.value, ByteRegister.increment.
cbn [video on_video interrupt_flag vblank_frames current_mode
     set_cycle_counter cycle_counter line lcd_status ly_compare].
destruct m; cbn [current_mode cycle_counter]; case_match; try reflexivity.
- destruct (bitwise.check_bit st 3), (bitwise.check_bit st 6), (lyc =? l);
    reflexivity.
- cbn. match goal with |- context [ws ?a ?v] =>
    destruct (Hws a v) as [b Hb] end.
  rewrite Hb. cbn. case_match; cbn; rewrite ?Hb; reflexivity.
- cbn. case_match; [|reflexivity]. cbn.
  match goal with |- context [sp ?v] => destruct (Hsp v) as [b ->] end.
  reflexivity.
Qed.

(** X5: no run of the PPU changes a register the program owns: LCDC, SCY, SCX,
  LYC, WY, WX, the three palettes and the debug switches stay as they
  were, whatever the tick sizes and whatever memory holds. *)
Theorem tick_keeps_program_registers (cycles : list Z) (s : PPU) :
program_registers (video (run cycles s)) = program_registers (video s).
Proof.
revert s. induction cycles as [|c cycles IH]; intros s; [reflexivity|].
change (run (c :: cycles) s) with (run cycles (tick c s)).
by rewrite IH, tick_program_registers.
Qed.

End RegisterFacts.

(** ** Rendering *)

Section CacheFacts.

Variable mmu_read : Z -> Z.

Lemma read_wrap16 a : read mmu_read (wrap16 a) = read mmu_read a.
Proof. unfold read, wrap16. by rewrite Z.mod_mod. Qed.

Lemma draw_tile_pixel_uncached z sa ma pal tx ty px py x y cache b :
cache_agrees mmu_read cache ->
exists cache',
  draw_tile_pixel mmu_read z sa ma pal tx ty px py x y (cache, b) =
    (cache', FrameBuffer.set_pixel x y
               (tile_pixel_colour mmu_read z sa ma pal tx ty px py) b) /\
  cache_agrees mmu_read cache'.
Proof.
intros Hc. unfold draw_tile_pixel, tile_pixel_colour.
fold (tile_row_address mmu_read z sa ma tx ty py).
set (a := tile_row_address mmu_read z sa ma tx ty py).
destruct (cache !! a) as [d|] eqn:Ha.
- exists cache. split; [|exact Hc]. by rewrite (Hc a d Ha).
- eexists. split; [reflexivity|].
  intros k d. destruct (decide (k = a)) as [->|Hk].
  + rewrite lookup_insert_eq. by intros [= <-].
  + rewrite lookup_insert_ne by done. apply Hc.
Qed.

Lemma fold_uncached (body : gmap Z (Z * Z) * FrameBuffer.t -> Z ->
                          gmap Z (Z * Z) * FrameBuffer.t)
  (colour : Z -> Color) (y : Z) :
(forall x cache b, cache_agrees mmu_read cache ->
   exists cache', body (cache, b) x =
                    (cache', FrameBuffer.set_pixel x y (colour x) b) /\
                  cache_agrees mmu_read cache') ->
forall l cache b, cache_agrees mmu_read cache ->
  snd (fold_left body l (cache, b)) =
  fold_left (fun b x => FrameBuffer.set_pixel x y (colour x) b) l b.
Proof.
intros Hbody. induction l as [|x l IH]; intros cache b Hc; [reflexivity|].
cbn [fold_left]. destruct (Hbody x cache b Hc) as (cache' & -> & Hc').
by apply IH.
Qed.

Lemma cache_agrees_empty : cache_agrees mmu_read ∅.
Proof. intros k d. by rewrite lookup_empty. Qed.

(** X6: the per-line cache of tile rows never changes what is drawn. A
  background line is the 160 pixels of the line set from left to right,
  each to the colour its tile row has in memory; a window line is the
  same with the window's coordinates, and nothing when the line lies 144
  or more below WY. *)
Theorem tile_row_cache_is_transparent (current_line : Z) (v : Video) :
draw_bg_line mmu_read current_line v =
  paint_line (bg_pixel_colour mmu_read v current_line) current_line v /\
draw_window_line mmu_read current_line v =
  if GAMEBOY_HEIGHT <=?
     wrap32 (current_line - ByteRegister.value (window_y v))
  then v
  else paint_line (window_pixel_colour mmu_read v current_line)
                  current_line v.
Proof.
split.
- unfold draw_bg_line, paint_line. f_equal.
  apply fold_uncached; [|apply cache_agrees_empty].
  intros x cache b Hc. apply draw_tile_pixel_uncached, Hc.
- unfold draw_window_line, paint_line. case_match; [reflexivity|]. f_equal.
  apply fold_uncached; [|apply cache_agrees_empty].
  intros x cache b Hc. apply draw_tile_pixel_uncached, Hc.
Qed.

End CacheFacts.

Section TileAddressFacts.

Variable mmu_read : Z -> Z.

Lemma read_byte a : 0 <= read mmu_read a < 256.
Proof. unfold read, wrap8. apply Z.mod_pos_bound. lia. Qed.

(** X7: where a tile's pixel row is read from. With tile data at 0x8000 the
  row of tile [n] is at [0x8000 + 16 n + 2 y]; with tile data at 0x8800 the
  tile number is signed, so tiles 128 to 255 are read from the same place
  as before and tiles 0 to 127 from [0x9000 + 16 n + 2 y]. Either way both
  bytes of the row lie in the 4 KiB of the tile set. *)
Theorem tile_row_address_layout
  (tile_map_address tile_x tile_y tile_pixel_y : Z) :
0 <= tile_pixel_y < TILE_HEIGHT_PX ->
let tile_id :=
  read mmu_read
    (wrap16 (tile_map_address + wrap32 (tile_y * TILES_PER_LINE + tile_x))) in
let unsigned_row :=
  tile_row_address mmu_read true TILE_SET_ZERO_ADDRESS tile_map_address
                   tile_x tile_y tile_pixel_y in
let signed_row :=
  tile_row_address mmu_read false TILE_SET_ONE_ADDRESS tile_map_address
                   tile_x tile_y tile_pixel_y in
unsigned_row = 0x8000 + 16 * tile_id + 2 * tile_pixel_y /\
signed_row = (if 128 <=? tile_id then 0x8000 else 0x9000)
             + 16 * tile_id + 2 * tile_pixel_y /\
0x8000 <= unsigned_row /\ unsigned_row + 1 < 0x9000 /\
0x8800 <= signed_row /\ signed_row + 1 < 0x9800.
Proof.
intros Hy. unfold tile_row_address.
cbv zeta.
generalize (read_byte
  (wrap16 (tile_map_address + wrap32 (tile_y * TILES_PER_LINE + tile_x)))).
generalize (read mmu_read
  (wrap16 (tile_map_address + wrap32 (tile_y * TILES_PER_LINE + tile_x)))).
intros t Ht. unfold to_s8, TILE_BYTES, TILE_SET_ZERO_ADDRESS,
  TILE_SET_ONE_ADDRESS, TILE_HEIGHT_PX, wrap16, wrap32 in *.
destruct (Z.leb_spec 128 t); repeat split; euclid.
Qed.

End TileAddressFacts.

Lemma tile_row_address_layout_witness :
  0 <= 5 < TILE_HEIGHT_PX /\
  tile_row_address blank_bus false TILE_SET_ONE_ADDRESS TILE_MAP_ZERO_ADDRESS
                   3 2 5 = 0x9000 + 16 * 0 + 2 * 5.
Proof.
  assert (H : 0 <= 5 < TILE_HEIGHT_PX) by (unfold TILE_HEIGHT_PX; lia).
  split; [exact H|].
  exact (proj1 (proj2 (tile_row_address_layout blank_bus TILE_MAP_ZERO_ADDRESS
                         3 2 5 H))).
Defined.

(** ** Sprites *)

Section SpriteFacts.

Variable mmu_read : Z -> Z.
Variable tile_get_pixel : Z -> Z -> Z -> Z -> GBColor.

Lemma fold_left_id {A B} (f : A -> B -> A) (l : list B) (a : A) :
(forall a' x, f a' x = a') -> fold_left f l a = a.
Proof.
intros Hf. induction l as [|x l IH]; [reflexivity|].
cbn [fold_left]. by rewrite Hf.
Qed.

(** X8: a sprite is skipped, leaving the whole [Video] as it was, when its
  OAM y is 0 or at least 160, when its OAM x is 0 or at least 168, and
  when every pixel of its tile is colour 0. *)
Theorem hidden_sprite_draws_nothing (sprite_n : Z) (v : Video) :
oam_y mmu_read sprite_n = 0 \/ 160 <= oam_y mmu_read sprite_n \/
oam_x mmu_read sprite_n = 0 \/ 168 <= oam_x mmu_read sprite_n \/
(forall x y,
   tile_get_pixel
     (wrap16 (TILE_SET_ZERO_ADDRESS
              + wrap32 (oam_pattern mmu_read sprite_n * TILE_BYTES)))
     (if sprite_size v then 2 else 1) x y = Color0) ->
draw_sprite mmu_read tile_get_pixel sprite_n v = v.
Proof.
unfold draw_sprite, oam_y, oam_x, oam_pattern, oam_start. intros H.
destruct (Z.eqb_spec (read mmu_read
            (wrap16 (65024 + wrap16 (sprite_n * SPRITE_BYTES)))) 0) as [|H0];
  [reflexivity|].
destruct (Z.leb_spec 160 (read mmu_read
            (wrap16 (65024 + wrap16 (sprite_n * SPRITE_BYTES))))) as [|H1];
  [reflexivity|].
destruct (Z.eqb_spec (read mmu_read
            (wrap16 (65024 + wrap16 (sprite_n * SPRITE_BYTES)) + 1)) 0)
  as [|H2]; [reflexivity|].
destruct (Z.leb_spec 168 (read mmu_read
            (wrap16 (65024 + wrap16 (sprite_n * SPRITE_BYTES)) + 1)))
  as [|H3]; [reflexivity|].
cbn [orb].
destruct H as [H|[H|[H|[H|H]]]]; try lia.
apply fold_left_id. intros v' y. apply fold_left_id. intros v'' x.
unfold draw_sprite_pixel. rewrite H. by rewrite decide_True.
Qed.

End SpriteFacts.

(** X9: for a sprite that is not skipped, the truncation of the screen
    coordinates to [u8] loses nothing: a pixel of the sprite passes
    [is_on_screen] exactly when its column is in 0..159 and its row in
    0..143, the pixels left of or above the screen included. *)
Theorem sprite_pixel_on_screen (sprite_x sprite_y x y : Z) :
  0 < sprite_x < 168 -> 0 < sprite_y < 160 ->
  0 <= x < TILE_WIDTH_PX -> 0 <= y < 2 * TILE_HEIGHT_PX ->
  is_on_screen (sprite_x - 8 + x) (sprite_y - 16 + y) = true <->
  0 <= sprite_x - 8 + x < GAMEBOY_WIDTH /\
  0 <= sprite_y - 16 + y < GAMEBOY_HEIGHT.
Proof.
  unfold is_on_screen, is_on_screen_x, is_on_screen_y, wrap8, TILE_WIDTH_PX,
    TILE_HEIGHT_PX, GAMEBOY_WIDTH, GAMEBOY_HEIGHT.
  intros Hx Hy Hpx Hpy. rewrite andb_true_iff, !Z.ltb_lt. euclid.
Qed.

Lemma hidden_sprite_draws_nothing_witness :
  draw_sprite blank_bus blank_tile 7 Video_new = Video_new.
Proof.
  apply (hidden_sprite_draws_nothing blank_bus blank_tile 7 Video_new).
  left. reflexivity.
Defined.

Lemma sprite_pixel_on_screen_witness :
  is_on_screen (3 - 8 + 2) (20 - 16 + 0) = true <->
  0 <= 3 - 8 + 2 < GAMEBOY_WIDTH /\ 0 <= 20 - 16 + 0 < GAMEBOY_HEIGHT.
Proof.
  apply (sprite_pixel_on_screen 3 20 2 0);
    unfold TILE_WIDTH_PX, TILE_HEIGHT_PX; lia.
Defined.

(** ** The APU: fields within their ranges *)

Lemma below_pow2 x n :
  0 <= n -> 0 <= x -> (forall i, n <= i -> Z.testbit x i = false) -> x < 2 ^ n.
Proof.
  intros Hn Hx H. destruct (Z.eq_dec x 0) as [->|H0].
  - by apply Z.pow_pos_nonneg.
  - apply Z.log2_lt_pow2; [lia|].
    destruct (Z_lt_le_dec (Z.log2 x) n) as [|Hl]; [done|].
    specialize (H (Z.log2 x) Hl). rewrite Z.bit_log2 in H by lia. done.
Qed.

Lemma lor_fits a b n :
  0 <= n -> 0 <= a < 2 ^ n -> 0 <= b < 2 ^ n -> 0 <= Z.lor a b < 2 ^ n.
Proof.
  intros Hn Ha Hb. split; [apply Z.lor_nonneg; lia|].
  apply below_pow2; [done | apply Z.lor_nonneg; lia|].
  intros i Hi. rewrite Z.lor_spec.
  by rewrite (testbit_small a n i), (testbit_small b n i) by lia.
Qed.

Lemma land_fits a m n :
  0 <= n -> 0 <= m < 2 ^ n -> 0 <= Z.land a m < 2 ^ n.
Proof.
  intros Hn Hm. split; [apply Z.land_nonneg; lia|].
  apply below_pow2; [done | apply Z.land_nonneg; lia|].
  intros i Hi. rewrite Z.land_spec.
  by rewrite (testbit_small m n i), andb_false_r by lia.
Qed.

Lemma set_bit_to_fits x i b n :
  0 <= i < n -> 0 <= x < 2 ^ n -> 0 <= bitwise.set_bit_to x i b < 2 ^ n.
Proof.
  intros Hi Hx. unfold bitwise.set_bit_to. destruct b.
  - rewrite Z.setbit_spec'. apply lor_fits; [lia | done|].
    split; [apply Z.pow_nonneg; lia|]. apply Z.pow_lt_mono_r; lia.
  - rewrite Z.clearbit_spec'. split; [apply Z.ldiff_nonneg; lia|].
    apply below_pow2; [lia | apply Z.ldiff_nonneg; lia|].
    intros j Hj. rewrite Z.ldiff_spec.
    by rewrite (testbit_small x n j) by lia.
Qed.

Lemma shiftr_fits x k n :
  0 <= k -> 0 <= x < 2 ^ (n + k) -> 0 <= n -> 0 <= Z.shiftr x k < 2 ^ n.
Proof.
  intros Hk Hx Hn. rewrite Z.shiftr_div_pow2 by done.
  rewrite Z.pow_add_r in Hx by done.
  assert (0 < 2 ^ k) by (apply Z.pow_pos_nonneg; lia).
  split; [apply Z.div_pos; lia|]. apply Z.div_lt_upper_bound; lia.
Qed.

(** The frequency after a write to the low or to the high register. *)
Lemma frequency_lo_fits f value :
  0 <= value < 256 -> 0 <= Z.lor (Z.land f 0x700) value < 2048.
Proof.
  intros Hv. change 2048 with (2 ^ 11). apply lor_fits; [lia | |].
  - apply land_fits; cbn; lia.
  - cbn; lia.
Qed.

Lemma frequency_hi_fits f value :
  0 <= Z.lor (Z.land f 0xFF) (Z.shiftl (Z.land value 0x07) 8) < 2048.
Proof.
  change 2048 with (2 ^ 11). apply lor_fits; [lia | |].
  - apply land_fits; cbn; lia.
  - rewrite Z.shiftl_mul_pow2 by lia. pose proof (land_7_range value).
    cbn. cbn in H. lia.
Qed.

(** Replaces every masked value by a number within the mask's range. *)
Ltac mask_facts :=
  repeat match goal with
         | |- context [Z.lor (Z.land ?f 0x700) ?v] =>
             let H := fresh in
             pose proof (frequency_lo_fits f v ltac:(lia)) as H;
             generalize dependent (Z.lor (Z.land f 0x700) v); intros
         | |- context [Z.lor (Z.land ?f 0xFF) (Z.shiftl (Z.land ?v 0x07) 8)] =>
             let H := fresh in
             pose proof (frequency_hi_fits f v) as H;
             generalize dependent
               (Z.lor (Z.land f 0xFF) (Z.shiftl (Z.land v 0x07) 8)); intros
         | |- context [Z.land ?x 0x07] =>
             let H := fresh in
             pose proof (land_fits x 0x07 3 ltac:(lia) ltac:(cbn; lia)) as H;
             change (2 ^ 3) with 8 in H;
             generalize dependent (Z.land x 0x07); intros
         | |- context [Z.land ?x 0x0F] =>
             let H := fresh in
             pose proof (land_fits x 0x0F 4 ltac:(lia) ltac:(cbn; lia)) as H;
             change (2 ^ 4) with 16 in H;
             generalize dependent (Z.land x 0x0F); intros
         | |- context [Z.land ?x 0x03] =>
             let H := fresh in
             pose proof (land_fits x 0x03 2 ltac:(lia) ltac:(cbn; lia)) as H;
             change (2 ^ 2) with 4 in H;
             generalize dependent (Z.land x 0x03); intros
         | |- context [Z.land ?x 0x3F] =>
             let H := fresh in
             pose proof (land_fits x 0x3F 6 ltac:(lia) ltac:(cbn; lia)) as H;
             change (2 ^ 6) with 64 in H;
             generalize dependent (Z.land x 0x3F); intros
         end.

(** Splits on every test of the goal. *)
Ltac split_tests :=
  repeat match goal with
         | |- context [if negb ?b then _ else _] => destruct b; cbn [negb]
         | |- context [if Z.ltb ?a ?b then _ else _] =>
             destruct (Z.ltb_spec a b)
         | |- context [if Z.leb ?a ?b then _ else _] =>
             destruct (Z.leb_spec a b)
         | |- context [if Z.eqb ?a ?b then _ else _] =>
             destruct (Z.eqb_spec a b)
         | |- context [if ?b then _ else _] => destruct b
         end.

Lemma ToneSweepChannel_tick_in_range cycles c :
  0 <= cycles -> ToneSweepChannel_in_range c ->
  ToneSweepChannel_in_range (ToneSweepChannel.tick cycles c).
Proof.
  destruct c. unfold ToneSweepChannel_in_range, ToneSweepChannel.tick.
  cbn. intros Hc H. unfold wrap32, wrap8.
  split_tests; cbn; try lia; repeat split; euclid.
Qed.

Lemma ToneSweepChannel_write_in_range value c :
  0 <= value < 256 -> ToneSweepChannel_in_range c ->
  ToneSweepChannel_in_range (ToneSweepChannel.set_sweep_register value c) /\
  ToneSweepChannel_in_range (ToneSweepChannel.set_length_duty_register value c) /\
  ToneSweepChannel_in_range
    (ToneSweepChannel.set_volume_envelope_register value c) /\
  ToneSweepChannel_in_range
    (ToneSweepChannel.set_frequency_lo_register value c) /\
  ToneSweepChannel_in_range
    (ToneSweepChannel.set_frequency_hi_register value c) /\
  ToneSweepChannel_in_range (ToneSweepChannel.set_enabled false c).
Proof.
  destruct c. unfold ToneSweepChannel_in_range. cbn. intros Hv H.
  unfold wrap32.
  repeat split; mask_facts; split_tests; cbn in *; try lia; euclid.
Qed.

Lemma ToneChannel_tick_in_range cycles c :
  0 <= cycles -> ToneChannel_in_range c ->
  ToneChannel_in_range (ToneChannel.tick cycles c).
Proof.
  destruct c. unfold ToneChannel_in_range, ToneChannel.tick.
  cbn. intros Hc H. unfold wrap32, wrap8.
  split_tests; cbn; try lia; repeat split; euclid.
Qed.

Lemma ToneChannel_write_in_range value c :
  0 <= value < 256 -> ToneChannel_in_range c ->
  ToneChannel_in_range (ToneChannel.set_length_duty_register value c) /\
  ToneChannel_in_range (ToneChannel.set_volume_envelope_register value c) /\
  ToneChannel_in_range (ToneChannel.set_frequency_lo_register value c) /\
  ToneChannel_in_range (ToneChannel.set_frequency_hi_register value c) /\
  ToneChannel_in_range (ToneChannel.set_enabled false c).
Proof.
  destruct c. unfold ToneChannel_in_range. cbn. intros Hv H.
  unfold wrap32.
  repeat split; mask_facts; split_tests; cbn in *; try lia; euclid.
Qed.

Lemma WaveChannel_tick_in_range cycles c :
  0 <= cycles -> WaveChannel_in_range c ->
  WaveChannel_in_range (WaveChannel.tick cycles c).
Proof.
  destruct c. unfold WaveChannel_in_range, WaveChannel.tick.
  cbn. intros Hc H. unfold wrap32, wrap8.
  split_tests; cbn; try tauto; repeat split; try tauto; euclid.
Qed.

Lemma WaveChannel_write_in_range value c :
  0 <= value < 256 -> WaveChannel_in_range c ->
  WaveChannel_in_range (WaveChannel.set_enable_register value c) /\
  WaveChannel_in_range (WaveChannel.set_length_register value c) /\
  WaveChannel_in_range (WaveChannel.set_output_level_register value c) /\
  WaveChannel_in_range (WaveChannel.set_frequency_lo_register value c) /\
  WaveChannel_in_range (WaveChannel.set_frequency_hi_register value c) /\
  WaveChannel_in_range (WaveChannel.set_enabled false c) /\
  forall index, WaveChannel_in_range (WaveChannel.set_wave_pattern index value c).
Proof.
  destruct c. unfold WaveChannel_in_range. cbn. intros Hv H.
  unfold wrap32.
  repeat apply conj; try tauto;
    try (mask_facts; split_tests; cbn in *; try tauto; euclid).
  intros index. unfold WaveChannel.set_wave_pattern. cbn.
  case_match; cbn; [|tauto]. rewrite length_insert.
  repeat split; try tauto. apply Forall_insert; tauto.
Qed.

Lemma new_timer_period_range c :
  8 <= NoiseChannel.new_timer_period c <= 112 * 32768.
Proof.
  unfold NoiseChannel.new_timer_period.
  pose proof (land_fits (NoiseChannel.shift_clock_frequency c) 0x0F 4
                ltac:(lia) ltac:(cbn; lia)) as Hk.
  change (2 ^ 4) with 16 in Hk.
  generalize dependent (Z.land (NoiseChannel.shift_clock_frequency c) 0x0F).
  intros k Hk.
  assert (Hd : 8 <= default 0 (divisors !! Z.to_nat
                  (Z.land (NoiseChannel.dividing_ratio c) 0x07)) <= 112).
  { pose proof (land_7_range (NoiseChannel.dividing_ratio c)) as Hr.
    generalize dependent (Z.land (NoiseChannel.dividing_ratio c) 0x07).
    intros r Hr.
    assert (Hcase : r = 0 \/ r = 1 \/ r = 2 \/ r = 3 \/ r = 4 \/ r = 5 \/
                    r = 6 \/ r = 7) by lia.
    destruct Hcase as [->|[->|[->|[->|[->|[->|[->| ->]]]]]]];
      vm_compute; split; discriminate. }
  generalize dependent (default 0 (divisors !! Z.to_nat
                          (Z.land (NoiseChannel.dividing_ratio c) 0x07))).
  intros d Hd. rewrite Z.shiftl_mul_pow2 by lia.
  assert (Hp : 1 <= 2 ^ k <= 32768).
  { split.
    - change 1 with (2 ^ 0). apply Z.pow_le_mono_r; lia.
    - change 32768 with (2 ^ 15). apply Z.pow_le_mono_r; lia. }
  generalize dependent (2 ^ k). intros p Hp.
  assert (Hdp : 8 <= d * p <= 112 * 32768) by nia.
  unfold wrap32. rewrite Z.mod_small by lia.
  destruct (Z.eqb_spec (d * p) 0); lia.
Qed.

Lemma NoiseChannel_tick_in_range cycles c :
  0 <= cycles -> NoiseChannel_in_range c ->
  NoiseChannel_in_range (NoiseChannel.tick cycles c).
Proof.
  intros Hc H. unfold NoiseChannel.tick.
  destruct (negb (NoiseChannel.enabled c)); [exact H|].
  destruct (Z.ltb_spec cycles (NoiseChannel.timer c)).
  - destruct c. unfold NoiseChannel_in_range in *. cbn in *. lia.
  - pose proof (new_timer_period_range c) as Hp.
    generalize dependent (NoiseChannel.new_timer_period c). intros p Hp.
    destruct c. unfold NoiseChannel_in_range in *. cbn in *.
    set (x := negb _). clearbody x.
    assert (H14 : 0 <= bitwise.set_bit_to (Z.shiftr lfsr 1) 14 x < 2 ^ 15).
    { apply set_bit_to_fits; [lia|].
      destruct (shiftr_fits lfsr 1 14); [lia | cbn; lia | lia|].
      split; [lia|]. change (2 ^ 15) with 32768. cbn in *. lia. }
    assert (H6 : 0 <= bitwise.set_bit_to
                        (bitwise.set_bit_to (Z.shiftr lfsr 1) 14 x) 6 x
                 < 2 ^ 15) by (apply set_bit_to_fits; [lia | exact H14]).
    change (2 ^ 15) with 32768 in *.
    destruct counter_step_width_mode; cbn; lia.
Qed.

Lemma NoiseChannel_write_in_range value c :
  0 <= value < 256 -> NoiseChannel_in_range c ->
  NoiseChannel_in_range (NoiseChannel.set_length_register value c) /\
  NoiseChannel_in_range (NoiseChannel.set_volume_envelope_register value c) /\
  NoiseChannel_in_range (NoiseChannel.set_polynomial_register value c) /\
  NoiseChannel_in_range (NoiseChannel.set_counter_register value c) /\
  NoiseChannel_in_range (NoiseChannel.set_enabled false c).
Proof.
  intros Hv H. unfold NoiseChannel.set_counter_register.
  pose proof (new_timer_period_range
                (NoiseChannel.with_lfsr 0x7FFF
                   (NoiseChannel.with_enabled true c))) as Hp.
  cbv zeta.
  generalize dependent (NoiseChannel.new_timer_period
                (NoiseChannel.with_lfsr 0x7FFF
                   (NoiseChannel.with_enabled true c))).
  intros p Hp.
  destruct c. unfold NoiseChannel_in_range in *. cbn in *.
  unfold wrap32.
  repeat split; mask_facts; split_tests; cbn in *; try lia; euclid.
Qed.

Lemma on_channel1_in_range f a :
  Audio_in_range a -> ToneSweepChannel_in_range (f (Audio.channel1 a)) ->
  Audio_in_range (Audio.on_channel1 f a).
Proof. unfold Audio_in_range. destruct a. cbn. tauto. Qed.

Lemma on_channel2_in_range f a :
  Audio_in_range a -> ToneChannel_in_range (f (Audio.channel2 a)) ->
  Audio_in_range (Audio.on_channel2 f a).
Proof. unfold Audio_in_range. destruct a. cbn. tauto. Qed.

Lemma on_channel3_in_range f a :
  Audio_in_range a -> WaveChannel_in_range (f (Audio.channel3 a)) ->
  Audio_in_range (Audio.on_channel3 f a).
Proof. unfold Audio_in_range. destruct a. cbn. tauto. Qed.

Lemma on_channel4_in_range f a :
  Audio_in_range a -> NoiseChannel_in_range (f (Audio.channel4 a)) ->
  Audio_in_range (Audio.on_channel4 f a).
Proof. unfold Audio_in_range. destruct a. cbn. tauto. Qed.

Lemma with_nr_in_range value a :
  Audio_in_range a ->
  Audio_in_range (Audio.with_nr50 (ByteRegister.set value) a) /\
  Audio_in_range (Audio.with_nr51 (ByteRegister.set value) a) /\
  Audio_in_range (Audio.with_nr52 (ByteRegister.set value) a).
Proof.
  unfold Audio_in_range, ByteRegister.set, ByteRegister.value, wrap8.
  destruct a. cbn. intros H.
  pose proof (Z.mod_pos_bound value 256 ltac:(lia)). tauto.
Qed.

Lemma write_register_in_range address value a :
  0 <= value < 256 -> Audio_in_range a ->
  Audio_in_range (Audio.write_register address value a).
Proof.
  intros Hv H.
  assert (Hc1 : ToneSweepChannel_in_range (Audio.channel1 a)) by apply H.
  assert (Hc2 : ToneChannel_in_range (Audio.channel2 a)) by apply H.
  assert (Hc3 : WaveChannel_in_range (Audio.channel3 a)) by apply H.
  assert (Hc4 : NoiseChannel_in_range (Audio.channel4 a)) by apply H.
  destruct (ToneSweepChannel_write_in_range value _ Hv Hc1)
    as (? & ? & ? & ? & ? & ?).
  destruct (ToneChannel_write_in_range value _ Hv Hc2) as (? & ? & ? & ? & ?).
  destruct (WaveChannel_write_in_range value _ Hv Hc3)
    as (? & ? & ? & ? & ? & ? & ?).
  destruct (NoiseChannel_write_in_range value _ Hv Hc4) as (? & ? & ? & ? & ?).
  unfold Audio.write_register. cbv zeta.
  repeat match goal with
         | |- context [if ?b then _ else _] => destruct b
         end; try exact H.
  all: try (apply on_channel1_in_range; [exact H | done]).
  all: try (apply on_channel2_in_range; [exact H | done]).
  all: try (apply on_channel3_in_range; [exact H | done]).
  all: try (apply on_channel4_in_range; [exact H | done]).
  all: try apply with_nr_in_range, H.
Qed.

Lemma tick_in_range cycles a :
  0 <= cycles -> Audio_in_range a -> Audio_in_range (Audio.tick cycles a).
Proof.
  intros Hc H. rewrite tick_unfold.
  apply (sample_loop_ind Audio_in_range).
  - intros b Hb. unfold Audio_in_range.
    destruct (sample_step_registers b) as (-> & -> & -> & -> & -> & -> & -> & _).
    exact Hb.
  - destruct H as (? & ? & ? & ? & ? & ? & ?). unfold tick_channels.
    unfold Audio_in_range. cbn. split_and!; try tauto.
    + by apply ToneSweepChannel_tick_in_range.
    + by apply ToneChannel_tick_in_range.
    + by apply WaveChannel_tick_in_range.
    + by apply NoiseChannel_tick_in_range.
Qed.

Lemma reachable_in_range a : reachable a -> Audio_in_range a.
Proof.
  induction 1 as [|a _ IH|a cycles _ IH Hc|a address value _ IH Ha Hv].
  - unfold Audio_in_range, ToneSweepChannel_in_range, ToneChannel_in_range,
      WaveChannel_in_range, NoiseChannel_in_range. cbn.
    repeat split; try lia. repeat constructor; lia.
  - exact IH.
  - apply tick_in_range; [lia | exact IH].
  - by apply write_register_in_range.
Qed.

Lemma duty_read_inside pattern position :
  0 <= pattern < 4 -> 0 <= position < 8 ->
  exists row level,
    duty_patterns !! Z.to_nat pattern = Some row /\
    row !! Z.to_nat position = Some level.
Proof.
  intros Hp Hq.
  assert (Hpc : pattern = 0 \/ pattern = 1 \/ pattern = 2 \/ pattern = 3)
    by lia.
  assert (Hqc : position = 0 \/ position = 1 \/ position = 2 \/ position = 3 \/
                position = 4 \/ position = 5 \/ position = 6 \/ position = 7)
    by lia.
  destruct Hpc as [->|[->|[->| ->]]];
    destruct Hqc as [->|[->|[->|[->|[->|[->|[->| ->]]]]]]];
    eexists _, _; split; reflexivity.
Qed.

Lemma divisor_read_inside ratio :
  exists divisor,
    divisors !! Z.to_nat (Z.land ratio 0x07) = Some divisor /\
    8 <= divisor <= 112.
Proof.
  pose proof (land_7_range ratio) as Hr.
  generalize dependent (Z.land ratio 0x07). intros r Hr.
  assert (Hcase : r = 0 \/ r = 1 \/ r = 2 \/ r = 3 \/ r = 4 \/ r = 5 \/
                  r = 6 \/ r = 7) by lia.
  destruct Hcase as [->|[->|[->|[->|[->|[->|[->| ->]]]]]]];
    eexists; (split; [reflexivity | lia]).
Qed.

Lemma wave_read_inside c :
  WaveChannel_in_range c ->
  exists wave_byte,
    WaveChannel.wave_pattern c !! Z.to_nat (WaveChannel.position c / 2)
      = Some wave_byte /\
    0 <= wave_byte < 256.
Proof.
  intros (_ & _ & Hp & _ & _ & _ & Hl & Hb).
  destruct (lookup_lt_is_Some_2 (WaveChannel.wave_pattern c)
              (Z.to_nat (WaveChannel.position c / 2))) as [b Hw].
  { rewrite Hl. apply Nat2Z.inj_lt. rewrite Z2Nat.id by euclid.
    change (Z.of_nat 16) with 16. euclid. }
  exists b. split; [exact Hw|].
  rewrite Forall_lookup in Hb. exact (Hb _ _ Hw).
Qed.

(** X10: in every state a program can reach, every field of the APU is
    within the range of its register bits (volumes below 16, frequencies
    below 2048, a 15-bit shift register, 16 bytes of wave RAM, timers no
    larger than the longest period), and so every table read of the
    channels lands inside its table. *)
Theorem apu_fields_stay_in_range (a : Audio.t) :
  reachable a -> Audio_in_range a /\ table_reads_inside a.
Proof.
  intros Hr. pose proof (reachable_in_range a Hr) as H.
  split; [exact H|].
  destruct H as (_ & _ & _ & H1 & H2 & H3 & H4).
  split; [|split; [|split]].
  - apply duty_read_inside; apply H1.
  - apply duty_read_inside; apply H2.
  - by apply wave_read_inside.
  - apply divisor_read_inside.
Qed.

Lemma apu_fields_stay_in_range_witness :
  reachable ringing /\ Audio_in_range ringing /\ table_reads_inside ringing.
Proof.
  assert (H : reachable ringing)
    by (unfold ringing; repeat (apply reachable_write; [|lia|lia]);
        apply reachable_new).
  split; [exact H | exact (apu_fields_stay_in_range ringing H)].
Defined.

(** ** The APU: what the channels put out *)

Ltac sixteen_cases v :=
  let H := fresh in
  assert (H : v = 0 \/ v = 1 \/ v = 2 \/ v = 3 \/ v = 4 \/ v = 5 \/ v = 6 \/
              v = 7 \/ v = 8 \/ v = 9 \/ v = 10 \/ v = 11 \/ v = 12 \/
              v = 13 \/ v = 14 \/ v = 15) by lia;
  destruct H as [->|[->|[->|[->|[->|[->|[->|[->|[->|[->|[->|[->|[->|[->|[->|
                 ->]]]]]]]]]]]]]]].

Lemma level_in_unit v :
  0 <= v < 16 ->
  in_unit (F32.div (F32.of_Z v) (F32.of_Z 15)) /\
  in_unit (F32.opp (F32.div (F32.of_Z v) (F32.of_Z 15))).
Proof. intros Hv. sixteen_cases v; split; vm_compute; reflexivity. Qed.

Lemma wave_level_in_unit n :
  0 <= n < 16 ->
  let full :=
    F32.sub (F32.div (F32.of_Z n) F32.seven_and_a_half) F32.one in
  in_unit full /\ in_unit (F32.mul full F32.half) /\
  in_unit (F32.mul full F32.quarter).
Proof.
  intros Hn. sixteen_cases n; repeat split; vm_compute; reflexivity.
Qed.

Lemma ToneSweepChannel_sample_in_unit c :
  ToneSweepChannel_in_range c -> in_unit (ToneSweepChannel.get_sample c).
Proof.
  intros (Hv & _). unfold ToneSweepChannel.get_sample.
  destruct (level_in_unit _ Hv). repeat case_match; try done.
Qed.

Lemma ToneChannel_sample_in_unit c :
  ToneChannel_in_range c -> in_unit (ToneChannel.get_sample c).
Proof.
  intros (Hv & _). unfold ToneChannel.get_sample.
  destruct (level_in_unit _ Hv). repeat case_match; try done.
Qed.

Lemma NoiseChannel_sample_in_unit c :
  NoiseChannel_in_range c -> in_unit (NoiseChannel.get_sample c).
Proof.
  intros (Hv & _). unfold NoiseChannel.get_sample.
  destruct (level_in_unit _ Hv). repeat case_match; try done.
Qed.

Lemma WaveChannel_sample_in_unit c :
  WaveChannel_in_range c -> in_unit (WaveChannel.get_sample c).
Proof.
  intros H. destruct (wave_read_inside c H) as (b & Hb & Hr).
  unfold WaveChannel.get_sample. rewrite Hb. cbn [default].
  destruct (negb (WaveChannel.enabled c)); [done|].
  assert (Hn : 0 <= (if WaveChannel.position c mod 2 =? 0
                     then wrap8 (Z.shiftr b 4) else Z.land b 0x0F) < 16).
  { case_match.
    - rewrite Z.shiftr_div_pow2 by lia. unfold wrap8.
      change (2 ^ 4) with 16. euclid.
    - apply (land_fits b 0x0F 4); cbn; lia. }
  destruct (wave_level_in_unit _ Hn) as (? & ? & ?).
  destruct H as (_ & _ & _ & Hl & _).
  assert (Hc : WaveChannel.output_level c = 0 \/
               WaveChannel.output_level c = 1 \/
               WaveChannel.output_level c = 2 \/
               WaveChannel.output_level c = 3) by lia.
  destruct Hc as [->|[->|[->| ->]]]; done.
Qed.

(** X11: in every state a program can reach, the sample of each of the
    four channels lies in [-1.0, 1.0], before any mixing or clamping. *)
Theorem channel_samples_in_unit (a : Audio.t) :
  reachable a ->
  in_unit (ToneSweepChannel.get_sample (Audio.channel1 a)) /\
  in_unit (ToneChannel.get_sample (Audio.channel2 a)) /\
  in_unit (WaveChannel.get_sample (Audio.channel3 a)) /\
  in_unit (NoiseChannel.get_sample (Audio.channel4 a)).
Proof.
  intros Hr. destruct (reachable_in_range a Hr) as (_ & _ & _ & ? & ? & ? & ?).
  split; [by apply ToneSweepChannel_sample_in_unit|].
  split; [by apply ToneChannel_sample_in_unit|].
  split; [by apply WaveChannel_sample_in_unit|].
  by apply NoiseChannel_sample_in_unit.
Qed.

Lemma channel_samples_in_unit_witness :
  reachable ringing /\
  in_unit (ToneSweepChannel.get_sample (Audio.channel1 ringing)).
Proof.
  assert (H : reachable ringing)
    by (unfold ringing; repeat (apply reachable_write; [|lia|lia]);
        apply reachable_new).
  split; [exact H | exact (proj1 (channel_samples_in_unit ringing H))].
Defined.

(** ** The APU: periods *)




(** ** The APU: the frequency registers *)

Lemma lor_shiftl_add hi lo k :
  0 <= k -> 0 <= lo < 2 ^ k -> Z.lor (Z.shiftl hi k) lo = hi * 2 ^ k + lo.
Proof.
  intros Hk Hlo.
  assert (H0 : Z.land (Z.shiftl hi k) lo = 0).
  { apply Z.bits_inj'. intros n Hn. rewrite Z.land_spec, Z.bits_0.
    destruct (Z_lt_le_dec n k).
    - by rewrite Z.shiftl_spec_low.
    - by rewrite (testbit_small lo k n), andb_false_r by lia. }
  rewrite <- Z.lxor_lor by exact H0.
  rewrite <- Z.add_nocarry_lxor by exact H0.
  by rewrite Z.shiftl_mul_pow2.
Qed.

Lemma land_0x700 f : Z.land f 0x700 = Z.shiftl (f / 256 mod 8) 8.
Proof.
  change 0x700 with (Z.shiftl 7 8). change 256 with (2 ^ 8).
  change 8 with (2 ^ 3) at 3.
  rewrite <- Z.shiftr_div_pow2, <- Z.land_ones by lia.
  apply Z.bits_inj'. intros n Hn.
  rewrite Z.land_spec, !Z.shiftl_spec by lia.
  destruct (Z_lt_le_dec n 8).
  - rewrite (Z.testbit_neg_r 7 (n - 8)) by lia.
    rewrite (Z.testbit_neg_r _ (n - 8)) by lia. apply andb_false_r.
  - rewrite Z.land_spec, Z.shiftr_spec by lia.
    by replace (n - 8 + 8) with n by lia.
Qed.

Lemma frequency_lo_value f value :
  0 <= value < 256 ->
  Z.lor (Z.land f 0x700) value = 256 * (f / 256 mod 8) + value.
Proof.
  intros Hv. rewrite land_0x700, lor_shiftl_add by (cbn; lia).
  change (2 ^ 8) with 256. lia.
Qed.

Lemma frequency_hi_value f value :
  Z.lor (Z.land f 0xFF) (Z.shiftl (Z.land value 0x07) 8) =
  256 * (value mod 8) + f mod 256.
Proof.
  rewrite Z.lor_comm. change 0xFF with (Z.ones 8). change 0x07 with (Z.ones 3).
  rewrite !Z.land_ones by lia.
  rewrite lor_shiftl_add; [|lia | apply Z.mod_pos_bound; lia].
  change (2 ^ 8) with 256. change (2 ^ 3) with 8. lia.
Qed.

(** The dispatch of a write while the APU is on. *)
Lemma write_register_on (a : Audio.t) (value : Z) :
  bitwise.check_bit (ByteRegister.value (Audio.nr52 a)) 7 = true ->
  let w address := Audio.write_register address value a in
  w 0xFF10 = Audio.on_channel1 (ToneSweepChannel.set_sweep_register value) a /\
  w 0xFF11 =
    Audio.on_channel1 (ToneSweepChannel.set_length_duty_register value) a /\
  w 0xFF12 =
    Audio.on_channel1 (ToneSweepChannel.set_volume_envelope_register value) a /\
  w 0xFF13 =
    Audio.on_channel1 (ToneSweepChannel.set_frequency_lo_register value) a /\
  w 0xFF14 =
    Audio.on_channel1 (ToneSweepChannel.set_frequency_hi_register value) a /\
  w 0xFF16 =
    Audio.on_channel2 (ToneChannel.set_length_duty_register value) a /\
  w 0xFF17 =
    Audio.on_channel2 (ToneChannel.set_volume_envelope_register value) a /\
  w 0xFF18 =
    Audio.on_channel2 (ToneChannel.set_frequency_lo_register value) a /\
  w 0xFF19 =
    Audio.on_channel2 (ToneChannel.set_frequency_hi_register value) a /\
  w 0xFF1A = Audio.on_channel3 (WaveChannel.set_enable_register value) a /\
  w 0xFF1B = Audio.on_channel3 (WaveChannel.set_length_register value) a /\
  w 0xFF1C =
    Audio.on_channel3 (WaveChannel.set_output_level_register value) a /\
  w 0xFF1D =
    Audio.on_channel3 (WaveChannel.set_frequency_lo_register value) a /\
  w 0xFF1E =
    Audio.on_channel3 (WaveChannel.set_frequency_hi_register value) a /\
  w 0xFF20 = Audio.on_channel4 (NoiseChannel.set_length_register value) a /\
  w 0xFF21 =
    Audio.on_channel4 (NoiseChannel.set_volume_envelope_register value) a /\
  w 0xFF22 =
    Audio.on_channel4 (NoiseChannel.set_polynomial_register value) a /\
  w 0xFF23 = Audio.on_channel4 (NoiseChannel.set_counter_register value) a /\
  w 0xFF24 = Audio.with_nr50 (ByteRegister.set value) a /\
  w 0xFF25 = Audio.with_nr51 (ByteRegister.set value) a.
Proof.
  intros H. cbv zeta. unfold Audio.write_register. rewrite H.
  split_and!; reflexivity.
Qed.

(** X13: with the APU on, the low and the high frequency register of a
    channel make one 11-bit frequency: after a write of [lo] to the low
    register and of [hi] to the high one, in either order, the frequency
    of channels 1, 2 and 3 is [lo + 256 * (hi mod 8)], whatever it was. *)
Theorem frequency_registers_compose (a : Audio.t) (lo hi : Z) :
  bitwise.check_bit (ByteRegister.value (Audio.nr52 a)) 7 = true ->
  0 <= lo < 256 -> 0 <= hi < 256 ->
  let f := lo + 256 * (hi mod 8) in
  ToneSweepChannel.frequency
    (Audio.channel1
       (Audio.write_register 0xFF14 hi (Audio.write_register 0xFF13 lo a)))
    = f /\
  ToneSweepChannel.frequency
    (Audio.channel1
       (Audio.write_register 0xFF13 lo (Audio.write_register 0xFF14 hi a)))
    = f /\
  ToneChannel.frequency
    (Audio.channel2
       (Audio.write_register 0xFF19 hi (Audio.write_register 0xFF18 lo a)))
    = f /\
  ToneChannel.frequency
    (Audio.channel2
       (Audio.write_register 0xFF18 lo (Audio.write_register 0xFF19 hi a)))
    = f /\
  WaveChannel.frequency
    (Audio.channel3
       (Audio.write_register 0xFF1E hi (Audio.write_register 0xFF1D lo a)))
    = f /\
  WaveChannel.frequency
    (Audio.channel3
       (Audio.write_register 0xFF1D lo (Audio.write_register 0xFF1E hi a)))
    = f.
Proof.
  intros Hon Hlo Hhi. cbv zeta.
  assert (Hmod : 0 <= hi mod 8 < 8) by (apply Z.mod_pos_bound; lia).
  destruct (write_register_on a lo Hon)
    as (_ & _ & _ & L1 & _ & _ & _ & L2 & _ & _ & _ & _ & L3 & _).
  destruct (write_register_on a hi Hon)
    as (_ & _ & _ & _ & H1 & _ & _ & _ & H2 & _ & _ & _ & _ & H3 & _).
  cbv zeta in *. rewrite L1, L2, L3, H1, H2, H3.
  assert (On : forall b, Audio.nr52 b = Audio.nr52 a ->
             bitwise.check_bit (ByteRegister.value (Audio.nr52 b)) 7 = true)
    by (by intros b ->).
  split_and!.
  - destruct (write_register_on (Audio.on_channel1
                (ToneSweepChannel.set_frequency_lo_register lo) a) hi
                (On _ eq_refl)) as (_ & _ & _ & _ & -> & _).
    destruct a as [? ? ? c1 ? ? ? ? ? ? ? ?]. destruct c1. cbn.
    rewrite frequency_hi_value, frequency_lo_value by done.
    destruct (bitwise.check_bit hi 7); cbn; split_tests; cbn; euclid.
  - destruct (write_register_on (Audio.on_channel1
                (ToneSweepChannel.set_frequency_hi_register hi) a) lo
                (On _ eq_refl)) as (_ & _ & _ & -> & _).
    destruct a as [? ? ? c1 ? ? ? ? ? ? ? ?]. destruct c1. cbn.
    destruct (bitwise.check_bit hi 7); cbn; split_tests; cbn;
      rewrite frequency_lo_value, frequency_hi_value by done; euclid.
  - destruct (write_register_on (Audio.on_channel2
                (ToneChannel.set_frequency_lo_register lo) a) hi
                (On _ eq_refl)) as (_ & _ & _ & _ & _ & _ & _ & _ & -> & _).
    destruct a as [? ? ? ? c2 ? ? ? ? ? ? ?]. destruct c2. cbn.
    rewrite frequency_hi_value, frequency_lo_value by done.
    destruct (bitwise.check_bit hi 7); cbn; split_tests; cbn; euclid.
  - destruct (write_register_on (Audio.on_channel2
                (ToneChannel.set_frequency_hi_register hi) a) lo
                (On _ eq_refl)) as (_ & _ & _ & _ & _ & _ & _ & -> & _).
    destruct a as [? ? ? ? c2 ? ? ? ? ? ? ?]. destruct c2. cbn.
    destruct (bitwise.check_bit hi 7); cbn; split_tests; cbn;
      rewrite frequency_lo_value, frequency_hi_value by done; euclid.
  - destruct (write_register_on (Audio.on_channel3
                (WaveChannel.set_frequency_lo_register lo) a) hi
                (On _ eq_refl))
      as (_ & _ & _ & _ & _ & _ & _ & _ & _ & _ & _ & _ & _ & -> & _).
    destruct a as [? ? ? ? ? c3 ? ? ? ? ? ?]. destruct c3. cbn.
    rewrite frequency_hi_value, frequency_lo_value by done.
    destruct (bitwise.check_bit hi 7); cbn; split_tests; cbn; euclid.
  - destruct (write_register_on (Audio.on_channel3
                (WaveChannel.set_frequency_hi_register hi) a) lo
                (On _ eq_refl))
      as (_ & _ & _ & _ & _ & _ & _ & _ & _ & _ & _ & _ & -> & _).
    destruct a as [? ? ? ? ? c3 ? ? ? ? ? ?]. destruct c3. cbn.
    destruct (bitwise.check_bit hi 7); cbn; split_tests; cbn;
      rewrite frequency_lo_value, frequency_hi_value by done; euclid.
Qed.

Lemma frequency_registers_compose_witness :
  ToneSweepChannel.frequency
    (Audio.channel1
       (Audio.write_register 0xFF14 0x86
          (Audio.write_register 0xFF13 0xD6
             (Audio.write_register 0xFF26 0x80 Audio.new))))
    = 0xD6 + 256 * (0x86 mod 8).
Proof.
  apply (frequency_registers_compose
           (Audio.write_register 0xFF26 0x80 Audio.new) 0xD6 0x86);
    [reflexivity | lia | lia].
Defined.

(** ** The APU: blocks of 1024 samples *)

Lemma sample_step_blocks a :
  blocks_of_1024 a ->
  blocks_of_1024 (Audio.sample_step a) /\
  Audio.audio_callback (Audio.sample_step a) = Audio.audio_callback a /\
  (if Audio.audio_callback a
   then samples_out (Audio.sample_step a) = samples_out a + 1
   else Audio.delivered (Audio.sample_step a) = Audio.delivered a /\
        Z.of_nat (length (Audio.left_buffer (Audio.sample_step a))) =
          (Z.of_nat (length (Audio.left_buffer a)) + 1) mod 1024).
Proof.
  intros (Hl & Hr & Hd). unfold Audio.sample_step, Audio.flush, samples_out,
    blocks_of_1024.
  destruct (mix_samples_pushes
              (Audio.with_sample_counter
                 (Audio.sample_counter a - Audio.CYCLES_PER_SAMPLE) a))
    as (l & r & _ & _ & ->).
  audio_fields. rewrite length_app. cbn [length].
  destruct (Z.leb_spec 1024
              (Z.of_nat (length (Audio.left_buffer a) + 1)%nat)) as [Hf|Hf];
    destruct (Audio.audio_callback a) eqn:Hcb; audio_fields;
    rewrite ?Hcb, ?length_app; cbn [length].
  - split_and!; try done; try lia.
    apply Forall_app. split; [exact Hd|]. constructor; [|constructor].
    cbn [fst snd]. rewrite !length_app, Hr. cbn [length]. lia.
  - split_and!; try done. euclid.
  - split_and!; try done; try lia.
  - split_and!; try done; try lia. euclid.
Qed.

Lemma tick_channels_blocks cycles a :
  blocks_of_1024 a -> blocks_of_1024 (tick_channels cycles a).
Proof. done. Qed.

Lemma reachable_blocks a : reachable a -> blocks_of_1024 a.
Proof.
  induction 1 as [|a _ IH|a cycles _ IH Hc|a address value _ IH Ha Hv].
  - split_and!; cbn; [lia | done | constructor].
  - exact IH.
  - rewrite tick_unfold. apply (sample_loop_ind blocks_of_1024).
    + intros b Hb. by apply sample_step_blocks.
    + by apply tick_channels_blocks.
  - destruct (write_register_buffers address value a)
      as (E1 & E2 & E3 & _). cbv zeta in *.
    unfold blocks_of_1024. by rewrite E1, E2, E3.
Qed.

(** X14: in every state a program can reach, each buffer holds fewer than
    1024 samples, and every call of the host callback so far was handed
    exactly 1024 samples for the left and 1024 for the right. *)
Theorem host_receives_blocks_of_1024 (a : Audio.t) :
  reachable a ->
  Z.of_nat (length (Audio.left_buffer a)) < 1024 /\
  Z.of_nat (length (Audio.right_buffer a)) < 1024 /\
  forall left right, In (left, right) (Audio.delivered a) ->
    Z.of_nat (length left) = 1024 /\ Z.of_nat (length right) = 1024.
Proof.
  intros Hr. destruct (reachable_blocks a Hr) as (Hl & Hrl & Hd).
  split; [exact Hl|]. split; [by rewrite Hrl|].
  intros left right Hin. rewrite Forall_forall in Hd.
  destruct (Hd _ Hin) as [H1 H2]. cbn [fst snd] in *. lia.
Qed.

Lemma host_receives_blocks_of_1024_witness :
  reachable (Audio.tick 200 Audio.new) /\
  Z.of_nat (length (Audio.left_buffer (Audio.tick 200 Audio.new))) < 1024.
Proof.
  assert (H : reachable (Audio.tick 200 Audio.new))
    by (apply reachable_tick; [apply reachable_new | lia]).
  split; [exact H | exact (proj1 (host_receives_blocks_of_1024 _ H))].
Defined.

Lemma iter_blocks (k : nat) b :
  blocks_of_1024 b ->
  let b' := Nat.iter k Audio.sample_step b in
  blocks_of_1024 b' /\
  Audio.audio_callback b' = Audio.audio_callback b /\
  (if Audio.audio_callback b
   then samples_out b' = samples_out b + Z.of_nat k
   else Audio.delivered b' = Audio.delivered b /\
        Z.of_nat (length (Audio.left_buffer b')) =
          (Z.of_nat (length (Audio.left_buffer b)) + Z.of_nat k) mod 1024).
Proof.
  intros Hb. cbv zeta. induction k as [|k IH].
  - cbn [Nat.iter nat_rect]. split; [exact Hb|]. split; [reflexivity|].
    destruct Hb as (Hl & _). destruct (Audio.audio_callback b).
    + cbn. lia.
    + split; [reflexivity|]. rewrite Z.add_0_r, Z.mod_small; lia.
  - rewrite Nat.iter_succ. destruct IH as (IH1 & IH2 & IH3).
    destruct (sample_step_blocks _ IH1) as (S1 & S2 & S3).
    split; [exact S1|]. split; [by rewrite S2|].
    rewrite IH2 in S3. destruct (Audio.audio_callback b).
    + rewrite S3, IH3. lia.
    + destruct S3 as [S3 S4], IH3 as [IH3 IH4].
      split; [by rewrite S3|]. rewrite S4, IH4.
      rewrite Nat2Z.inj_succ. euclid.
Qed.

Lemma tick_samples (a : Audio.t) (cycles : Z) :
  reachable a -> 0 <= cycles < 4294967296 ->
  let made := wrap32 (Audio.sample_counter a + cycles) / 95 in
  let a' := Audio.tick cycles a in
  (Audio.audio_callback a = true -> samples_out a' = samples_out a + made) /\
  (Audio.audio_callback a = false ->
   Audio.delivered a' = Audio.delivered a /\
   Z.of_nat (length (Audio.left_buffer a')) =
     (Z.of_nat (length (Audio.left_buffer a)) + made) mod 1024).
Proof.
  intros Hr Hc. cbv zeta.
  rewrite tick_unfold, sample_loop_iter.
  pose proof (tick_channels_blocks cycles a (reachable_blocks a Hr)) as Hb.
  destruct (iter_blocks
              (Z.to_nat (Audio.sample_counter (tick_channels cycles a)
                         / Audio.CYCLES_PER_SAMPLE))
              (tick_channels cycles a) Hb) as (_ & _ & H).
  cbv zeta in H.
  change (Audio.audio_callback (tick_channels cycles a))
    with (Audio.audio_callback a) in H.
  change (samples_out (tick_channels cycles a)) with (samples_out a) in H.
  change (Audio.delivered (tick_channels cycles a))
    with (Audio.delivered a) in H.
  change (Audio.left_buffer (tick_channels cycles a))
    with (Audio.left_buffer a) in H.
  change (Audio.sample_counter (tick_channels cycles a))
    with (wrap32 (Audio.sample_counter a + cycles)) in *.
  change Audio.CYCLES_PER_SAMPLE with 95 in *.
  rewrite Z2Nat.id in H by (unfold wrap32; euclid).
  split; intros Hcb; rewrite Hcb in H; exact H.
Qed.

(** X15: no sample is lost between the APU and a registered host callback,
    and none is made up: a tick with the callback registered raises the
    samples handed over or waiting in the buffer by the number of times 95
    goes into its 32-bit counter.  Without a callback nothing is handed
    over, and each full buffer of 1024 samples is dropped. *)
Theorem samples_are_conserved (a : Audio.t) (cycles : Z) :
  reachable a -> 0 <= cycles < 4294967296 ->
  let made := wrap32 (Audio.sample_counter a + cycles) / 95 in
  let a' := Audio.tick cycles a in
  (Audio.audio_callback a = true -> samples_out a' = samples_out a + made) /\
  (Audio.audio_callback a = false ->
   Audio.delivered a' = Audio.delivered a /\
   Z.of_nat (length (Audio.left_buffer a')) =
     (Z.of_nat (length (Audio.left_buffer a)) + made) mod 1024).
Proof. exact (tick_samples a cycles). Qed.

Lemma samples_are_conserved_witness :
  reachable (Audio.register_audio_callback Audio.new) /\
  0 <= 200 < 4294967296 /\
  samples_out (Audio.tick 200 (Audio.register_audio_callback Audio.new)) =
    samples_out (Audio.register_audio_callback Audio.new)
    + wrap32 (Audio.sample_counter (Audio.register_audio_callback Audio.new)
              + 200) / 95.
Proof.
  assert (H : reachable (Audio.register_audio_callback Audio.new))
    by (apply reachable_callback, reachable_new).
  assert (Hc : 0 <= 200 < 4294967296) by lia.
  split; [exact H | split; [exact Hc|]].
  exact (proj1 (samples_are_conserved _ 200 H Hc) eq_refl).
Defined.


(** ** The APU: what a program reads *)

Lemma tick_registers cycles a :
  let a' := Audio.tick cycles a in
  Audio.nr50 a' = Audio.nr50 a /\ Audio.nr51 a' = Audio.nr51 a /\
  Audio.nr52 a' = Audio.nr52 a /\
  Audio.channel1 a' = ToneSweepChannel.tick cycles (Audio.channel1 a) /\
  Audio.channel2 a' = ToneChannel.tick cycles (Audio.channel2 a) /\
  Audio.channel3 a' = WaveChannel.tick cycles (Audio.channel3 a) /\
  Audio.channel4 a' = NoiseChannel.tick cycles (Audio.channel4 a) /\
  Audio.audio_callback a' = Audio.audio_callback a.
Proof.
  cbv zeta. rewrite tick_unfold.
  set (s := tick_channels cycles a).
  change (Audio.nr50 a) with (Audio.nr50 s).
  change (Audio.nr51 a) with (Audio.nr51 s).
  change (Audio.nr52 a) with (Audio.nr52 s).
  change (ToneSweepChannel.tick cycles (Audio.channel1 a))
    with (Audio.channel1 s).
  change (ToneChannel.tick cycles (Audio.channel2 a)) with (Audio.channel2 s).
  change (WaveChannel.tick cycles (Audio.channel3 a)) with (Audio.channel3 s).
  change (NoiseChannel.tick cycles (Audio.channel4 a)) with (Audio.channel4 s).
  change (Audio.audio_callback a) with (Audio.audio_callback s).
  clearbody s.
  apply (sample_loop_ind (fun b =>
    Audio.nr50 b = Audio.nr50 s /\ Audio.nr51 b = Audio.nr51 s /\
    Audio.nr52 b = Audio.nr52 s /\ Audio.channel1 b = Audio.channel1 s /\
    Audio.channel2 b = Audio.channel2 s /\
    Audio.channel3 b = Audio.channel3 s /\
    Audio.channel4 b = Audio.channel4 s /\
    Audio.audio_callback b = Audio.audio_callback s)); [|done].
  intros b Hb.
  destruct (sample_step_registers b)
    as (-> & -> & -> & -> & -> & -> & -> & ->).
  exact Hb.
Qed.


Lemma run_samples cycles : forall a,
  reachable a -> Audio.audio_callback a = true ->
  Forall (fun c => 0 <= c < 4294967296 - 95) cycles ->
  reachable (Audio_run cycles a) /\
  samples_out (Audio_run cycles a) =
    samples_out a + (Audio.sample_counter a + sum_cycles cycles) / 95 /\
  Audio.sample_counter (Audio_run cycles a) =
    (Audio.sample_counter a + sum_cycles cycles) mod 95.
Proof.
  induction cycles as [|c cycles IH]; intros a Hr Hcb Hc.
  - destruct (reachable_invariant a Hr) as (_ & _ & _ & Hs).
    change Audio.CYCLES_PER_SAMPLE with 95 in Hs.
    cbn [Audio_run fold_left sum_cycles fold_right].
    split; [exact Hr|]. rewrite Z.add_0_r. split.
    + rewrite Z.div_small by exact Hs. lia.
    + by rewrite Z.mod_small.
  - inversion Hc as [|? ? Hc1 Hc2]; subst.
    destruct (reachable_invariant a Hr) as (_ & _ & _ & Hs).
    change Audio.CYCLES_PER_SAMPLE with 95 in Hs.
    assert (Hr1 : reachable (Audio.tick c a))
      by (apply reachable_tick; [exact Hr | lia]).
    destruct (tick_registers c a) as (_ & _ & _ & _ & _ & _ & _ & Hcb1).
    cbv zeta in Hcb1. rewrite Hcb in Hcb1.
    destruct (IH (Audio.tick c a) Hr1 Hcb1 Hc2) as (I1 & I2 & I3).
    destruct (tick_samples a c Hr ltac:(lia)) as [T1 _].
    cbv zeta in T1. specialize (T1 Hcb).
    pose proof (tick_counter c a ltac:(lia) ltac:(lia)) as T2.
    change Audio.CYCLES_PER_SAMPLE with 95 in T2.
    unfold wrap32 in T1, T2.
    rewrite (Z.mod_small (Audio.sample_counter a + c) 4294967296) in T1, T2
      by lia.
    change (Audio_run (c :: cycles) a) with (Audio_run cycles (Audio.tick c a)).
    split; [exact I1|].
    rewrite I2, I3, T1, T2. cbn [sum_cycles fold_right].
    fold (sum_cycles cycles).
    assert (Hsum : 0 <= sum_cycles cycles).
    { clear - Hc2. induction Hc2 as [|x l Hx _ IHl]; cbn; [lia|].
      fold (sum_cycles l). lia. }
    split; euclid.
Qed.

(** X27: one sample for every 95 T-states.  From power-on with the host
    callback registered, after any run of ticks the samples handed over or
    waiting in the buffer number the T-states ticked divided by 95, and the
    counter holds the remainder. *)
Theorem one_sample_per_95 (cycles : list Z) :
  Forall (fun c => 0 <= c < 4294967296 - 95) cycles ->
  let a := Audio_run cycles (Audio.register_audio_callback Audio.new) in
  samples_out a = sum_cycles cycles / 95 /\
  Audio.sample_counter a = sum_cycles cycles mod 95.
Proof.
  intros Hc. cbv zeta.
  destruct (run_samples cycles (Audio.register_audio_callback Audio.new)
              (reachable_callback _ reachable_new) eq_refl Hc)
    as (_ & H1 & H2).
  split; [exact H1 | exact H2].
Qed.

Lemma one_sample_per_95_witness :
  Forall (fun c => 0 <= c < 4294967296 - 95) [100; 100] /\
  samples_out (Audio_run [100; 100]
                 (Audio.register_audio_callback Audio.new)) =
    sum_cycles [100; 100] / 95.
Proof.
  assert (H : Forall (fun c => 0 <= c < 4294967296 - 95) [100; 100])
    by (repeat constructor; lia).
  split; [exact H | exact (proj1 (one_sample_per_95 [100; 100] H))].
Defined.

(** Splits on the test at the head of an equation's left side. *)
Ltac head_tests :=
  repeat match goal with
         | |- (if ?b then _ else _) = _ => destruct b eqn:?
         end.

(** X17: the addresses between the register blocks are not wired: at
    0xFF15, 0xFF1F, 0xFF27 to 0xFF2F and everywhere outside 0xFF10 to 0xFF3F
    a write changes nothing at all and a read gives 0xFF, whatever the
    state of the APU. *)
Theorem unmapped_addresses_are_inert (address value : Z) (a : Audio.t) :
  address < 0xFF10 \/ address = 0xFF15 \/ address = 0xFF1F \/
  0xFF27 <= address <= 0xFF2F \/ 0xFF3F < address ->
  Audio.write_register address value a = a /\
  Audio.read_register address a = 0xFF.
Proof.
  intros H. unfold Audio.write_register, Audio.read_register.
  split; head_tests; try reflexivity; address_facts; lia.
Qed.

Lemma unmapped_addresses_are_inert_witness :
  Audio.write_register 0xFF15 0x42 ringing = ringing /\
  Audio.read_register 0xFF15 ringing = 0xFF.
Proof.
  apply (unmapped_addresses_are_inert 0xFF15 0x42 ringing).
  right. left. reflexivity.
Defined.

Lemma nr52_read_fits (nr52 : Z) (e1 e2 e3 e4 : bool) :
  let value := Z.lor (Z.land nr52 0x80) 0x70 in
  let value := if e1 then Z.lor value 0x01 else value in
  let value := if e2 then Z.lor value 0x02 else value in
  let value := if e3 then Z.lor value 0x04 else value in
  let value := if e4 then Z.lor value 0x08 else value in
  0 <= value < 256.
Proof.
  cbv zeta. change 256 with (2 ^ 8).
  assert (H0 : 0 <= Z.lor (Z.land nr52 0x80) 0x70 < 2 ^ 8).
  { apply lor_fits; [lia | apply land_fits; cbn; lia | cbn; lia]. }
  destruct e1, e2, e3, e4;
    repeat first [exact H0 | apply lor_fits; [lia | | cbn; lia]].
Qed.

(** X18: in every state a program can reach, a read of any address gives a
    byte. *)
Theorem register_reads_are_bytes (a : Audio.t) (address : Z) :
  reachable a -> 0 <= Audio.read_register address a < 256.
Proof.
  intros Hr. destruct (reachable_in_range a Hr)
    as (H50 & H51 & _ & _ & _ & H3 & _).
  destruct H3 as (_ & _ & _ & _ & _ & _ & _ & Hb).
  pose proof (nr52_read_fits (ByteRegister.value (Audio.nr52 a))
                (ToneSweepChannel.is_enabled (Audio.channel1 a))
                (ToneChannel.is_enabled (Audio.channel2 a))
                (WaveChannel.is_enabled (Audio.channel3 a))
                (NoiseChannel.is_enabled (Audio.channel4 a))) as H52.
  cbv zeta in H52.
  unfold Audio.read_register, WaveChannel.get_wave_pattern, wrap8.
  repeat match goal with
         | |- 0 <= (if ?b then _ else _) < 256 => destruct b
         end; try lia; try (apply Z.mod_pos_bound; lia); try exact H52.
  destruct (WaveChannel.wave_pattern (Audio.channel3 a) !! _) as [b|] eqn:E;
    cbn [default from_option]; unfold id; [|lia].
  rewrite Forall_lookup in Hb. exact (Hb _ _ E).
Qed.

Lemma register_reads_are_bytes_witness :
  reachable ringing /\ 0 <= Audio.read_register 0xFF26 ringing < 256.
Proof.
  assert (H : reachable ringing)
    by (unfold ringing; repeat (apply reachable_write; [|lia|lia]);
        apply reachable_new).
  split; [exact H | exact (register_reads_are_bytes ringing 0xFF26 H)].
Defined.

Lemma nibble_shift value :
  0 <= value < 256 ->
  wrap8 (Z.shiftl (Z.land (Z.shiftr value 4) 0x0F) 4) = 16 * (value / 16).
Proof.
  intros Hv. change 0x0F with (Z.ones 4).
  rewrite Z.land_ones, Z.shiftl_mul_pow2, Z.shiftr_div_pow2 by lia.
  unfold wrap8. change (2 ^ 4) with 16. euclid.
Qed.

(** X19: what a program reads back, with the APU on, of a byte it wrote.
    NR50 and NR51 give the byte; NR12, NR22 and NR42 give its high nibble,
    the initial volume, with the low nibble 0; NR30 gives 0xFF or 0x7F by
    bit 7 of the byte. *)
Theorem written_values_read_back (a : Audio.t) (value : Z) :
  bitwise.check_bit (ByteRegister.value (Audio.nr52 a)) 7 = true ->
  0 <= value < 256 ->
  let back address :=
    Audio.read_register address (Audio.write_register address value a) in
  back 0xFF24 = value /\ back 0xFF25 = value /\
  back 0xFF12 = 16 * (value / 16) /\ back 0xFF17 = 16 * (value / 16) /\
  back 0xFF21 = 16 * (value / 16) /\
  back 0xFF1A = if bitwise.check_bit value 7 then 0xFF else 0x7F.
Proof.
  intros Hon Hv. cbv zeta.
  destruct (write_register_on a value Hon)
    as (_ & _ & W12 & _ & _ & _ & W17 & _ & _ & W1A & _ & _ & _ & _ & _
        & W21 & _ & _ & W24 & W25).
  cbv zeta in *. rewrite W12, W17, W1A, W21, W24, W25.
  unfold Audio.read_register.
  cbn [Z.eqb Z.leb Z.compare Pos.compare Pos.compare_cont Pos.eqb andb].
  destruct a as [n50 n51 n52 c1 c2 c3 c4 sc lb rb cb dl].
  destruct c1, c2, c3, c4.
  split_and!.
  - audio_fields. unfold ByteRegister.value, ByteRegister.set, wrap8.
    by apply Z.mod_small.
  - audio_fields. unfold ByteRegister.value, ByteRegister.set, wrap8.
    by apply Z.mod_small.
  - unfold ToneSweepChannel.get_volume. audio_fields.
    cbn [ToneSweepChannel.set_volume_envelope_register ToneSweepChannel.volume
         ToneSweepChannel.with_volume ToneSweepChannel.with_envelope_sweep_pace
         ToneSweepChannel.with_envelope_increase
         ToneSweepChannel.with_envelope_initial_volume
         ToneSweepChannel.envelope_initial_volume].
    by apply nibble_shift.
  - unfold ToneChannel.get_volume. audio_fields.
    cbn [ToneChannel.set_volume_envelope_register ToneChannel.volume
         ToneChannel.with_volume ToneChannel.with_envelope_sweep_pace
         ToneChannel.with_envelope_increase
         ToneChannel.with_envelope_initial_volume
         ToneChannel.envelope_initial_volume].
    by apply nibble_shift.
  - unfold NoiseChannel.get_volume. audio_fields.
    cbn [NoiseChannel.set_volume_envelope_register NoiseChannel.volume
         NoiseChannel.with_volume NoiseChannel.with_envelope_sweep_pace
         NoiseChannel.with_envelope_increase
         NoiseChannel.with_envelope_initial_volume
         NoiseChannel.envelope_initial_volume].
    by apply nibble_shift.
  - reflexivity.
Qed.

Lemma written_values_read_back_witness :
  Audio.read_register 0xFF12
    (Audio.write_register 0xFF12 0xF3
       (Audio.write_register 0xFF26 0x80 Audio.new)) = 16 * (0xF3 / 16).
Proof.
  refine (proj1 (proj2 (proj2 (written_values_read_back
            (Audio.write_register 0xFF26 0x80 Audio.new) 0xF3 _ _))));
    [reflexivity | lia].
Defined.

(** X20: a write reaches one block of registers only.  A write outside a
    channel's addresses and NR52 leaves the channel exactly as it was (for
    channel 3 the wave RAM counts as its addresses), and each of NR50, NR51
    and NR52 changes by a write to its own address only. *)
Theorem write_reaches_one_block (address value : Z) (a : Audio.t) :
  let a' := Audio.write_register address value a in
  (~ 0xFF10 <= address <= 0xFF14 -> address <> 0xFF26 ->
   Audio.channel1 a' = Audio.channel1 a) /\
  (~ 0xFF16 <= address <= 0xFF19 -> address <> 0xFF26 ->
   Audio.channel2 a' = Audio.channel2 a) /\
  (~ 0xFF1A <= address <= 0xFF1E -> ~ 0xFF30 <= address <= 0xFF3F ->
   address <> 0xFF26 -> Audio.channel3 a' = Audio.channel3 a) /\
  (~ 0xFF20 <= address <= 0xFF23 -> address <> 0xFF26 ->
   Audio.channel4 a' = Audio.channel4 a) /\
  (address <> 0xFF24 -> Audio.nr50 a' = Audio.nr50 a) /\
  (address <> 0xFF25 -> Audio.nr51 a' = Audio.nr51 a) /\
  (address <> 0xFF26 -> Audio.nr52 a' = Audio.nr52 a).
Proof.
  cbv zeta. unfold Audio.write_register.
  split_and!; intros;
    repeat match goal with
           | |- _ (if ?b then _ else _) = _ => destruct b eqn:?
           end; try reflexivity; address_facts; lia.
Qed.

Lemma write_reaches_one_block_witness :
  Audio.channel1 (Audio.write_register 0xFF17 0xF0 ringing) =
  Audio.channel1 ringing.
Proof.
  refine (proj1 (write_reaches_one_block 0xFF17 0xF0 ringing) _ _); lia.
Defined.

(** ** The APU: the sweep of channel 1 *)



(** ** The host: the audio queue *)




Lemma write_loop (f g : nat -> float) (start count : nat) (s : list float) :
  let s' :=
    fold_left (fun s i => <[(i * 2 + 1)%nat := g i]> (<[(i * 2)%nat := f i]> s))
              (seq start count) s in
  length s' = length s /\
  forall j : nat,
    s' !! j =
    if decide (2 * start <= j < 2 * (start + count) /\ j < length s)%nat
    then Some (if Nat.even j then f (j / 2)%nat else g (j / 2)%nat)
    else s !! j.
Proof.
  cbv zeta. induction count as [|count IH].
  - cbn. split; [reflexivity|]. intros j.
    destruct (decide _) as [H|]; [lia | reflexivity].
  - rewrite seq_S, fold_left_app. cbn [fold_left].
    destruct IH as [IHl IHj].
    set (s1 := fold_left _ (seq start count) s) in *.
    split; [by rewrite !length_insert|].
    intros j.
    assert (He : Nat.even ((start + count) * 2) = true)
      by (rewrite Nat.even_mul; apply orb_true_r).
    assert (Ho : Nat.even ((start + count) * 2 + 1) = false).
    { rewrite Nat.even_add, He. reflexivity. }
    assert (Hde : ((start + count) * 2 / 2 = start + count)%nat)
      by (apply Nat.div_mul; lia).
    assert (Hdo : (((start + count) * 2 + 1) / 2 = start + count)%nat).
    { rewrite Nat.div_add_l by lia. change (1 / 2)%nat with 0%nat. lia. }
    destruct (decide (j = (start + count) * 2 + 1)%nat) as [->|Hn1].
    { destruct (decide _) as [H|H].
      - rewrite list_lookup_insert_eq by (rewrite length_insert; lia).
        by rewrite Ho, Hdo.
      - rewrite lookup_ge_None_2 by (rewrite !length_insert; lia).
        symmetry. apply lookup_ge_None_2. lia. }
    rewrite list_lookup_insert_ne by lia.
    destruct (decide (j = (start + count) * 2)%nat) as [->|Hn2].
    { destruct (decide _) as [H|H].
      - rewrite list_lookup_insert_eq by lia. by rewrite He, Hde.
      - rewrite lookup_ge_None_2 by (rewrite !length_insert; lia).
        symmetry. apply lookup_ge_None_2. lia. }
    rewrite list_lookup_insert_ne by lia. rewrite IHj.
    destruct (decide _) as [H|H]; destruct (decide _) as [H'|H'];
      try reflexivity; lia.
Qed.

(** X23: what SDL gets when it asks for [len] bytes.  With [n = len / 8]
    stereo frames asked for and [k] the smaller of [n] and the queue's
    length, the stream has [len / 4] floats; its first [k] frames are the
    [k] oldest samples of the queue, left then right; everything after
    them is silence; and exactly those [k] samples have left the queue on
    both sides. *)
Theorem sdl_stream_layout (len : Z) (h : HostAudio) :
  0 <= len -> queue_paired h ->
  let stream := fst (sdl_audio_callback len h) in
  let h' := snd (sdl_audio_callback len h) in
  let k := Nat.min (length (g_left_buffer h)) (Z.to_nat (len / 8)) in
  length stream = Z.to_nat (len / 4) /\
  (forall i : nat, (i < k)%nat ->
     stream !! (2 * i)%nat = g_left_buffer h !! i /\
     stream !! (2 * i + 1)%nat = g_right_buffer h !! i) /\
  (forall j : nat, (2 * k <= j < length stream)%nat ->
     stream !! j = Some F32.zero) /\
  g_left_buffer h' = drop k (g_left_buffer h) /\
  g_right_buffer h' = drop k (g_right_buffer h).
Proof.
  intros Hlen Hq. unfold sdl_audio_callback. cbv zeta.
  change (4 * 2) with 8. cbn [fst snd].
  set (n := Z.to_nat (len / 8)).
  set (N := Z.to_nat (len / 4)).
  assert (HnN : (2 * n <= N)%nat) by (unfold n, N; euclid).
  set (k := Nat.min (length (g_left_buffer h)) n).
  assert (Hk : (k <= n)%nat) by lia.
  assert (Hkl : (k <= length (g_left_buffer h))%nat) by lia.
  destruct (write_loop
              (fun i => default F32.zero (g_left_buffer h !! i))
              (fun i => default F32.zero (g_right_buffer h !! i))
              0 k (replicate N F32.zero)) as [L1 J1].
  cbv zeta in L1, J1. rewrite length_replicate in L1, J1.
  set (s1 := fold_left _ (seq 0 k) (replicate N F32.zero)) in *.
  destruct (write_loop (fun _ => F32.zero) (fun _ => F32.zero)
              k (n - k) s1) as [L2 J2].
  cbv zeta in L2, J2. rewrite L1 in L2, J2.
  set (s2 := fold_left _ (seq k (n - k)) s1) in *.
  assert (Hs : forall j : nat,
             (if (k <? n)%nat then s2 else s1) !! j =
             if decide (2 * k <= j < 2 * n)%nat then Some F32.zero
             else s1 !! j).
  { intros j. destruct (Nat.ltb_spec k n).
    - rewrite J2. destruct (decide _) as [H1|H1];
        destruct (decide _) as [H2|H2]; try lia.
      + by destruct (Nat.even j).
      + reflexivity.
    - destruct (decide _); [lia | reflexivity]. }
  split_and!.
  - destruct (k <? n)%nat; congruence.
  - intros i Hi. rewrite !Hs, !J1.
    assert (Hl : is_Some (g_left_buffer h !! i))
      by (apply lookup_lt_is_Some_2; lia).
    assert (Hr : is_Some (g_right_buffer h !! i))
      by (apply lookup_lt_is_Some_2; unfold queue_paired in Hq; lia).
    destruct Hl as [x Hx], Hr as [y Hy].
    repeat (destruct (decide _); try lia).
    rewrite Nat.even_mul, Nat.even_add, Nat.even_mul. cbn [Nat.even orb].
    rewrite (Nat.mul_comm 2 i), Nat.div_mul by lia.
    rewrite Nat.div_add_l by lia. change (1 / 2)%nat with 0%nat.
    rewrite Nat.add_0_r, Hx, Hy. done.
  - intros j Hj.
    assert (HN : length (if (k <? n)%nat then s2 else s1) = N)
      by (destruct (k <? n)%nat; congruence).
    rewrite HN in Hj. rewrite Hs, J1.
    repeat (destruct (decide _); try lia); try reflexivity.
    apply lookup_replicate. split; [reflexivity | lia].
  - destruct (Nat.ltb_spec 0 k) as [|H0]; [reflexivity|].
    by replace k with 0%nat by lia.
  - destruct (Nat.ltb_spec 0 k) as [|H0]; [reflexivity|].
    by replace k with 0%nat by lia.
Qed.

Lemma sdl_stream_layout_witness :
  0 <= 32 /\ queue_paired (mkHostAudio [F32.one; F32.half]
                                       [F32.half; F32.one]) /\
  length (fst (sdl_audio_callback 32 (mkHostAudio [F32.one; F32.half]
                                                   [F32.half; F32.one])))
    = Z.to_nat (32 / 4).
Proof.
  assert (H0 : 0 <= 32) by lia.
  assert (Hq : queue_paired (mkHostAudio [F32.one; F32.half]
                                         [F32.half; F32.one]))
    by reflexivity.
  split; [exact H0 | split; [exact Hq|]].
  exact (proj1 (sdl_stream_layout 32 _ H0 Hq)).
Defined.









(** ** Video RAM *)

Lemma Video_write_length address value ram ram' :
  Video_write address value ram = Some ram' -> length ram' = length ram.
Proof.
  unfold Video_write. case_match; [|done]. intros [= <-].
  apply length_insert.
Qed.



(** ** The host: the frame handed to SDL *)

Lemma triple_insert (s : list Z) (idx v : Z) (j : nat) :
  0 <= idx ->
  <[Z.to_nat (idx + 2) := v]>
    (<[Z.to_nat (idx + 1) := v]> (<[Z.to_nat idx := v]> s)) !! j =
  if decide (idx <= Z.of_nat j < idx + 3 /\ (j < length s)%nat)
  then Some v else s !! j.
Proof.
  intros Hi.
  destruct (decide (j < length s)%nat) as [Hj|Hj].
  - destruct (decide (j = Z.to_nat (idx + 2))) as [->|H2].
    { rewrite list_lookup_insert_eq by (rewrite !length_insert; lia).
      destruct (decide _); [done | lia]. }
    rewrite list_lookup_insert_ne by lia.
    destruct (decide (j = Z.to_nat (idx + 1))) as [->|H1].
    { rewrite list_lookup_insert_eq by (rewrite !length_insert; lia).
      destruct (decide _); [done | lia]. }
    rewrite list_lookup_insert_ne by lia.
    destruct (decide (j = Z.to_nat idx)) as [->|H0].
    { rewrite list_lookup_insert_eq by lia.
      destruct (decide _); [done | lia]. }
    rewrite list_lookup_insert_ne by lia.
    destruct (decide _); [lia | done].
  - rewrite lookup_ge_None_2 by (rewrite !length_insert; lia).
    destruct (decide _); [lia|]. symmetry. apply lookup_ge_None_2. lia.
Qed.

Section RgbFacts.

Variable level : Z -> Z -> Z.

Local Abbreviation row_step y :=
(fun (rgb_buffer : list Z) (x : Z) =>
   <[Z.to_nat ((y * 160 + x) * 3 + 2) := level x y]>
     (<[Z.to_nat ((y * 160 + x) * 3 + 1) := level x y]>
        (<[Z.to_nat ((y * 160 + x) * 3) := level x y]> rgb_buffer))).

Lemma rgb_row (y : Z) (n : nat) (s : list Z) :
0 <= y ->
let r := fold_left (row_step y) (map Z.of_nat (seq 0 n)) s in
length r = length s /\
forall j : nat,
  r !! j =
  if decide (y * 480 <= Z.of_nat j < (y * 160 + Z.of_nat n) * 3
             /\ (j < length s)%nat)
  then Some (level (Z.of_nat j / 3 - y * 160) y) else s !! j.
Proof.
intros Hy. cbv zeta. induction n as [|n [IHl IHj]].
- cbn. split; [reflexivity|]. intros j. destruct (decide _); [lia | done].
- rewrite seq_S, map_app, fold_left_app. cbn [map fold_left].
  set (r1 := fold_left _ (map Z.of_nat (seq 0 n)) s) in *.
  split; [by rewrite !length_insert|].
  intros j. rewrite triple_insert by lia. rewrite IHl, IHj.
  repeat case_decide; try lia; try reflexivity; f_equal; f_equal; euclid.
Qed.

Lemma rgb_rows (m : nat) (s : list Z) :
let r :=
  fold_left (fun rgb_buffer y =>
               fold_left (row_step y) (map Z.of_nat (seq 0 160)) rgb_buffer)
            (map Z.of_nat (seq 0 m)) s in
length r = length s /\
forall j : nat,
  r !! j =
  if decide (Z.of_nat j < Z.of_nat m * 480 /\ (j < length s)%nat)
  then Some (level ((Z.of_nat j / 3) mod 160) (Z.of_nat j / 3 / 160))
  else s !! j.
Proof.
cbv zeta. remember (map Z.of_nat (seq 0 160)) as cols eqn:Hcols.
induction m as [|m [IHl IHj]].
- cbn. split; [reflexivity|]. intros j. destruct (decide _); [lia | done].
- rewrite seq_S, map_app, fold_left_app. cbn [map fold_left].
  set (r1 := fold_left _ (map Z.of_nat (seq 0 m)) s) in *.
  destruct (rgb_row (Z.of_nat (0 + m)) 160 r1 ltac:(lia)) as [Rl Rj].
  cbv zeta in Rl, Rj. rewrite <- Hcols in Rl, Rj. split; [congruence|].
  intros j. rewrite Rj, IHl, IHj.
  repeat case_decide; try lia; try reflexivity; f_equal; f_equal; euclid.
Qed.

End RgbFacts.

(** X26: the frame the host shows.  The vblank callback makes 160 x 144 x 3
    bytes, and the three bytes of the pixel in column [x] of row [y], at
    [(y * 160 + x) * 3], are all the grey level of that pixel of the frame
    buffer: 255, 192, 96 or 0 from white to black. *)
Theorem vblank_rgb_layout (buffer : FrameBuffer.t) (x y channel : Z) :
  0 <= x < 160 -> 0 <= y < 144 -> 0 <= channel < 3 ->
  length (vblank_rgb buffer) = Z.to_nat (160 * 144 * 3) /\
  vblank_rgb buffer !! Z.to_nat ((y * 160 + x) * 3 + channel) =
    Some (rgb_level (FrameBuffer.get_pixel buffer x y)).
Proof.
  intros Hx Hy Hc. unfold vblank_rgb. cbv zeta.
  change (upto 160) with (map Z.of_nat (seq 0 160)).
  change (upto 144) with (map Z.of_nat (seq 0 144)).
  destruct (rgb_rows (fun x y => rgb_level (FrameBuffer.get_pixel buffer x y))
              144 (replicate (Z.to_nat (160 * 144 * 3)) 0)) as [Hl Hj].
  cbv zeta in Hl, Hj. rewrite length_replicate in Hl, Hj.
  split.
  - etrans; [|exact Hl]. f_equal.
  - etrans; [|etrans; [apply (Hj (Z.to_nat ((y * 160 + x) * 3 + channel)))|]].
    + f_equal.
    + destruct (decide _) as [H|H]; [|lia].
      rewrite Z2Nat.id by lia. do 3 f_equal; euclid.
Qed.

Lemma vblank_rgb_layout_witness :
  vblank_rgb (FrameBuffer.make GAMEBOY_WIDTH GAMEBOY_HEIGHT)
    !! Z.to_nat ((2 * 160 + 5) * 3 + 1) =
  Some (rgb_level
          (FrameBuffer.get_pixel
             (FrameBuffer.make GAMEBOY_WIDTH GAMEBOY_HEIGHT) 5 2)).
Proof.
  refine (proj2 (vblank_rgb_layout _ 5 2 1 _ _ _)); lia.
Defined.

(** ** The APU: wave RAM and the mixer *)

Lemma wave_write address value a :
  0xFF30 <= address <= 0xFF3F ->
  Audio.write_register address value a =
    Audio.on_channel3
      (WaveChannel.with_wave_pattern
         (<[Z.to_nat (address - 0xFF30) := value]>
            (WaveChannel.wave_pattern (Audio.channel3 a)))) a.
Proof.
  intros Hw.
  destruct (bitwise.check_bit (ByteRegister.value (Audio.nr52 a)) 7) eqn:Hon;
    [|by apply wave_write_when_off].
  unfold Audio.write_register. rewrite Hon. cbn [negb andb].
  head_tests; address_facts; try lia.
  unfold Audio.on_channel3, WaveChannel.set_wave_pattern.
  assert (E : wrap8 (address - 0xFF30) = address - 0xFF30)
    by (unfold wrap8; apply Z.mod_small; lia).
  rewrite E. destruct (Z.ltb_spec (address - 0xFF30) 16); [reflexivity | lia].
Qed.

Lemma read_register_beside_wave l a other :
  ~ 0xFF30 <= other <= 0xFF3F ->
  Audio.read_register other
    (Audio.on_channel3 (WaveChannel.with_wave_pattern l) a) =
  Audio.read_register other a.
Proof.
  intros Ho. unfold Audio.read_register.
  destruct a as [n50 n51 n52 c1 c2 c3 c4 sc lb rb cb dl]. destruct c3.
  audio_fields.
  cbn [WaveChannel.is_enabled WaveChannel.enabled
       WaveChannel.with_wave_pattern].
  destruct (Z.leb_spec 0xFF30 other), (Z.leb_spec other 0xFF3F);
    cbn [andb]; try lia; reflexivity.
Qed.

(** X28: wave RAM holds what was written, with the APU on or off.  In every
    state a program can reach, a byte written to one of 0xFF30 to 0xFF3F is
    the byte read back there, and every other address reads what it read
    before the write. *)
Theorem wave_ram_round_trip (a : Audio.t) (address other value : Z) :
  reachable a -> 0xFF30 <= address <= 0xFF3F ->
  Audio.read_register address (Audio.write_register address value a) = value /\
  (other <> address ->
   Audio.read_register other (Audio.write_register address value a) =
     Audio.read_register other a).
Proof.
  intros Hr Hw.
  destruct (reachable_in_range a Hr) as (_ & _ & _ & _ & _ & H3 & _).
  destruct H3 as (_ & _ & _ & _ & _ & _ & Hl & _).
  rewrite wave_write by exact Hw. split.
  - rewrite wave_read by exact Hw. unfold Audio.on_channel3. audio_fields.
    cbn [WaveChannel.wave_pattern WaveChannel.with_wave_pattern].
    rewrite list_lookup_insert_eq by lia. reflexivity.
  - intros Hne.
    destruct (Z_le_dec 0xFF30 other) as [H1|H1];
      [destruct (Z_le_dec other 0xFF3F) as [H2|H2]|].
    + rewrite !wave_read by lia. unfold Audio.on_channel3. audio_fields.
      cbn [WaveChannel.wave_pattern WaveChannel.with_wave_pattern].
      rewrite list_lookup_insert_ne by lia. reflexivity.
    + apply read_register_beside_wave. lia.
    + apply read_register_beside_wave. lia.
Qed.

Lemma wave_ram_round_trip_witness :
  reachable ringing /\ 0xFF30 <= 0xFF35 <= 0xFF3F /\
  Audio.read_register 0xFF35 (Audio.write_register 0xFF35 0x9A ringing) = 0x9A.
Proof.
  assert (H : reachable ringing)
    by (unfold ringing; repeat (apply reachable_write; [|lia|lia]);
        apply reachable_new).
  assert (Hw : 0xFF30 <= 0xFF35 <= 0xFF3F) by lia.
  split; [exact H | split; [exact Hw|]].
  exact (proj1 (wave_ram_round_trip ringing 0xFF35 0 0x9A H Hw)).
Defined.

(** X29: a balanced setting gives a mono signal.  When NR51 routes each
    channel to the left exactly when it routes it to the right, and the
    two volumes of NR50 are the same, the sample pushed on the left buffer
    is the sample pushed on the right buffer. *)
Theorem balanced_mix_is_mono (a : Audio.t) :
  (forall i, 0 <= i < 4 ->
     Z.testbit (ByteRegister.value (Audio.nr51 a)) (i + 4) =
     Z.testbit (ByteRegister.value (Audio.nr51 a)) i) ->
  Z.land (Z.shiftr (ByteRegister.value (Audio.nr50 a)) 4) 0x7 =
    Z.land (ByteRegister.value (Audio.nr50 a)) 0x7 ->
  exists sample,
    Audio.left_buffer (Audio.mix_samples a) = Audio.left_buffer a ++ [sample] /\
    Audio.right_buffer (Audio.mix_samples a) =
      Audio.right_buffer a ++ [sample].
Proof.
  intros Hp Hv. unfold Audio.mix_samples.
  destruct (negb _); [by exists F32.zero|].
  cbv zeta. unfold bitwise.check_bit. rewrite Hv.
  pose proof (Hp 3 ltac:(lia)) as H7. pose proof (Hp 2 ltac:(lia)) as H6.
  pose proof (Hp 1 ltac:(lia)) as H5. pose proof (Hp 0 ltac:(lia)) as H4.
  change (3 + 4) with 7 in H7. change (2 + 4) with 6 in H6.
  change (1 + 4) with 5 in H5. change (0 + 4) with 4 in H4.
  rewrite H7, H6, H5, H4.
  eexists. split; reflexivity.
Qed.

Lemma balanced_mix_is_mono_witness :
  exists sample,
    Audio.left_buffer (Audio.mix_samples ringing) =
      Audio.left_buffer ringing ++ [sample] /\
    Audio.right_buffer (Audio.mix_samples ringing) =
      Audio.right_buffer ringing ++ [sample].
Proof.
  apply (balanced_mix_is_mono ringing).
  - intros i Hi.
    assert (Hc : i = 0 \/ i = 1 \/ i = 2 \/ i = 3) by lia.
    destruct Hc as [->|[->|[->| ->]]]; reflexivity.
  - reflexivity.
Defined.
